(** * terraform-ui: the Terraform visual editor and its document renderer

    A shallow embedding of the two React components of the repository,

    - [src/src/components/Terraform.tsx]  (module [TerraformTsx]), and
    - [src/unnamed/part_000]              (module [Part000]),

    and of the JavaScript primitives they rely on (module [JS]).

    Both components keep three pieces of state ([selectedCategory],
    [droppedResources], [terraformCode]), react to drag, input and select
    events, and render the dropped resources into a Terraform document.
    The theme flag [darkMode] only touches the DOM and local storage and is
    left out. *)

From Stdlib Require Import Ascii String NArith Lia.
From stdpp Require Import base list strings gmap.

(** ** JavaScript primitives *)

Module JS.

Local Open Scope N_scope.

(** Strings are sequences of code units; the model has the code units
    below 256.  On those, [String.prototype.toLowerCase] maps A-Z and the
    Latin-1 capitals U+00C0-U+00DE (U+00D7, the multiplication sign,
    excepted) to the code unit 32 above, and leaves every other unit. *)
Definition toLowerCase_unit (c : ascii) : ascii :=
  let n := N_of_ascii c in
  if ((65 <=? n) && (n <=? 90)) || ((192 <=? n) && (n <=? 222) && negb (n =? 215))
  then ascii_of_N (n + 32)
  else c.

Fixpoint toLowerCase (s : string) : string :=
  match s with
  | EmptyString => EmptyString
  | String c t => String (toLowerCase_unit c) (toLowerCase t)
  end.

(** The two characters a Rocq string literal cannot hold directly. *)
Definition dq : string := String (ascii_of_N 34) EmptyString.
Definition nl : string := String (ascii_of_N 10) EmptyString.

(** An array index is a canonical numeric string whose value is at most
    2^32 - 2: the digits of the number, without a leading zero. *)
Definition digit_of (c : ascii) : option N :=
  let n := N_of_ascii c in
  if (48 <=? n) && (n <=? 57) then Some (n - 48) else None.

Fixpoint digits_value (acc : N) (s : string) : option N :=
  match s with
  | EmptyString => Some acc
  | String c t =>
      match digit_of c with
      | Some d => digits_value (10 * acc + d) t
      | None => None
      end
  end.

Definition array_index (k : string) : option N :=
  match k with
  | EmptyString => None
  | String c t =>
      if (N_of_ascii c =? 48) && negb (String.eqb t EmptyString) then None
      else match digits_value 0 k with
           | Some n => if n <? 4294967295 then Some n else None
           | None => None
           end
  end.

Definition is_array_index (k : string) : bool :=
  match array_index k with Some _ => true | None => false end.

(** An ordinary object whose own properties are all string valued: the
    list of its own properties in creation order, without repeated keys. *)
Definition JsObject : Type := list (string * string).

(** The object literal [{}]. *)
Definition empty_object : JsObject := [].

Definition has_own (o : JsObject) (k : string) : bool :=
  existsb (fun kv => String.eqb (fst kv) k) o.

(** [o[k]] for an own property. *)
Definition get_own (o : JsObject) (k : string) : option string :=
  snd <$> List.find (fun kv => String.eqb (fst kv) k) o.

(** [o[k] = v] on an object created by [{}], for a string [v].  The key
    [__proto__] reaches the accessor of [Object.prototype], whose setter
    ignores a value that is neither an object nor null; every other key
    writes the own property, in place when it exists and as the newest
    property otherwise. *)
Definition assign (o : JsObject) (k v : string) : JsObject :=
  if String.eqb k "__proto__" then o
  else if has_own o k
       then List.map (fun kv => if String.eqb (fst kv) k then (k, v) else kv) o
       else o ++ [(k, v)].

(** [Object.entries(o)]: the own properties whose key is an array index, in
    ascending numeric order, then the others in creation order. *)
Fixpoint insert_by_index (e : N * (string * string))
    (l : list (N * (string * string))) : list (N * (string * string)) :=
  match l with
  | [] => [e]
  | e' :: l' => if fst e <=? fst e' then e :: l else e' :: insert_by_index e l'
  end.

Definition indexed (o : JsObject) : list (N * (string * string)) :=
  omap (fun kv => (fun n => (n, kv)) <$> array_index (fst kv)) o.

Definition Object_entries (o : JsObject) : list (string * string) :=
  (snd <$> foldr insert_by_index [] (indexed o))
  ++ List.filter (fun kv => negb (is_array_index (fst kv))) o.

End JS.

Import JS.

(** ** Data shared by the two components *)

(** [interface Resource]; [image] is declared by Terraform.tsx only. *)
Record Resource := {
  id : string;
  name : string;
  fields : list string;
  image : option string
}.

(** A dropped resource [{ ...resource, values: {} }]: the copied properties
    of the catalog entry and a reference to its own [values] object. *)
Record PlacedResource := {
  resource : Resource;
  values : nat
}.

(** The objects referenced by [values], by address. *)
Abbreviation Heap := (list JsObject).

Global Instance JsObject_inhabited : Inhabited JsObject := populate empty_object.

Definition deref (h : Heap) (a : nat) : JsObject := h !!! a.

(** The React state of the component.  [arrayId] is the identity of the
    array held in [droppedResources]: hook dependencies compare arrays by
    identity, and every array literal is a new array. *)
Record State := {
  selectedCategory : string;
  droppedResources : list PlacedResource;
  arrayId : nat;
  terraformCode : string;
  heap : Heap
}.

(** The outcome of an event handler: a new state, or a TypeError thrown
    before any state was set. *)
Inductive Result (A : Type) : Type :=
  | Ok (a : A)
  | TypeError.
Arguments Ok {A} a.
Arguments TypeError {A}.

Definition bind {A B} (r : Result A) (k : A -> Result B) : Result B :=
  match r with
  | Ok a => k a
  | TypeError => TypeError
  end.

(** What the user interface delivers: the end of a drag ([active.id]), a
    change of the input of a field of the resource at an index, a change
    of the category select, and an edit in the code editor. *)
Inductive event :=
  | DragEnd (active_id : string)
  | InputChange (index : nat) (field value : string)
  | SelectChange (category : string)
  | EditorChange (code : option string).

(** The text both renderers share. *)

(** The template literal that opens the document, up to [}\n\n]. *)
Definition preamble (provider : string) : string :=
  "terraform {" +:+ nl +:+
  "  required_providers {" +:+ nl +:+
  "    " +:+ provider +:+ " = {" +:+ nl +:+
  "      source  = " +:+ dq +:+ "hashicorp/" +:+ provider +:+ dq +:+ nl +:+
  "      version = " +:+ dq +:+ "~> 4.16" +:+ dq +:+ nl +:+
  "    }" +:+ nl +:+
  "  }" +:+ nl +:+
  "  required_version = " +:+ dq +:+ ">= 1.2.0" +:+ dq +:+ nl +:+
  "}" +:+ nl +:+ nl.

(** [provider "<p>" {}\n\n] *)
Definition provider_block (provider : string) : string :=
  "provider " +:+ dq +:+ provider +:+ dq +:+ " {}" +:+ nl +:+ nl.

(** [resource "${res.id}" "${res.id}_resource" {\n] *)
Definition resource_header (res_id : string) : string :=
  "resource " +:+ dq +:+ res_id +:+ dq +:+ " " +:+ dq +:+ res_id +:+ "_resource" +:+ dq
  +:+ " {" +:+ nl.

(** [  ${key} = "${value}"\n] *)
Definition field_line (kv : string * string) : string :=
  "  " +:+ fst kv +:+ " = " +:+ dq +:+ snd kv +:+ dq +:+ nl.

(** [}\n\n] *)
Definition resource_footer : string := "}" +:+ nl +:+ nl.

(** The body of [forEach((res) => ...)], the same in both files: three
    appends to [code], the middle one a loop over [Object.entries]. *)
Definition append_resource (h : Heap) (code : string) (res : PlacedResource) : string :=
  let code := code +:+ resource_header (id (resource res)) in
  let code := fold_left (fun code kv => code +:+ field_line kv)
                        (Object_entries (deref h (values res))) code in
  code +:+ resource_footer.

(** ** src/src/components/Terraform.tsx *)

Module TerraformTsx.

Definition mk (i n : string) (fs : list string) (img : string) : Resource :=
  {| id := i; name := n; fields := fs; image := Some img |}.

(** [const resources: Record<string, Resource[]>] *)
Definition resources : list (string * list Resource) :=
  [ ("AWS",
      [ mk "aws_ec2" "AWS EC2" ["ami"; "instance_type"; "tags"] "/aws-ec2.png";
        mk "aws_s3" "AWS S3" ["bucket_name"; "region"] "/aws-s3.png";
        mk "aws_rds" "AWS RDS" ["db_name"; "instance_class"] "/aws-rds.png" ]);
    ("OpenStack",
      [ mk "openstack_compute" "OpenStack Compute" ["flavor"; "image"] "/openstack-compute.png";
        mk "openstack_network" "OpenStack Network" ["cidr"; "subnet"] "/openstack-network.png" ]);
    ("Docker",
      [ mk "docker_container" "Docker Container" ["image"; "ports"] "/docker-container.png";
        mk "docker_network" "Docker Network" ["driver"] "/docker-network.png" ]) ].

(** [resources[category]]: the entry of the table, or [undefined]. *)
Definition resources_get (category : string) : option (list Resource) :=
  snd <$> List.find (fun e => String.eqb (fst e) category) resources.

(** [handleDragEnd], with [active.id] for the event.  Calling [find] on
    [undefined] throws. *)
Definition handleDragEnd (active_id : string) (s : State) : Result State :=
  match resources_get (selectedCategory s) with
  | None => TypeError
  | Some defs =>
      match List.find (fun r => String.eqb (id r) active_id) defs with
      | Some resource =>
          Ok {| selectedCategory := selectedCategory s;
                droppedResources :=
                  droppedResources s
                  ++ [ {| resource := resource; values := length (heap s) |} ];
                arrayId := S (arrayId s);
                terraformCode := terraformCode s;
                heap := heap s ++ [empty_object] |}
      | None => Ok s
      end
  end.

(** [updateResourceValue]: the copy [[...droppedResources]] is a new array
    of the same objects, and the assignment mutates the [values] object of
    the element at [index] where it lives.  Reading [values] of
    [undefined] throws. *)
Definition updateResourceValue (index : nat) (key value : string) (s : State)
    : Result State :=
  let updatedResources := droppedResources s in
  match updatedResources !! index with
  | None => TypeError
  | Some res =>
      Ok {| selectedCategory := selectedCategory s;
            droppedResources := updatedResources;
            arrayId := S (arrayId s);
            terraformCode := terraformCode s;
            heap := alter (fun o => assign o key value) (values res) (heap s) |}
  end.

(** The text [generateTerraformCode] hands to [setTerraformCode], from the
    [selectedCategory] and [droppedResources] of the render that created
    the closure. *)
Definition generateTerraformCode (h : Heap) (selectedCategory : string)
    (droppedResources : list PlacedResource) : string :=
  let code :=
    preamble (toLowerCase selectedCategory)
    +:+ provider_block (toLowerCase selectedCategory) in
  fold_left (append_resource h) droppedResources code.

(** A mounted component: its state and, for the two effects with
    dependencies in scope, the dependencies of their last run
    ([None] before the first). *)
Record Fiber := {
  state : State;
  clearDeps : option string;
  renderDeps : option (nat * string)
}.

Definition clear_pending (f : Fiber) : bool :=
  match clearDeps f with
  | Some c => negb (String.eqb c (selectedCategory (state f)))
  | None => true
  end.

Definition render_pending (f : Fiber) : bool :=
  match renderDeps f with
  | Some (a, c) =>
      negb (Nat.eqb a (arrayId (state f)) && String.eqb c (selectedCategory (state f)))
  | None => true
  end.

(** One commit: the effects whose dependencies changed run in the order
    of their declaration, both seeing the state of this render; the
    states they set are applied together afterwards. *)
Definition commit (f : Fiber) : Fiber :=
  let s := state f in
  let cleared := clear_pending f in
  let code :=
    if render_pending f
    then generateTerraformCode (heap s) (selectedCategory s) (droppedResources s)
    else terraformCode s in
  {| state :=
       {| selectedCategory := selectedCategory s;
          droppedResources := if cleared then [] else droppedResources s;
          arrayId := if cleared then S (arrayId s) else arrayId s;
          terraformCode := code;
          heap := heap s |};
     clearDeps := Some (selectedCategory s);
     renderDeps := Some (arrayId s, selectedCategory s) |}.

(** Renders follow one another until no effect has changed dependencies. *)
Fixpoint settle (fuel : nat) (f : Fiber) : Fiber :=
  if clear_pending f || render_pending f
  then match fuel with
       | O => f
       | S fuel' => settle fuel' (commit f)
       end
  else f.

(** The state an event handler sets. *)
Definition handle (ev : event) (s : State) : Result State :=
  match ev with
  | DragEnd active_id => handleDragEnd active_id s
  | InputChange index field value => updateResourceValue index field value s
  | SelectChange category =>
      Ok {| selectedCategory := category;
            droppedResources := droppedResources s;
            arrayId := arrayId s;
            terraformCode := terraformCode s;
            heap := heap s |}
  | EditorChange code =>
      Ok {| selectedCategory := selectedCategory s;
            droppedResources := droppedResources s;
            arrayId := arrayId s;
            terraformCode := default EmptyString code;
            heap := heap s |}
  end.

Definition with_state (f : Fiber) (s : State) : Fiber :=
  {| state := s; clearDeps := clearDeps f; renderDeps := renderDeps f |}.

(** The render of the state a handler has set.  Of the JSX only
    [resources[selectedCategory].map(...)] can throw, where the category is
    not a key of the catalog; nothing catches it, and the component is
    gone before an effect runs. *)
Definition render (s : State) : Result State :=
  match resources_get (selectedCategory s) with
  | Some _ => Ok s
  | None => TypeError
  end.

(** An event: its handler, the render of the new state, then the effects. *)
Definition dispatch (ev : event) (f : Fiber) : Result Fiber :=
  bind (handle ev (state f)) (fun s =>
  bind (render s) (fun s => Ok (settle 2 (with_state f s)))).

(** [useState("AWS")], [useState([])], [useState("")], then the effects of
    the first render. *)
Definition mount : Fiber :=
  settle 2
    {| state := {| selectedCategory := "AWS"; droppedResources := [];
                   arrayId := O; terraformCode := EmptyString; heap := [] |};
       clearDeps := None;
       renderDeps := None |}.

Fixpoint run (evs : list event) (f : Fiber) : Result Fiber :=
  match evs with
  | [] => Ok f
  | ev :: evs' => bind (dispatch ev f) (run evs')
  end.

End TerraformTsx.

(** ** src/unnamed/part_000 *)

Module Part000.

Definition mk (i n : string) (fs : list string) : Resource :=
  {| id := i; name := n; fields := fs; image := None |}.

(** [const resources: Record<string, Resource[]>] *)
Definition resources : list (string * list Resource) :=
  [ ("AWS",
      [ mk "aws_ec2" "AWS EC2" ["ami"; "instance_type"; "tags"];
        mk "aws_s3" "AWS S3" ["bucket_name"; "region"];
        mk "aws_rds" "AWS RDS" ["db_name"; "instance_class"] ]);
    ("OpenStack",
      [ mk "openstack_compute" "OpenStack Compute" ["flavor"; "image"];
        mk "openstack_network" "OpenStack Network" ["cidr"; "subnet"] ]);
    ("Docker",
      [ mk "docker_container" "Docker Container" ["image"; "ports"];
        mk "docker_network" "Docker Network" ["driver"] ]) ].

Definition resources_get (category : string) : option (list Resource) :=
  snd <$> List.find (fun e => String.eqb (fst e) category) resources.

(** The text [updateTerraformCode(resources)] hands to [setTerraformCode];
    the parameter hides the catalog of the same name. *)
Definition updateTerraformCode (h : Heap) (selectedCategory : string)
    (resources : list PlacedResource) : string :=
  let code := preamble (toLowerCase selectedCategory) in
  fold_left (append_resource h) resources code.

(** [handleDragEnd] writes the literal [{ ...resource, values: {} }] twice:
    the state receives the first object and the renderer the second, each
    with a [values] object of its own. *)
Definition handleDragEnd (active_id : string) (s : State) : Result State :=
  match resources_get (selectedCategory s) with
  | None => TypeError
  | Some defs =>
      match List.find (fun r => String.eqb (id r) active_id) defs with
      | Some resource =>
          let h := heap s ++ [empty_object; empty_object] in
          Ok {| selectedCategory := selectedCategory s;
                droppedResources :=
                  droppedResources s
                  ++ [ {| resource := resource; values := length (heap s) |} ];
                arrayId := S (arrayId s);
                terraformCode :=
                  updateTerraformCode h (selectedCategory s)
                    (droppedResources s
                     ++ [ {| resource := resource; values := S (length (heap s)) |} ]);
                heap := h |}
      | None => Ok s
      end
  end.

Definition updateResourceValue (index : nat) (key value : string) (s : State)
    : Result State :=
  let updatedResources := droppedResources s in
  match updatedResources !! index with
  | None => TypeError
  | Some res =>
      let h := alter (fun o => assign o key value) (values res) (heap s) in
      Ok {| selectedCategory := selectedCategory s;
            droppedResources := updatedResources;
            arrayId := S (arrayId s);
            terraformCode := updateTerraformCode h (selectedCategory s) updatedResources;
            heap := h |}
  end.

(** The state an event handler sets. *)
Definition handle (ev : event) (s : State) : Result State :=
  match ev with
  | DragEnd active_id => handleDragEnd active_id s
  | InputChange index field value => updateResourceValue index field value s
  | SelectChange category =>
      Ok {| selectedCategory := category;
            droppedResources := droppedResources s;
            arrayId := arrayId s;
            terraformCode := terraformCode s;
            heap := heap s |}
  | EditorChange code =>
      Ok {| selectedCategory := selectedCategory s;
            droppedResources := droppedResources s;
            arrayId := arrayId s;
            terraformCode := default EmptyString code;
            heap := heap s |}
  end.

(** The render of the state a handler has set: as in Terraform.tsx,
    [resources[selectedCategory].map(...)] throws where the category is not
    a key of the catalog. *)
Definition render (s : State) : Result State :=
  match resources_get (selectedCategory s) with
  | Some _ => Ok s
  | None => TypeError
  end.

(** No effect depends on the state here: an event is its handler and the
    render of the state it sets. *)
Definition dispatch (ev : event) (s : State) : Result State :=
  bind (handle ev s) render.

Definition mount : State :=
  {| selectedCategory := "AWS"; droppedResources := [];
     arrayId := O; terraformCode := EmptyString; heap := [] |}.

Fixpoint run (evs : list event) (s : State) : Result State :=
  match evs with
  | [] => Ok s
  | ev :: evs' => bind (dispatch ev s) (run evs')
  end.

End Part000.

(** ** The reading of the specification, for comparison *)

(** The keys of a sequence of edits in the order of their first
    occurrence. *)
Fixpoint first_occurrences (ks : list string) : list string :=
  match ks with
  | [] => []
  | k :: ks' => k :: List.filter (fun k' => negb (String.eqb k' k)) (first_occurrences ks')
  end.

(** The value the last edit of [k] entered. *)
Fixpoint last_value (k : string) (edits : list (string * string)) : option string :=
  match edits with
  | [] => None
  | (k', v) :: edits' =>
      match last_value k edits' with
      | Some v' => Some v'
      | None => if String.eqb k' k then Some v else None
      end
  end.

(** Edit order: one entry per edited field, in the order the fields were
    first edited, each with the value entered last. *)
Definition edit_order (edits : list (string * string)) : list (string * string) :=
  omap (fun k => (fun v => (k, v)) <$> last_value k edits)
       (first_occurrences (fst <$> edits)).

(** The [values] object after a sequence of edits of a new resource. *)
Definition edited (edits : list (string * string)) : JsObject :=
  fold_left (fun o kv => assign o (fst kv) (snd kv)) edits empty_object.

(** Catalog declaration order: one line per declared field that has a
    value, in the order of the [fields] list of the resource. *)
Definition declaration_order (res : Resource) (o : JsObject) : list (string * string) :=
  omap (fun k => (fun v => (k, v)) <$> get_own o k) (fields res).

(** The resource blocks of a document whose lines follow the catalog. *)
Definition blocks_by_declaration (h : Heap) (rs : list PlacedResource) : string :=
  fold_left
    (fun code res =>
       fold_left (fun code kv => code +:+ field_line kv)
                 (declaration_order (resource res) (deref h (values res)))
                 (code +:+ resource_header (id (resource res)))
       +:+ resource_footer)
    rs EmptyString.

(** ** What a document is made of *)

(** The text of a list of pieces. *)
Definition text_of (pieces : list string) : string :=
  foldr String.append EmptyString pieces.

(** All a renderer reads of a dropped resource: its [id] and the entries
    of its [values] object. *)
Definition observable (h : Heap) (res : PlacedResource)
    : string * list (string * string) :=
  (id (resource res), Object_entries (deref h (values res))).

(** The lines of a resource block, one per entry. *)
Definition resource_lines (h : Heap) (res : PlacedResource) : list string :=
  field_line <$> snd (observable h res).

(** A resource block: header, lines, footer. *)
Definition block_of (ob : string * list (string * string)) : string :=
  resource_header (fst ob) +:+ text_of (field_line <$> snd ob) +:+ resource_footer.

Definition resource_block (h : Heap) (res : PlacedResource) : string :=
  block_of (observable h res).

(** A key that [Object.entries] keeps where it was created and that
    assignment writes: not an array index, and not [__proto__]. *)
Definition plain_key (k : string) : bool :=
  negb (is_array_index k) && negb (String.eqb k "__proto__").

(** Every field a catalog declares. *)
Definition declared_fields (catalog : list (string * list Resource)) : list string :=
  concat ((fun e => concat (fields <$> snd e)) <$> catalog).

(** No two dropped resources share a [values] object, and every reference
    is to an allocated object. *)
Definition sep (rs : list PlacedResource) (h : Heap) : Prop :=
  NoDup (values <$> rs) /\ Forall (fun res => (values res < length h)%nat) rs.

Definition separate (s : State) : Prop := sep (droppedResources s) (heap s).

(** The session of the specification's concrete scenario, and the one of
    its field-edit ordering. *)
Definition scenario : list event :=
  [ DragEnd "aws_s3";
    InputChange 0 "bucket_name" "my-bucket";
    InputChange 0 "region" "us-east-1" ].

Definition region_first : list event :=
  [ DragEnd "aws_s3";
    InputChange 0 "region" "us-east-1";
    InputChange 0 "bucket_name" "my-bucket" ].

Definition region_twice : list event :=
  region_first ++ [ InputChange 0 "region" "eu-west-1" ].

(** [k] is a field some entry of the catalog declares: the inputs of the
    form, hence the keys [updateResourceValue] receives, are these. *)
Definition declared (k : string) : bool :=
  existsb (String.eqb k) (declared_fields TerraformTsx.resources).

(** ** The history of a session, for comparison *)

(** What a session has done to the resources now on the canvas: the active
    category, and the edits made since the canvas was last emptied, each
    with the index of its resource.  [clears] tells whether a change of
    category empties the canvas. *)
Definition record (clears : bool) (g : string * list (nat * (string * string)))
    (ev : event) : string * list (nat * (string * string)) :=
  match ev with
  | InputChange index field value => (fst g, snd g ++ [(index, (field, value))])
  | SelectChange category =>
      if clears && negb (String.eqb category (fst g))
      then (category, [])
      else (category, snd g)
  | DragEnd _ | EditorChange _ => g
  end.

Definition ledger (clears : bool) (evs : list event)
    : string * list (nat * (string * string)) :=
  fold_left (record clears) evs ("AWS", []).

(** The edits made to the resource at an index, oldest first. *)
Definition edits_at (i : nat) (log : list (nat * (string * string)))
    : list (string * string) :=
  snd <$> List.filter (fun e => Nat.eqb (fst e) i) log.

(** What the form can deliver: its inputs are those of the declared
    fields. *)
Definition ui_event (ev : event) : bool :=
  match ev with
  | InputChange _ field _ => declared field
  | _ => true
  end.

(** A history [g] accounts for a canvas: it has the category, the values
    objects are kept apart, and the values of each resource are its edits
    applied to a new object; an index without a resource has no edit. *)
Definition tracking (g : string * list (nat * (string * string)))
    (category : string) (rs : list PlacedResource) (h : Heap) : Prop :=
  fst g = category
  /\ sep rs h
  /\ forall i,
       match rs !! i with
       | Some res => deref h (values res) = edited (edits_at i (snd g))
       | None => edits_at i (snd g) = []
       end.

Definition tracks (g : string * list (nat * (string * string))) (s : State) : Prop :=
  tracking g (selectedCategory s) (droppedResources s) (heap s).

(** Between two events no effect of Terraform.tsx is left to run. *)
Definition quiescent (f : TerraformTsx.Fiber) : Prop :=
  TerraformTsx.clear_pending f = false /\ TerraformTsx.render_pending f = false.

(** The states a session of either component can be in. *)
Definition reachable (s : State) : Prop :=
  (exists evs f,
     TerraformTsx.run evs TerraformTsx.mount = Ok f /\ TerraformTsx.state f = s)
  \/ (exists evs, Part000.run evs Part000.mount = Ok s).

(** The description of the two renderer variants.  A renderer with a given
    head iterates the fields of a resource by catalog declaration, or by
    edit order (the entries of the values object). *)
Definition iterates_by_declaration
    (render : Heap -> string -> list PlacedResource -> string)
    (head : string -> string) : Prop :=
  forall h c rs, render h c rs = head (toLowerCase c) +:+ blocks_by_declaration h rs.

Definition iterates_by_edit_order
    (render : Heap -> string -> list PlacedResource -> string)
    (head : string -> string) : Prop :=
  forall h c rs,
    render h c rs = head (toLowerCase c) +:+ text_of (resource_block h <$> rs).

Definition head_with_provider (p : string) : string := preamble p +:+ provider_block p.

(** One variant emits the provider block and the other does not; one
    iterates by catalog declaration and the other by edit order. *)
Definition variants_as_described : Prop :=
  (iterates_by_declaration TerraformTsx.generateTerraformCode head_with_provider
   /\ iterates_by_edit_order Part000.updateTerraformCode preamble)
  \/ (iterates_by_edit_order TerraformTsx.generateTerraformCode head_with_provider
      /\ iterates_by_declaration Part000.updateTerraformCode preamble).

(** Two resources dropped in Terraform.tsx, the first with region edited
    before bucket_name. *)
Definition aws_s3 : Resource :=
  TerraformTsx.mk "aws_s3" "AWS S3" ["bucket_name"; "region"] "/aws-s3.png".

Definition aws_ec2 : Resource :=
  TerraformTsx.mk "aws_ec2" "AWS EC2" ["ami"; "instance_type"; "tags"] "/aws-ec2.png".

Definition two_dropped_session : list event :=
  [ DragEnd "aws_s3";
    InputChange 0 "region" "us-east-1";
    InputChange 0 "bucket_name" "my-bucket";
    DragEnd "aws_ec2" ].

Definition two_dropped : State :=
  {| selectedCategory := "AWS";
     droppedResources :=
       [ {| resource := aws_s3; values := 0 |}; {| resource := aws_ec2; values := 1 |} ];
     arrayId := 5;
     terraformCode :=
       TerraformTsx.generateTerraformCode
         [ [("region", "us-east-1"); ("bucket_name", "my-bucket")]; [] ] "AWS"
         [ {| resource := aws_s3; values := 0 |}; {| resource := aws_ec2; values := 1 |} ];
     heap := [ [("region", "us-east-1"); ("bucket_name", "my-bucket")]; [] ] |}.

(** ** The theme, in both files *)

(** [darkMode] shares no dependency with the rest of the state: it is
    modelled on its own, with the two objects its effect writes.  The
    storage is taken to be available (no exception from [getItem] and
    [setItem]). *)
Module Theme.

(** [localStorage], and the class list of [document.documentElement]. *)
Record Page := {
  localStorage : gmap string string;
  classList : gset string
}.

(** [localStorage.getItem(key)]: the value, or [null]. *)
Definition getItem (p : Page) (key : string) : option string :=
  localStorage p !! key.

(** The effect with dependency [[darkMode]]. *)
Definition themeEffect (darkMode : bool) (p : Page) : Page :=
  if darkMode
  then {| localStorage := <["theme" := "dark"]> (localStorage p);
          classList := {["dark"]} ∪ classList p |}
  else {| localStorage := <["theme" := "light"]> (localStorage p);
          classList := classList p ∖ {["dark"]} |}.

(** [useState(localStorage.getItem("theme") === "dark")], then the effect
    of the first render. *)
Definition mount (p : Page) : bool * Page :=
  let darkMode := bool_decide (getItem p "theme" = Some "dark") in
  (darkMode, themeEffect darkMode p).

(** [onClick={() => setDarkMode(!darkMode)}], then the effect of the
    render with the new value. *)
Definition click (c : bool * Page) : bool * Page :=
  let darkMode := negb (fst c) in
  (darkMode, themeEffect darkMode (snd c)).

Fixpoint clicks (n : nat) (c : bool * Page) : bool * Page :=
  match n with
  | O => c
  | S n' => clicks n' (click c)
  end.

End Theme.

(** ** What the components render *)

Module View.

(** [Object.keys(resources).map(...)]: the options of the select. *)
Definition options (catalog : list (string * list Resource)) : list string :=
  fst <$> catalog.

(** [resources[selectedCategory].map(...)]: the ids of the draggable
    items; [map] of [undefined] throws while rendering. *)
Definition draggables (get : string -> option (list Resource)) (s : State)
    : Result (list string) :=
  match get (selectedCategory s) with
  | Some defs => Ok (id <$> defs)
  | None => TypeError
  end.

(** [droppedResources.map((res, index) => res.fields.map((field) => ...))]:
    the inputs of the form, each with the index and the field its
    [onChange] passes to [updateResourceValue]. *)
Definition inputs (s : State) : list (nat * string) :=
  concat (imap (fun index res => (fun field => (index, field)) <$> fields (resource res))
               (droppedResources s)).

(** The events the rendered page can deliver. *)
Definition enabled (catalog : list (string * list Resource))
    (get : string -> option (list Resource)) (s : State) (ev : event) : bool :=
  match ev with
  | DragEnd active_id =>
      match draggables get s with
      | Ok ids => existsb (String.eqb active_id) ids
      | TypeError => false
      end
  | InputChange index field _ =>
      existsb (fun e => Nat.eqb (fst e) index && String.eqb (snd e) field) (inputs s)
  | SelectChange category => existsb (String.eqb category) (options catalog)
  | EditorChange _ => true
  end.

(** A session in which every event is one the page of its moment can
    deliver. *)
Fixpoint admissible_tsx (evs : list event) (f : TerraformTsx.Fiber) : bool :=
  match evs with
  | [] => true
  | ev :: evs' =>
      enabled TerraformTsx.resources TerraformTsx.resources_get (TerraformTsx.state f) ev
      && match TerraformTsx.dispatch ev f with
         | Ok f' => admissible_tsx evs' f'
         | TypeError => true
         end
  end.

Fixpoint admissible_000 (evs : list event) (s : State) : bool :=
  match evs with
  | [] => true
  | ev :: evs' =>
      enabled Part000.resources Part000.resources_get s ev
      && match Part000.dispatch ev s with
         | Ok s' => admissible_000 evs' s'
         | TypeError => true
         end
  end.

End View.

(** ** Documents that can be read back *)

(** The code unit [c] occurs in [s]. *)
Fixpoint occurs (c : ascii) (s : string) : bool :=
  match s with
  | EmptyString => false
  | String x t => Ascii.eqb x c || occurs c t
  end.

(** An id without line feed, keys without space or line feed, values
    without line feed. *)
Definition clean (ob : string * list (string * string)) : bool :=
  negb (occurs (ascii_of_N 10) (fst ob))
  && forallb (fun kv => negb (occurs (ascii_of_N 32) (fst kv))
                        && negb (occurs (ascii_of_N 10) (fst kv))
                        && negb (occurs (ascii_of_N 10) (snd kv)))
             (snd ob).

(** The lines of a block, without their line feeds. *)
Definition header_text (res_id : string) : string :=
  "resource " +:+ dq +:+ res_id +:+ dq +:+ " " +:+ dq +:+ res_id +:+ "_resource" +:+ dq
  +:+ " {".

Definition field_text (kv : string * string) : string :=
  "  " +:+ fst kv +:+ " = " +:+ dq +:+ snd kv +:+ dq.

Definition block_lines (ob : string * list (string * string)) : list string :=
  header_text (fst ob) :: (field_text <$> snd ob) ++ ["}"; EmptyString].

Definition unlines (ls : list string) : string :=
  text_of ((fun l => l +:+ nl) <$> ls).

(** An event of a session in which the editor is left alone and the
    inputs receive text without line feed (an input of type text holds
    none). *)
Definition typed (ev : event) : bool :=
  match ev with
  | InputChange _ field value => declared field && negb (occurs (ascii_of_N 10) value)
  | EditorChange _ => false
  | _ => true
  end.

(** The document of a session is that of its state. *)
Definition synced (f : TerraformTsx.Fiber) : Prop :=
  terraformCode (TerraformTsx.state f)
  = TerraformTsx.generateTerraformCode (heap (TerraformTsx.state f))
      (selectedCategory (TerraformTsx.state f)) (droppedResources (TerraformTsx.state f)).

Definition is_editor_change (ev : event) : bool :=
  match ev with
  | EditorChange _ => true
  | _ => false
  end.

(** * Properties *)

(** ** Text *)

Lemma append_cons (x : ascii) (a b : string) :
  String x a +:+ b = String x (a +:+ b).
Proof. reflexivity. Qed.

Lemma append_assoc (a b c : string) : (a +:+ b) +:+ c = a +:+ (b +:+ c).
Proof.
  induction a as [|x a IH]; [reflexivity |].
  by rewrite !append_cons, IH.
Qed.

Lemma append_empty_r (a : string) : a +:+ EmptyString = a.
Proof.
  induction a as [|x a IH]; [reflexivity |].
  by rewrite append_cons, IH.
Qed.

Lemma length_append (a b : string) :
  String.length (a +:+ b) = (String.length a + String.length b)%nat.
Proof.
  induction a as [|x a IH]; [reflexivity |].
  rewrite append_cons. simpl. by rewrite IH.
Qed.

Lemma append_cancel_l (a b c : string) : a +:+ b = a +:+ c -> b = c.
Proof.
  induction a as [|x a IH]; [done |].
  rewrite !append_cons. intros H. injection H. auto.
Qed.

Lemma text_of_app (l1 l2 : list string) :
  text_of (l1 ++ l2) = text_of l1 +:+ text_of l2.
Proof.
  induction l1 as [|x l1 IH]; simpl; [reflexivity |].
  by rewrite IH, append_assoc.
Qed.

(** ** The loops of the renderers *)

Lemma fold_field_lines (entries : list (string * string)) (code : string) :
  fold_left (fun code kv => code +:+ field_line kv) entries code
  = code +:+ text_of (field_line <$> entries).
Proof.
  revert code. induction entries as [|kv entries IH]; intros code; simpl.
  - by rewrite append_empty_r.
  - by rewrite IH, append_assoc.
Qed.

Lemma append_resource_block (h : Heap) (code : string) (res : PlacedResource) :
  append_resource h code res = code +:+ resource_block h res.
Proof.
  unfold append_resource, resource_block, block_of, observable. simpl.
  by rewrite fold_field_lines, !append_assoc.
Qed.

Lemma fold_resources (h : Heap) (rs : list PlacedResource) (code : string) :
  fold_left (append_resource h) rs code
  = code +:+ text_of (resource_block h <$> rs).
Proof.
  revert code. induction rs as [|res rs IH]; intros code.
  - simpl. by rewrite append_empty_r.
  - rewrite fmap_cons. cbn [fold_left text_of foldr].
    by rewrite IH, append_resource_block, append_assoc.
Qed.

Lemma generateTerraformCode_blocks (h : Heap) (c : string) (rs : list PlacedResource) :
  TerraformTsx.generateTerraformCode h c rs
  = preamble (toLowerCase c) +:+ provider_block (toLowerCase c)
    +:+ text_of (resource_block h <$> rs).
Proof.
  unfold TerraformTsx.generateTerraformCode. cbv zeta.
  by rewrite fold_resources, append_assoc.
Qed.

Lemma updateTerraformCode_blocks (h : Heap) (c : string) (rs : list PlacedResource) :
  Part000.updateTerraformCode h c rs
  = preamble (toLowerCase c) +:+ text_of (resource_block h <$> rs).
Proof. unfold Part000.updateTerraformCode. cbv zeta. by rewrite fold_resources. Qed.

(** ** The concrete scenario *)

(** C1. Category "AWS", one dropped resource "aws_s3", the values
    bucket_name = "my-bucket" and region = "us-east-1" entered in that
    order: the session runs without an exception and the document of
    Terraform.tsx is the preamble naming provider aws, the provider block,
    and the block of the specification; the document of part_000 is the same
    preamble followed directly by the same block. *)
Theorem scenario_document :
  let block :=
    "resource " +:+ dq +:+ "aws_s3" +:+ dq +:+ " " +:+ dq +:+ "aws_s3_resource" +:+ dq
      +:+ " {" +:+ nl +:+
    "  bucket_name = " +:+ dq +:+ "my-bucket" +:+ dq +:+ nl +:+
    "  region = " +:+ dq +:+ "us-east-1" +:+ dq +:+ nl +:+
    "}" +:+ nl +:+ nl in
  let fixed_preamble :=
    "terraform {" +:+ nl +:+
    "  required_providers {" +:+ nl +:+
    "    aws = {" +:+ nl +:+
    "      source  = " +:+ dq +:+ "hashicorp/aws" +:+ dq +:+ nl +:+
    "      version = " +:+ dq +:+ "~> 4.16" +:+ dq +:+ nl +:+
    "    }" +:+ nl +:+
    "  }" +:+ nl +:+
    "  required_version = " +:+ dq +:+ ">= 1.2.0" +:+ dq +:+ nl +:+
    "}" +:+ nl +:+ nl in
  (exists f,
     TerraformTsx.run scenario TerraformTsx.mount = Ok f
     /\ length (droppedResources (TerraformTsx.state f)) = 1%nat
     /\ terraformCode (TerraformTsx.state f)
        = fixed_preamble +:+ ("provider " +:+ dq +:+ "aws" +:+ dq +:+ " {}" +:+ nl +:+ nl)
          +:+ block)
  /\ (exists s,
        Part000.run scenario Part000.mount = Ok s
        /\ length (droppedResources s) = 1%nat
        /\ terraformCode s = fixed_preamble +:+ block).
Proof.
  split; eexists; (split; [vm_compute; reflexivity |]); split; reflexivity.
Qed.

(** ** Resource blocks *)

(** C2. For every category and every sequence of N dropped resources, the
    document of either renderer is its header followed by exactly N
    resource blocks; the i-th block is the block of the i-th resource of
    the sequence, and it is headed by
    resource "<id>" "<id>_resource" { with the id of that resource. *)
Theorem blocks_follow_resources (h : Heap) (c : string) (rs : list PlacedResource) :
  let blocks := resource_block h <$> rs in
  TerraformTsx.generateTerraformCode h c rs
    = preamble (toLowerCase c) +:+ provider_block (toLowerCase c) +:+ text_of blocks
  /\ Part000.updateTerraformCode h c rs
    = preamble (toLowerCase c) +:+ text_of blocks
  /\ length blocks = length rs
  /\ (forall i, blocks !! i = resource_block h <$> rs !! i)
  /\ (forall res, exists body,
        resource_block h res
        = "resource " +:+ dq +:+ id (resource res) +:+ dq +:+ " " +:+ dq
          +:+ id (resource res) +:+ "_resource" +:+ dq +:+ " {" +:+ nl
          +:+ body +:+ "}" +:+ nl +:+ nl).
Proof.
  cbv zeta. split; [apply generateTerraformCode_blocks |].
  split; [apply updateTerraformCode_blocks |].
  split; [apply length_fmap |].
  split; [intros i; apply list_lookup_fmap |].
  intros res. exists (text_of (resource_lines h res)).
  unfold resource_block, block_of, resource_header, resource_footer, resource_lines.
  cbn [fst snd observable]. by rewrite !append_assoc.
Qed.

(** C3. For every category C and no dropped resource, the document of
    Terraform.tsx is exactly the preamble, with the required provider keyed
    by lowercase(C), the source hashicorp/lowercase(C), the version
    constraint ~> 4.16 and the required version >= 1.2.0, followed by the
    provider block of lowercase(C); it has no resource block. *)
Theorem empty_document (h : Heap) (C : string) :
  let p := toLowerCase C in
  TerraformTsx.generateTerraformCode h C []
  = "terraform {" +:+ nl +:+
    "  required_providers {" +:+ nl +:+
    "    " +:+ p +:+ " = {" +:+ nl +:+
    "      source  = " +:+ dq +:+ "hashicorp/" +:+ p +:+ dq +:+ nl +:+
    "      version = " +:+ dq +:+ "~> 4.16" +:+ dq +:+ nl +:+
    "    }" +:+ nl +:+
    "  }" +:+ nl +:+
    "  required_version = " +:+ dq +:+ ">= 1.2.0" +:+ dq +:+ nl +:+
    "}" +:+ nl +:+ nl +:+
    "provider " +:+ dq +:+ p +:+ dq +:+ " {}" +:+ nl +:+ nl
  /\ resource_block h <$> [] = [].
Proof.
  cbv zeta. split; [| reflexivity].
  rewrite generateTerraformCode_blocks.
  unfold preamble, provider_block. cbn [fmap list_fmap text_of foldr].
  rewrite append_empty_r. by rewrite !append_assoc.
Qed.

(** The renderer of part_000 on no resource: the preamble alone. *)
Lemma part000_empty_document (h : Heap) (C : string) :
  Part000.updateTerraformCode h C [] = preamble (toLowerCase C).
Proof. reflexivity. Qed.

Lemma resource_block_observable (h : Heap) (rs : list PlacedResource) :
  resource_block h <$> rs = block_of <$> (observable h <$> rs).
Proof. unfold resource_block. by rewrite <- list_fmap_compose. Qed.

(** C6. The renderers are deterministic, and their output is a function of
    the category and of what the sequence shows in order, the id and the
    entries of each resource: two renders that agree on these produce the
    same text, wherever the objects live and whatever else the state
    holds; in particular rendering the same pair twice gives the same
    text. *)
Theorem renderer_deterministic (h1 h2 : Heap) (c : string)
    (rs1 rs2 : list PlacedResource) :
  observable h1 <$> rs1 = observable h2 <$> rs2 ->
  TerraformTsx.generateTerraformCode h1 c rs1
    = TerraformTsx.generateTerraformCode h2 c rs2
  /\ Part000.updateTerraformCode h1 c rs1
    = Part000.updateTerraformCode h2 c rs2.
Proof.
  intros Hobs.
  rewrite !generateTerraformCode_blocks, !updateTerraformCode_blocks.
  rewrite !resource_block_observable, Hobs. done.
Qed.

Lemma renderer_deterministic_witness :
  let r1 := {| resource := TerraformTsx.mk "aws_s3" "AWS S3" ["bucket_name"; "region"] "/aws-s3.png";
               values := 0 |} in
  let r2 := {| resource := Part000.mk "aws_s3" "S3" ["region"]; values := 1 |} in
  let h1 := [[("region", "us-east-1")]] in
  let h2 := [[("region", "eu-west-1")]; [("region", "us-east-1")]] in
  TerraformTsx.generateTerraformCode h1 "AWS" [r1]
    = TerraformTsx.generateTerraformCode h2 "AWS" [r2]
  /\ Part000.updateTerraformCode h1 "AWS" [r1]
    = Part000.updateTerraformCode h2 "AWS" [r2].
Proof.
  cbv zeta. apply renderer_deterministic. reflexivity.
Defined.

(** ** Object.entries *)

Lemma insert_by_index_perm (e : N * (string * string)) (l : list (N * (string * string))) :
  insert_by_index e l ≡ₚ e :: l.
Proof.
  induction l as [|e' l IH]; simpl; [done |].
  destruct (fst e <=? fst e')%N; [done |].
  rewrite IH. apply Permutation_swap.
Qed.

Lemma sorted_indexed_perm (l : list (N * (string * string))) :
  foldr insert_by_index [] l ≡ₚ l.
Proof.
  induction l as [|e l IH]; simpl; [done |].
  by rewrite insert_by_index_perm, IH.
Qed.

Lemma indexed_entries (o : JsObject) :
  snd <$> indexed o = List.filter (fun kv => is_array_index (fst kv)) o.
Proof.
  unfold indexed, is_array_index.
  induction o as [|kv o IH]; [done |].
  cbn [List.filter]. rewrite <- IH. csimpl.
  by destruct (array_index (fst kv)).
Qed.

Lemma filter_partition_perm {A} (P : A -> bool) (l : list A) :
  List.filter P l ++ List.filter (fun x => negb (P x)) l ≡ₚ l.
Proof.
  induction l as [|x l IH]; simpl; [done |].
  destruct (P x); simpl.
  - by rewrite IH.
  - rewrite <- Permutation_middle. by rewrite IH.
Qed.

Lemma Object_entries_perm (o : JsObject) : Object_entries o ≡ₚ o.
Proof.
  unfold Object_entries.
  rewrite sorted_indexed_perm, indexed_entries.
  apply (filter_partition_perm (fun kv => is_array_index (fst kv))).
Qed.

(** With no array index among the keys, the entries are the properties in
    creation order. *)
Lemma Object_entries_plain (o : JsObject) :
  Forall (fun kv => is_array_index (fst kv) = false) o ->
  Object_entries o = o.
Proof.
  intros Hplain. unfold Object_entries.
  assert (Hidx : indexed o = []).
  { unfold indexed. induction Hplain as [|kv o Hkv _ IH]; [done |].
    csimpl. unfold is_array_index in Hkv.
    destruct (array_index (fst kv)) eqn:E; [discriminate Hkv | exact IH]. }
  rewrite Hidx. clear Hidx. cbn [foldr fmap list_fmap app].
  induction Hplain as [|kv o Hkv _ IH]; [done |].
  cbn [List.filter]. rewrite Hkv. cbn [negb]. by rewrite IH.
Qed.

(** C7. For every heap, category and sequence of dropped resources the
    renderers return a document (they are total: no step of them can
    throw).  The lines of a resource are one per entry of its values
    object, a declared field without a value has none: the keys of the
    lines are the keys present in the object.  Each line is two spaces,
    the key, an equals sign and the value between double quotes, the value
    as it is: a double quote or a line feed in it arrives unescaped in the
    document. *)
Theorem renderer_total_verbatim (h : Heap) (c : string) (rs : list PlacedResource)
    (res : PlacedResource) :
  TerraformTsx.generateTerraformCode h c rs
    = preamble (toLowerCase c) +:+ provider_block (toLowerCase c)
      +:+ text_of (resource_block h <$> rs)
  /\ Part000.updateTerraformCode h c rs
    = preamble (toLowerCase c) +:+ text_of (resource_block h <$> rs)
  /\ resource_block h res
    = resource_header (id (resource res)) +:+ text_of (resource_lines h res)
      +:+ resource_footer
  /\ resource_lines h res
    = (fun kv => "  " +:+ fst kv +:+ " = " +:+ dq +:+ snd kv +:+ dq +:+ nl)
      <$> Object_entries (deref h (values res))
  /\ fst <$> Object_entries (deref h (values res)) ≡ₚ fst <$> deref h (values res)
  /\ resource_lines [[("note", "say " +:+ dq +:+ "hi" +:+ dq +:+ nl +:+ "bye")]]
       {| resource := Part000.mk "aws_s3" "AWS S3" ["bucket_name"; "note"]; values := 0 |}
    = [ "  note = " +:+ dq +:+ "say " +:+ dq +:+ "hi" +:+ dq +:+ nl +:+ "bye" +:+ dq +:+ nl ].
Proof.
  split; [apply generateTerraformCode_blocks |].
  split; [apply updateTerraformCode_blocks |].
  split; [reflexivity |].
  split; [reflexivity |].
  split; [by rewrite Object_entries_perm | reflexivity].
Qed.

(** Why the keys have to be plain: an array index moves to the front of
    the entries, and an assignment to [__proto__] creates no property.
    The catalog declares no such field. *)
Lemma array_index_keys_come_first :
  Object_entries [("region", "x"); ("10", "b"); ("2", "a"); ("01", "c")]
  = [("2", "a"); ("10", "b"); ("region", "x"); ("01", "c")].
Proof. reflexivity. Qed.

Lemma proto_assignment_ignored (o : JsObject) (v : string) :
  assign o "__proto__" v = o.
Proof. reflexivity. Qed.

(** ** Edits of a values object *)

Lemma edited_snoc (edits : list (string * string)) (k v : string) :
  edited (edits ++ [(k, v)]) = assign (edited edits) k v.
Proof. unfold edited. by rewrite fold_left_app. Qed.

Lemma elem_of_filter_ne (k k0 : string) (ks : list string) :
  k ∈ List.filter (fun k' => negb (String.eqb k' k0)) ks <-> k ∈ ks /\ k <> k0.
Proof.
  rewrite !list_elem_of_In, filter_In.
  split; intros [Hin Hne]; split; try done.
  - intros ->. by rewrite String.eqb_refl in Hne.
  - apply String.eqb_neq in Hne. by rewrite Hne.
Qed.

Lemma first_occurrences_elem (k : string) (ks : list string) :
  k ∈ first_occurrences ks <-> k ∈ ks.
Proof.
  induction ks as [|k0 ks IH]; simpl; [done |].
  rewrite !elem_of_cons, elem_of_filter_ne, IH.
  destruct (decide (k = k0)) as [-> | Hne].
  - split; intros _; by left.
  - split; (intros [Heq | Hin]; [done | right]); [apply Hin | done].
Qed.

Lemma first_occurrences_snoc (k : string) (ks : list string) :
  first_occurrences (ks ++ [k])
  = first_occurrences ks ++ (if decide (k ∈ ks) then [] else [k]).
Proof.
  induction ks as [|k0 ks IH]; [done |].
  cbn [app first_occurrences]. rewrite IH, List.filter_app. cbn [app]. do 2 f_equal.
  destruct (decide (k ∈ ks)) as [Hk | Hk].
  - rewrite decide_True by (by right). done.
  - cbn [List.filter]. destruct (String.eqb_spec k k0) as [-> | Hne]; cbn [negb].
    + rewrite decide_True by (by left). done.
    + rewrite decide_False; [done |].
      intros [Heq | Hin]%elem_of_cons; done.
Qed.

Lemma last_value_snoc (k' : string) (l : list (string * string)) (k v : string) :
  last_value k' (l ++ [(k, v)])
  = if String.eqb k k' then Some v else last_value k' l.
Proof.
  induction l as [|[k0 v0] l IH]; [done |].
  cbn [app last_value]. rewrite IH.
  by destruct (String.eqb k k').
Qed.

Lemma last_value_None (k : string) (l : list (string * string)) :
  last_value k l = None <-> k ∉ fst <$> l.
Proof.
  induction l as [|[k0 v0] l IH]; [split; [intros _; apply not_elem_of_nil | done] |].
  cbn [last_value fmap list_fmap fst]. rewrite not_elem_of_cons, <- IH.
  destruct (last_value k l); [split; [done | by intros [_ ?]] |].
  destruct (String.eqb_spec k0 k) as [-> | Hne]; split; try done.
  by intros [? _].
Qed.

Lemma edit_order_keys (l : list (string * string)) :
  fst <$> edit_order l = first_occurrences (fst <$> l).
Proof.
  unfold edit_order.
  assert (Hall : Forall (fun k => k ∈ fst <$> l) (first_occurrences (fst <$> l))).
  { apply Forall_forall. intros k. apply first_occurrences_elem. }
  induction Hall as [|k ks Hk _ IH]; [done |].
  csimpl. destruct (last_value k l) eqn:E.
  - csimpl. by rewrite IH.
  - by apply last_value_None in E.
Qed.

Lemma has_own_elem (o : JsObject) (k : string) :
  has_own o k = true <-> k ∈ fst <$> o.
Proof.
  unfold has_own. rewrite existsb_exists, list_elem_of_fmap.
  split.
  - intros (kv & Hin & Heq). exists kv.
    apply String.eqb_eq in Heq. by rewrite list_elem_of_In.
  - intros (kv & -> & Hin). exists kv.
    by rewrite String.eqb_refl, <- list_elem_of_In.
Qed.

Lemma edit_order_snoc_new (l : list (string * string)) (k v : string) :
  k ∉ fst <$> l -> edit_order (l ++ [(k, v)]) = edit_order l ++ [(k, v)].
Proof.
  intros Hk. unfold edit_order.
  rewrite fmap_app. cbn [fmap list_fmap fst].
  rewrite first_occurrences_snoc, decide_False by done.
  rewrite omap_app. f_equal.
  - assert (Hall : Forall (fun k' => k' <> k) (first_occurrences (fst <$> l))).
    { apply Forall_forall. intros k' Hin Heq. subst k'.
      apply Hk. by apply first_occurrences_elem. }
    induction Hall as [|k' ks Hne _ IH]; [done |].
    csimpl. rewrite IH, last_value_snoc.
    apply not_eq_sym, String.eqb_neq in Hne. by rewrite Hne.
  - csimpl. by rewrite last_value_snoc, String.eqb_refl.
Qed.

Lemma edit_order_snoc_old (l : list (string * string)) (k v : string) :
  k ∈ fst <$> l ->
  edit_order (l ++ [(k, v)])
  = List.map (fun kv => if String.eqb (fst kv) k then (k, v) else kv) (edit_order l).
Proof.
  intros Hk. unfold edit_order.
  rewrite fmap_app. cbn [fmap list_fmap fst].
  rewrite first_occurrences_snoc, decide_True, app_nil_r by done.
  assert (Hsome : last_value k l <> None) by (by rewrite last_value_None; intros ?).
  induction (first_occurrences (fst <$> l)) as [|k' ks IH]; [done |].
  csimpl. rewrite IH, last_value_snoc.
  destruct (String.eqb_spec k k') as [<- | Hne].
  - destruct (last_value k l); [| done].
    csimpl. by rewrite String.eqb_refl.
  - destruct (last_value k' l); [| done].
    csimpl. apply not_eq_sym, String.eqb_neq in Hne. by rewrite Hne.
Qed.

(** A new values object after a sequence of edits holds its entries in
    edit order, when no edited field is called [__proto__]. *)
Lemma edited_edit_order (edits : list (string * string)) :
  Forall (fun kv => String.eqb (fst kv) "__proto__" = false) edits ->
  edited edits = edit_order edits.
Proof.
  induction edits as [|[k v] edits IH] using rev_ind; intros Hall; [done |].
  apply Forall_app in Hall as [Hall Hk]. apply Forall_inv in Hk.
  rewrite edited_snoc, (IH Hall). unfold assign.
  cbn [fst] in Hk. rewrite Hk.
  destruct (has_own (edit_order edits) k) eqn:Hown.
  - apply has_own_elem in Hown.
    rewrite edit_order_keys, first_occurrences_elem in Hown.
    by rewrite edit_order_snoc_old.
  - rewrite edit_order_snoc_new; [done |].
    intros Hin. apply first_occurrences_elem in Hin.
    rewrite <- edit_order_keys in Hin. apply has_own_elem in Hin. congruence.
Qed.

(** ** Field order *)

Lemma catalogs_declare_same_fields :
  declared_fields Part000.resources = declared_fields TerraformTsx.resources.
Proof. reflexivity. Qed.

Lemma declared_fields_plain :
  forallb plain_key (declared_fields TerraformTsx.resources) = true.
Proof. reflexivity. Qed.

Lemma declared_plain (k : string) : declared k = true -> plain_key k = true.
Proof.
  unfold declared. rewrite existsb_exists. intros (k' & Hin & Heq).
  apply String.eqb_eq in Heq. subst k'.
  pose proof declared_fields_plain as Hall.
  rewrite forallb_forall in Hall. by apply Hall.
Qed.

(** The entries of a values object after edits of plain keys are the
    edited fields in the order of their first edit, each with its last
    value. *)
Lemma entries_in_edit_order (edits : list (string * string)) :
  Forall (fun kv => plain_key (fst kv) = true) edits ->
  Object_entries (edited edits) = edit_order edits.
Proof.
  intros Hplain.
  assert (Hproto : Forall (fun kv => String.eqb (fst kv) "__proto__" = false) edits).
  { eapply Forall_impl; [exact Hplain |]. intros kv Hkv. unfold plain_key in Hkv.
    apply andb_true_iff in Hkv as [_ Hkv]. by apply negb_true_iff in Hkv. }
  rewrite (edited_edit_order _ Hproto).
  apply Object_entries_plain, Forall_forall. intros kv Hkv.
  assert (Hkey : fst kv ∈ fst <$> edits).
  { apply first_occurrences_elem. rewrite <- edit_order_keys.
    by apply list_elem_of_fmap_2. }
  apply list_elem_of_fmap in Hkey as (kv' & Heq & Hin).
  rewrite Forall_forall in Hplain. specialize (Hplain _ Hin).
  rewrite <- Heq in Hplain. unfold plain_key in Hplain.
  apply andb_true_iff in Hplain as [Hidx _]. by apply negb_true_iff in Hidx.
Qed.

(** ** Effects of Terraform.tsx *)

Lemma commit_clear_done (f : TerraformTsx.Fiber) :
  TerraformTsx.clear_pending (TerraformTsx.commit f) = false.
Proof.
  unfold TerraformTsx.clear_pending, TerraformTsx.commit. cbn.
  by rewrite String.eqb_refl.
Qed.

Lemma commit_render_done (f : TerraformTsx.Fiber) :
  TerraformTsx.clear_pending f = false ->
  TerraformTsx.render_pending (TerraformTsx.commit f) = false.
Proof.
  intros Hclear.
  unfold TerraformTsx.render_pending, TerraformTsx.commit. cbn.
  by rewrite Hclear, Nat.eqb_refl, String.eqb_refl.
Qed.

(** Two commits are enough: the first may clear the resources, the second
    renders the cleared list, and then no dependency differs. *)
Lemma settle_quiescent (f : TerraformTsx.Fiber) : quiescent (TerraformTsx.settle 2 f).
Proof.
  unfold quiescent. cbn [TerraformTsx.settle].
  destruct (TerraformTsx.clear_pending f) eqn:Hc; cbn [orb].
  - rewrite commit_clear_done. cbn [orb].
    destruct (TerraformTsx.render_pending (TerraformTsx.commit f)) eqn:Hr.
    + rewrite commit_clear_done, commit_render_done by apply commit_clear_done.
      cbn [orb]. split; [apply commit_clear_done |].
      apply commit_render_done, commit_clear_done.
    + split; [apply commit_clear_done | exact Hr].
  - destruct (TerraformTsx.render_pending f) eqn:Hr; [| done].
    rewrite commit_clear_done, commit_render_done by done. cbn [orb].
    split; [apply commit_clear_done | by apply commit_render_done].
Qed.

Lemma mount_quiescent : quiescent TerraformTsx.mount.
Proof. apply settle_quiescent. Qed.

Lemma Ok_inj {A} (a b : A) : Ok a = Ok b -> a = b.
Proof. by intros [= ->]. Qed.

(** No effect sets the category. *)
Lemma settle_keeps_category (n : nat) (f : TerraformTsx.Fiber) :
  selectedCategory (TerraformTsx.state (TerraformTsx.settle n f))
  = selectedCategory (TerraformTsx.state f).
Proof.
  revert f. induction n as [|n IH]; intros f; cbn [TerraformTsx.settle].
  - by destruct (_ || _).
  - destruct (_ || _); [| done]. by rewrite IH.
Qed.

(** An event that does not throw is its handler followed by the effects:
    the render in between has found the category in the catalog. *)
Lemma tsx_render_Ok (s s' : State) :
  TerraformTsx.render s = Ok s' ->
  s' = s /\ exists defs, TerraformTsx.resources_get (selectedCategory s) = Some defs.
Proof.
  unfold TerraformTsx.render.
  destruct (TerraformTsx.resources_get (selectedCategory s)) as [defs |]; [| done].
  intros [= <-]. split; [done | by exists defs].
Qed.

Lemma tsx_render_key (s : State) (defs : list Resource) :
  TerraformTsx.resources_get (selectedCategory s) = Some defs ->
  TerraformTsx.render s = Ok s.
Proof. intros Hget. unfold TerraformTsx.render. by rewrite Hget. Qed.

Lemma tsx_dispatch_handled (ev : event) (f f' : TerraformTsx.Fiber) :
  TerraformTsx.dispatch ev f = Ok f' ->
  bind (TerraformTsx.handle ev (TerraformTsx.state f))
       (fun s => Ok (TerraformTsx.settle 2 (TerraformTsx.with_state f s)))
  = Ok f'.
Proof.
  unfold TerraformTsx.dispatch.
  destruct (TerraformTsx.handle ev (TerraformTsx.state f)) as [s |]; [| done].
  cbn [bind]. destruct (TerraformTsx.render s) as [s1 |] eqn:Hr; [| done].
  apply tsx_render_Ok in Hr as [-> _]. done.
Qed.

Lemma tsx_dispatch_inv (ev : event) (f f' : TerraformTsx.Fiber) :
  TerraformTsx.dispatch ev f = Ok f' ->
  exists s,
    TerraformTsx.handle ev (TerraformTsx.state f) = Ok s
    /\ f' = TerraformTsx.settle 2 (TerraformTsx.with_state f s).
Proof.
  intros Hd%tsx_dispatch_handled. revert Hd.
  destruct (TerraformTsx.handle ev (TerraformTsx.state f)) as [s |]; [| done].
  cbn [bind]. intros <-%Ok_inj. by exists s.
Qed.

Lemma tsx_dispatch_rendered (ev : event) (f f' : TerraformTsx.Fiber) :
  TerraformTsx.dispatch ev f = Ok f' ->
  exists defs,
    TerraformTsx.resources_get (selectedCategory (TerraformTsx.state f')) = Some defs.
Proof.
  unfold TerraformTsx.dispatch.
  destruct (TerraformTsx.handle ev (TerraformTsx.state f)) as [s |]; [| done].
  cbn [bind]. destruct (TerraformTsx.render s) as [s1 |] eqn:Hr; [| done].
  apply tsx_render_Ok in Hr as [-> Hkey]. cbn [bind]. intros <-%Ok_inj.
  by rewrite settle_keeps_category.
Qed.

Lemma tsx_dispatch_intro (ev : event) (f : TerraformTsx.Fiber) (s : State)
    (defs : list Resource) :
  TerraformTsx.handle ev (TerraformTsx.state f) = Ok s ->
  TerraformTsx.resources_get (selectedCategory s) = Some defs ->
  TerraformTsx.dispatch ev f = Ok (TerraformTsx.settle 2 (TerraformTsx.with_state f s)).
Proof.
  intros Hh Hget. unfold TerraformTsx.dispatch. rewrite Hh. cbn [bind].
  by rewrite (tsx_render_key s defs Hget).
Qed.

Lemma part000_render_Ok (s s' : State) :
  Part000.render s = Ok s' ->
  s' = s /\ exists defs, Part000.resources_get (selectedCategory s) = Some defs.
Proof.
  unfold Part000.render.
  destruct (Part000.resources_get (selectedCategory s)) as [defs |]; [| done].
  intros [= <-]. split; [done | by exists defs].
Qed.

Lemma part000_render_key (s : State) (defs : list Resource) :
  Part000.resources_get (selectedCategory s) = Some defs ->
  Part000.render s = Ok s.
Proof. intros Hget. unfold Part000.render. by rewrite Hget. Qed.

Lemma part000_dispatch_handled (ev : event) (s s' : State) :
  Part000.dispatch ev s = Ok s' -> Part000.handle ev s = Ok s'.
Proof.
  unfold Part000.dispatch.
  destruct (Part000.handle ev s) as [s1 |]; [| done].
  cbn [bind]. by intros [-> _]%part000_render_Ok.
Qed.

Lemma part000_dispatch_rendered (ev : event) (s s' : State) :
  Part000.dispatch ev s = Ok s' ->
  exists defs, Part000.resources_get (selectedCategory s') = Some defs.
Proof.
  unfold Part000.dispatch.
  destruct (Part000.handle ev s) as [s1 |]; [| done].
  cbn [bind]. by intros [-> Hkey]%part000_render_Ok.
Qed.

Lemma part000_dispatch_intro (ev : event) (s s' : State) (defs : list Resource) :
  Part000.handle ev s = Ok s' ->
  Part000.resources_get (selectedCategory s') = Some defs ->
  Part000.dispatch ev s = Ok s'.
Proof.
  intros Hh Hget. unfold Part000.dispatch. rewrite Hh. cbn [bind].
  by apply (part000_render_key s' defs).
Qed.

Lemma dispatch_quiescent (ev : event) (f f' : TerraformTsx.Fiber) :
  TerraformTsx.dispatch ev f = Ok f' -> quiescent f'.
Proof.
  intros Hd%tsx_dispatch_handled. revert Hd.
  destruct (TerraformTsx.handle ev (TerraformTsx.state f)); [| done].
  cbn [bind]. intros [= <-]. apply settle_quiescent.
Qed.

Lemma run_quiescent (evs : list event) (f f' : TerraformTsx.Fiber) :
  quiescent f -> TerraformTsx.run evs f = Ok f' -> quiescent f'.
Proof.
  revert f. induction evs as [|ev evs IH]; intros f Hq; cbn [TerraformTsx.run].
  - by intros [= <-].
  - destruct (TerraformTsx.dispatch ev f) as [f1 |] eqn:Hd; [| done].
    cbn [bind]. apply IH. by eapply dispatch_quiescent.
Qed.

Lemma settle_step (n : nat) (f : TerraformTsx.Fiber) :
  TerraformTsx.clear_pending f || TerraformTsx.render_pending f = true ->
  TerraformTsx.settle (S n) f = TerraformTsx.settle n (TerraformTsx.commit f).
Proof. intros H. cbn [TerraformTsx.settle]. by rewrite H. Qed.

Lemma settle_done (n : nat) (f : TerraformTsx.Fiber) :
  quiescent f -> TerraformTsx.settle n f = f.
Proof. intros [Hc Hr]. destruct n; cbn [TerraformTsx.settle]; by rewrite Hc, Hr. Qed.

(** The commit after a change of category: the clearing effect empties
    the resources, and the rendering effect of the same commit still sees
    the resources of its render. *)
Lemma commit_clearing (f : TerraformTsx.Fiber) :
  TerraformTsx.clear_pending f = true ->
  TerraformTsx.render_pending f = true ->
  let s := TerraformTsx.state f in
  TerraformTsx.commit f
  = {| TerraformTsx.state :=
         {| selectedCategory := selectedCategory s;
            droppedResources := [];
            arrayId := S (arrayId s);
            terraformCode :=
              TerraformTsx.generateTerraformCode (heap s) (selectedCategory s)
                (droppedResources s);
            heap := heap s |};
       TerraformTsx.clearDeps := Some (selectedCategory s);
       TerraformTsx.renderDeps := Some (arrayId s, selectedCategory s) |}.
Proof. intros Hc Hr. unfold TerraformTsx.commit. by rewrite Hc, Hr. Qed.

(** A commit in which only the rendering effect runs. *)
Lemma commit_rendering (f : TerraformTsx.Fiber) :
  TerraformTsx.clear_pending f = false ->
  TerraformTsx.render_pending f = true ->
  let s := TerraformTsx.state f in
  TerraformTsx.commit f
  = {| TerraformTsx.state :=
         {| selectedCategory := selectedCategory s;
            droppedResources := droppedResources s;
            arrayId := arrayId s;
            terraformCode :=
              TerraformTsx.generateTerraformCode (heap s) (selectedCategory s)
                (droppedResources s);
            heap := heap s |};
       TerraformTsx.clearDeps := Some (selectedCategory s);
       TerraformTsx.renderDeps := Some (arrayId s, selectedCategory s) |}.
Proof. intros Hc Hr. unfold TerraformTsx.commit. by rewrite Hc, Hr. Qed.

Lemma quiescent_deps (f : TerraformTsx.Fiber) :
  quiescent f ->
  TerraformTsx.clearDeps f = Some (selectedCategory (TerraformTsx.state f))
  /\ TerraformTsx.renderDeps f
     = Some (arrayId (TerraformTsx.state f), selectedCategory (TerraformTsx.state f)).
Proof.
  intros [Hclear Hrender].
  unfold TerraformTsx.clear_pending in Hclear.
  unfold TerraformTsx.render_pending in Hrender.
  destruct (TerraformTsx.clearDeps f) as [c0 |]; [| done].
  destruct (TerraformTsx.renderDeps f) as [[a c1] |]; [| done].
  apply negb_false_iff, String.eqb_eq in Hclear.
  apply negb_false_iff, andb_true_iff in Hrender as [Ha Hc1].
  apply Nat.eqb_eq in Ha. apply String.eqb_eq in Hc1. by subst.
Qed.

(** What a change of category does in Terraform.tsx, commit by commit. *)
Lemma select_change_settles (f : TerraformTsx.Fiber) (c : string) :
  quiescent f ->
  c <> selectedCategory (TerraformTsx.state f) ->
  let s := TerraformTsx.state f in
  TerraformTsx.settle 2
    (TerraformTsx.with_state f
       {| selectedCategory := c; droppedResources := droppedResources s;
          arrayId := arrayId s; terraformCode := terraformCode s; heap := heap s |})
  = {| TerraformTsx.state :=
         {| selectedCategory := c;
            droppedResources := [];
            arrayId := S (arrayId s);
            terraformCode := TerraformTsx.generateTerraformCode (heap s) c [];
            heap := heap s |};
       TerraformTsx.clearDeps := Some c;
       TerraformTsx.renderDeps := Some (S (arrayId s), c) |}.
Proof.
  intros Hq Hne s.
  destruct (quiescent_deps f Hq) as [Hcd Hrd].
  assert (Hcat : String.eqb (selectedCategory s) c = false)
    by (by apply String.eqb_neq, not_eq_sym).
  set (f0 := TerraformTsx.with_state f _).
  assert (Hc0 : TerraformTsx.clear_pending f0 = true).
  { unfold TerraformTsx.clear_pending, f0, TerraformTsx.with_state. cbn.
    rewrite Hcd. fold s. by rewrite Hcat. }
  assert (Hr0 : TerraformTsx.render_pending f0 = true).
  { unfold TerraformTsx.render_pending, f0, TerraformTsx.with_state. cbn.
    rewrite Hrd. fold s. by rewrite Hcat, andb_false_r. }
  rewrite settle_step by (by rewrite Hc0).
  rewrite (commit_clearing f0 Hc0 Hr0). cbn [TerraformTsx.state f0 TerraformTsx.with_state
    selectedCategory droppedResources arrayId terraformCode heap].
  fold s.
  set (f1 := TerraformTsx.Build_Fiber _ _ _).
  assert (Hc1 : TerraformTsx.clear_pending f1 = false).
  { unfold TerraformTsx.clear_pending, f1. cbn. by rewrite String.eqb_refl. }
  assert (Hr1 : TerraformTsx.render_pending f1 = true).
  { unfold TerraformTsx.render_pending, f1. cbn.
    replace (Nat.eqb (arrayId s) (S (arrayId s))) with false; [done |].
    symmetry. apply Nat.eqb_neq. lia. }
  rewrite settle_step by (by rewrite Hr1, orb_true_r).
  rewrite (commit_rendering f1 Hc1 Hr1). cbn [TerraformTsx.state f1
    selectedCategory droppedResources arrayId terraformCode heap].
  apply settle_done. split.
  - unfold TerraformTsx.clear_pending. cbn. by rewrite String.eqb_refl.
  - unfold TerraformTsx.render_pending. cbn. by rewrite Nat.eqb_refl, String.eqb_refl.
Qed.

(** C5, at the sessions where the code departs from it.  In part_000 a
    change of category clears nothing: after a drop of aws_s3 and a change
    to Docker the resource is still on the canvas under the document of
    AWS, and the document rendered next, at the drop of docker_network,
    requires the provider docker and shows the block of aws_s3 before the
    new one.  In Terraform.tsx the clearing effect and the rendering effect
    run in the commit of the change, the second on the resources of its
    render: the first document set after the change is of Docker and still
    shows the block of aws_s3, and only the commit after it sets a
    document with no resource block. *)
Theorem category_change_keeps_resources :
  Part000.run [DragEnd "aws_s3"; SelectChange "Docker"] Part000.mount
  = Ok {| selectedCategory := "Docker";
          droppedResources :=
            [ {| resource := Part000.mk "aws_s3" "AWS S3" ["bucket_name"; "region"];
                 values := 0 |} ];
          arrayId := 1;
          terraformCode := preamble "aws" +:+ resource_header "aws_s3" +:+ resource_footer;
          heap := [empty_object; empty_object] |}
  /\ Part000.run [DragEnd "aws_s3"; SelectChange "Docker"; DragEnd "docker_network"]
       Part000.mount
     = Ok {| selectedCategory := "Docker";
             droppedResources :=
               [ {| resource := Part000.mk "aws_s3" "AWS S3" ["bucket_name"; "region"];
                    values := 0 |};
                 {| resource := Part000.mk "docker_network" "Docker Network" ["driver"];
                    values := 2 |} ];
             arrayId := 2;
             terraformCode :=
               preamble "docker"
               +:+ resource_header "aws_s3" +:+ resource_footer
               +:+ resource_header "docker_network" +:+ resource_footer;
             heap := [empty_object; empty_object; empty_object; empty_object] |}
  /\ exists f s,
       TerraformTsx.run [DragEnd "aws_s3"] TerraformTsx.mount = Ok f
       /\ droppedResources (TerraformTsx.state f) = [ {| resource := aws_s3; values := 0 |} ]
       /\ TerraformTsx.handle (SelectChange "Docker") (TerraformTsx.state f) = Ok s
       /\ TerraformTsx.render s = Ok s
       /\ terraformCode
            (TerraformTsx.state (TerraformTsx.commit (TerraformTsx.with_state f s)))
          = preamble "docker" +:+ provider_block "docker"
            +:+ resource_header "aws_s3" +:+ resource_footer
       /\ TerraformTsx.dispatch (SelectChange "Docker") f
          = Ok (TerraformTsx.commit (TerraformTsx.commit (TerraformTsx.with_state f s)))
       /\ terraformCode
            (TerraformTsx.state
               (TerraformTsx.commit (TerraformTsx.commit (TerraformTsx.with_state f s))))
          = preamble "docker" +:+ provider_block "docker".
Proof.
  split; [vm_compute; reflexivity |]. split; [vm_compute; reflexivity |].
  eexists _, _. split; [reflexivity |]. split; [reflexivity |].
  split; [reflexivity |]. repeat split; vm_compute; reflexivity.
Qed.

(** Before the effects settle, the commit that follows the change of
    category has rendered the new category with the resources of the old
    one: the rendering effect runs in the same commit as the clearing
    effect and sees the list of its own render. *)
Lemma select_change_transient_render (f : TerraformTsx.Fiber) (c : string) :
  quiescent f ->
  c <> selectedCategory (TerraformTsx.state f) ->
  let s := TerraformTsx.state f in
  let f0 :=
    TerraformTsx.with_state f
      {| selectedCategory := c; droppedResources := droppedResources s;
         arrayId := arrayId s; terraformCode := terraformCode s; heap := heap s |} in
  terraformCode (TerraformTsx.state (TerraformTsx.commit f0))
  = TerraformTsx.generateTerraformCode (heap s) c (droppedResources s)
  /\ droppedResources (TerraformTsx.state (TerraformTsx.commit f0)) = [].
Proof.
  intros Hq Hne s f0.
  destruct (quiescent_deps f Hq) as [Hcd Hrd].
  assert (Hcat : String.eqb (selectedCategory s) c = false)
    by (by apply String.eqb_neq, not_eq_sym).
  assert (Hc0 : TerraformTsx.clear_pending f0 = true).
  { unfold TerraformTsx.clear_pending, f0, TerraformTsx.with_state. cbn.
    rewrite Hcd. fold s. by rewrite Hcat. }
  assert (Hr0 : TerraformTsx.render_pending f0 = true).
  { unfold TerraformTsx.render_pending, f0, TerraformTsx.with_state. cbn.
    rewrite Hrd. fold s. by rewrite Hcat, andb_false_r. }
  by rewrite (commit_clearing f0 Hc0 Hr0).
Qed.

(** The component of part_000 has no clearing effect: a change of category
    keeps the dropped resources, and the document, as they are. *)
Lemma part000_select_change_keeps (s : State) (c : string) (defs : list Resource) :
  Part000.resources_get c = Some defs ->
  exists s',
    Part000.dispatch (SelectChange c) s = Ok s'
    /\ selectedCategory s' = c
    /\ droppedResources s' = droppedResources s
    /\ terraformCode s' = terraformCode s.
Proof.
  intros Hget. eexists. split.
  - by apply (part000_dispatch_intro _ _ _ defs); [reflexivity |].
  - done.
Qed.

(** ** Sessions keep the values objects apart *)

Lemma sep_nil (h : Heap) : sep [] h.
Proof. split; [apply NoDup_nil_2 | apply Forall_nil_2]. Qed.

Lemma sep_push (rs : list PlacedResource) (h extra : Heap) (res : PlacedResource) :
  sep rs h -> values res = length h -> extra <> [] ->
  sep (rs ++ [res]) (h ++ extra).
Proof.
  intros [Hnd Hlt] Hnew Hextra. split.
  - rewrite fmap_app. apply NoDup_app. split; [done |]. split.
    + intros a Ha Hin. apply list_elem_of_singleton in Hin. subst a.
      apply list_elem_of_fmap in Ha as (r & Hr & Hin).
      rewrite Forall_forall in Hlt. specialize (Hlt _ Hin). lia.
    + apply NoDup_singleton.
  - rewrite length_app. apply Forall_app. split.
    + eapply Forall_impl; [exact Hlt |]. intros r Hr. cbn beta in *. lia.
    + apply Forall_singleton. destruct extra; [done |]. cbn [length]. lia.
Qed.

Lemma sep_alter (rs : list PlacedResource) (h : Heap) (g : JsObject -> JsObject) (a : nat) :
  sep rs h -> sep rs (alter g a h).
Proof. intros [Hnd Hlt]. split; [done |]. by rewrite length_alter. Qed.

Lemma tsx_handle_separate (ev : event) (s s' : State) :
  separate s -> TerraformTsx.handle ev s = Ok s' -> separate s'.
Proof.
  unfold separate. intros Hsep. destruct ev as [active_id | index key value | c | code];
    cbn [TerraformTsx.handle].
  - unfold TerraformTsx.handleDragEnd.
    destruct (TerraformTsx.resources_get _) as [defs |]; [| done].
    destruct (List.find _ defs) as [r |]; intros [= <-]; [| done].
    cbn [droppedResources heap]. by apply sep_push.
  - unfold TerraformTsx.updateResourceValue.
    destruct (droppedResources s !! index) as [res |]; intros [= <-].
    cbn [droppedResources heap]. by apply sep_alter.
  - by intros [= <-].
  - by intros [= <-].
Qed.

Lemma commit_separate (f : TerraformTsx.Fiber) :
  separate (TerraformTsx.state f) -> separate (TerraformTsx.state (TerraformTsx.commit f)).
Proof.
  unfold separate, TerraformTsx.commit. cbn [TerraformTsx.state droppedResources heap].
  intros Hsep. destruct (TerraformTsx.clear_pending f); [apply sep_nil | done].
Qed.

Lemma settle_separate (n : nat) (f : TerraformTsx.Fiber) :
  separate (TerraformTsx.state f) -> separate (TerraformTsx.state (TerraformTsx.settle n f)).
Proof.
  revert f. induction n as [|n IH]; intros f Hsep; cbn [TerraformTsx.settle].
  - by destruct (_ || _).
  - destruct (_ || _); [| done]. by apply IH, commit_separate.
Qed.

Lemma tsx_run_separate (evs : list event) (f f' : TerraformTsx.Fiber) :
  separate (TerraformTsx.state f) -> TerraformTsx.run evs f = Ok f' ->
  separate (TerraformTsx.state f').
Proof.
  revert f. induction evs as [|ev evs IH]; intros f Hsep; cbn [TerraformTsx.run].
  - by intros [= <-].
  - destruct (TerraformTsx.dispatch ev f) as [f1 |] eqn:Hd; [| done].
    apply tsx_dispatch_inv in Hd as (s1 & Hh & ->).
    cbn [bind]. apply IH, settle_separate. cbn [TerraformTsx.with_state TerraformTsx.state].
    by eapply tsx_handle_separate.
Qed.

Lemma part000_dispatch_separate (ev : event) (s s' : State) :
  separate s -> Part000.dispatch ev s = Ok s' -> separate s'.
Proof.
  unfold separate. intros Hsep Hd%part000_dispatch_handled. revert Hd.
  destruct ev as [active_id | index key value | c | code]; cbn [Part000.handle].
  - unfold Part000.handleDragEnd.
    destruct (Part000.resources_get _) as [defs |]; [| done].
    destruct (List.find _ defs) as [r |]; intros [= <-]; [| done].
    cbn [droppedResources heap]. by apply sep_push.
  - unfold Part000.updateResourceValue.
    destruct (droppedResources s !! index) as [res |]; intros [= <-].
    cbn [droppedResources heap]. by apply sep_alter.
  - by intros [= <-].
  - by intros [= <-].
Qed.

Lemma part000_run_separate (evs : list event) (s s' : State) :
  separate s -> Part000.run evs s = Ok s' -> separate s'.
Proof.
  revert s. induction evs as [|ev evs IH]; intros s Hsep; cbn [Part000.run].
  - by intros [= <-].
  - destruct (Part000.dispatch ev s) as [s1 |] eqn:Hd; [| done].
    cbn [bind]. apply IH. by eapply part000_dispatch_separate.
Qed.

(** In every state a session reaches, each dropped resource has a values
    object of its own. *)
Lemma reachable_separate (s : State) : reachable s -> separate s.
Proof.
  intros [(evs & f & Hrun & <-) | (evs & Hrun)].
  - eapply tsx_run_separate; [| exact Hrun].
    apply settle_separate. apply sep_nil.
  - eapply part000_run_separate; [| exact Hrun]. apply sep_nil.
Qed.

(** ** Drops that match no catalog entry *)

Lemma find_id_None (active_id : string) (defs : list Resource) :
  active_id ∉ id <$> defs ->
  List.find (fun r => String.eqb (id r) active_id) defs = None.
Proof.
  induction defs as [|r defs IH]; [done |].
  cbn [fmap list_fmap]. intros [Hne Hin]%not_elem_of_cons.
  cbn [List.find]. apply not_eq_sym, String.eqb_neq in Hne. rewrite Hne. by apply IH.
Qed.

(** The two catalogs list the same identifiers under the same keys. *)
Lemma catalogs_same_ids (c : string) :
  fmap (M := list) id <$> Part000.resources_get c
  = fmap (M := list) id <$> TerraformTsx.resources_get c.
Proof.
  unfold Part000.resources_get, TerraformTsx.resources_get.
  unfold Part000.resources, TerraformTsx.resources. cbn [List.find fst].
  destruct (String.eqb "AWS" c); [reflexivity |].
  destruct (String.eqb "OpenStack" c); [reflexivity |].
  destruct (String.eqb "Docker" c); reflexivity.
Qed.

Lemma tsx_drag_unknown (s : State) (active_id : string) (defs : list Resource) :
  TerraformTsx.resources_get (selectedCategory s) = Some defs ->
  active_id ∉ id <$> defs ->
  TerraformTsx.handleDragEnd active_id s = Ok s.
Proof.
  intros Hget Hid. unfold TerraformTsx.handleDragEnd. by rewrite Hget, find_id_None.
Qed.

Lemma part000_drag_unknown (s : State) (active_id : string) (defs : list Resource) :
  TerraformTsx.resources_get (selectedCategory s) = Some defs ->
  active_id ∉ id <$> defs ->
  Part000.handleDragEnd active_id s = Ok s.
Proof.
  intros Hget Hid. unfold Part000.handleDragEnd.
  pose proof (catalogs_same_ids (selectedCategory s)) as Hsame.
  rewrite Hget in Hsame.
  destruct (Part000.resources_get (selectedCategory s)) as [defs' |]; [| done].
  injection Hsame as Hsame. rewrite find_id_None; [done |]. by rewrite Hsame.
Qed.

(** C9. When the identifier of the dragged item matches no entry of the
    catalog of the active category, handleDragEnd of either component sets
    no state: the dropped resources, and everything else, are as before. *)
Theorem unknown_id_ignored (s : State) (active_id : string) (defs : list Resource) :
  TerraformTsx.resources_get (selectedCategory s) = Some defs ->
  active_id ∉ id <$> defs ->
  TerraformTsx.handleDragEnd active_id s = Ok s
  /\ Part000.handleDragEnd active_id s = Ok s.
Proof.
  intros Hget Hid. split.
  - by eapply tsx_drag_unknown.
  - by eapply part000_drag_unknown.
Qed.

Lemma unknown_id_ignored_witness :
  TerraformTsx.handleDragEnd "docker_network" two_dropped = Ok two_dropped
  /\ Part000.handleDragEnd "docker_network" two_dropped = Ok two_dropped.
Proof.
  apply (unknown_id_ignored two_dropped "docker_network"
           [ TerraformTsx.mk "aws_ec2" "AWS EC2" ["ami"; "instance_type"; "tags"] "/aws-ec2.png";
             TerraformTsx.mk "aws_s3" "AWS S3" ["bucket_name"; "region"] "/aws-s3.png";
             TerraformTsx.mk "aws_rds" "AWS RDS" ["db_name"; "instance_class"] "/aws-rds.png" ]).
  - reflexivity.
  - cbn [fmap list_fmap id TerraformTsx.mk].
    intros Hin. repeat (apply elem_of_cons in Hin as [Hin | Hin]; [discriminate Hin |]).
    by apply elem_of_nil in Hin.
Defined.

(** The event leaves the whole component as it was: nothing re-renders. *)
Lemma unknown_id_no_render (f : TerraformTsx.Fiber) (active_id : string)
    (defs : list Resource) :
  quiescent f ->
  TerraformTsx.resources_get (selectedCategory (TerraformTsx.state f)) = Some defs ->
  active_id ∉ id <$> defs ->
  TerraformTsx.dispatch (DragEnd active_id) f = Ok f.
Proof.
  intros Hq Hget Hid. unfold TerraformTsx.dispatch. cbn [TerraformTsx.handle].
  rewrite (tsx_drag_unknown _ _ _ Hget Hid). cbn [bind].
  rewrite (tsx_render_key _ defs Hget). cbn [bind].
  f_equal. destruct f as [s cd rd]. by apply settle_done.
Qed.

(** ** Editing a field *)

Lemma assign_other_keys (o : JsObject) (key value : string) :
  List.filter (fun kv => negb (String.eqb (fst kv) key)) (assign o key value)
  = List.filter (fun kv => negb (String.eqb (fst kv) key)) o.
Proof.
  unfold assign. destruct (String.eqb key "__proto__"); [done |].
  destruct (has_own o key).
  - induction o as [|kv o IH]; [done |].
    cbn [List.map List.filter]. rewrite IH.
    destruct (String.eqb (fst kv) key) eqn:E; cbn [fst negb]; [| by rewrite E].
    by rewrite String.eqb_refl.
  - rewrite List.filter_app. cbn [List.filter fst].
    rewrite String.eqb_refl. cbn [negb]. apply app_nil_r.
Qed.

(** The heap after [updatedResources[index].values[key] = value]. *)
Lemma alter_values_frame (rs : list PlacedResource) (h : Heap) (index : nat)
    (res : PlacedResource) (key value : string) :
  sep rs h -> rs !! index = Some res ->
  let h' := alter (fun o => assign o key value) (values res) h in
  (forall j other, j <> index -> rs !! j = Some other ->
     deref h' (values other) = deref h (values other))
  /\ deref h' (values res) = assign (deref h (values res)) key value.
Proof.
  intros [Hnd Hlt] Hres h'. split.
  - intros j other Hj Hother. unfold deref, h'.
    apply list_lookup_total_alter_ne. intros Heq. apply Hj.
    apply (NoDup_lookup (values <$> rs) j index (values other)); [done | |].
    + by rewrite list_lookup_fmap, Hother.
    + rewrite list_lookup_fmap, Hres. cbn [fmap option_fmap option_map].
      by rewrite Heq.
  - unfold deref, h'. rewrite list_lookup_total_alter_eq; [done |].
    rewrite Forall_forall in Hlt. apply Hlt. by eapply list_elem_of_lookup_2.
Qed.

(** C10. In every state a session reaches, updateResourceValue at an index
    in range returns a state with the same sequence of dropped resources
    (same length, same order, each with its identifier, name, field list
    and values object), in which the values of every other resource are
    as before and the values of the resource at the index differ from the
    old ones by the assignment to the key alone: every other key keeps its
    value and its place. *)
Theorem updateResourceValue_frame (s : State) (index : nat) (key value : string)
    (res : PlacedResource) :
  reachable s ->
  droppedResources s !! index = Some res ->
  exists h',
    TerraformTsx.updateResourceValue index key value s
    = Ok {| selectedCategory := selectedCategory s;
            droppedResources := droppedResources s;
            arrayId := S (arrayId s);
            terraformCode := terraformCode s;
            heap := h' |}
    /\ Part000.updateResourceValue index key value s
      = Ok {| selectedCategory := selectedCategory s;
              droppedResources := droppedResources s;
              arrayId := S (arrayId s);
              terraformCode :=
                Part000.updateTerraformCode h' (selectedCategory s) (droppedResources s);
              heap := h' |}
    /\ length h' = length (heap s)
    /\ (forall j other, j <> index -> droppedResources s !! j = Some other ->
          deref h' (values other) = deref (heap s) (values other))
    /\ deref h' (values res) = assign (deref (heap s) (values res)) key value
    /\ List.filter (fun kv => negb (String.eqb (fst kv) key)) (deref h' (values res))
       = List.filter (fun kv => negb (String.eqb (fst kv) key))
           (deref (heap s) (values res)).
Proof.
  intros Hreach Hres. apply reachable_separate in Hreach.
  destruct (alter_values_frame _ _ _ _ key value Hreach Hres) as [Hothers Hself].
  exists (alter (fun o => assign o key value) (values res) (heap s)).
  split; [unfold TerraformTsx.updateResourceValue; by rewrite Hres |].
  split; [unfold Part000.updateResourceValue; by rewrite Hres |].
  split; [apply length_alter |].
  split; [exact Hothers |].
  split; [exact Hself |].
  rewrite Hself. apply assign_other_keys.
Qed.

Lemma updateResourceValue_frame_witness :
  exists s',
    TerraformTsx.updateResourceValue 0 "region" "eu-west-1" two_dropped = Ok s'
    /\ droppedResources s' = droppedResources two_dropped
    /\ deref (heap s') 1 = deref (heap two_dropped) 1
    /\ get_own (deref (heap s') 0) "bucket_name" = Some "my-bucket".
Proof.
  destruct (updateResourceValue_frame two_dropped 0 "region" "eu-west-1"
              {| resource := aws_s3; values := 0 |})
    as (h' & Htsx & _ & _ & Hothers & Hself & _).
  - left. exists two_dropped_session.
    exists (TerraformTsx.settle 2
              (TerraformTsx.with_state TerraformTsx.mount two_dropped)).
    split; [vm_compute; reflexivity | reflexivity].
  - reflexivity.
  - eexists. split; [exact Htsx |]. cbn [droppedResources heap].
    split; [reflexivity |]. split.
    + apply (Hothers 1%nat {| resource := aws_ec2; values := 1 |}); [lia | reflexivity].
    + cbn [values] in Hself. rewrite Hself. reflexivity.
Defined.

(** Out of range there is no element to read [values] of: the handler
    throws and no state is set. *)
Lemma updateResourceValue_out_of_range (s : State) (index : nat) (key value : string) :
  droppedResources s !! index = None ->
  TerraformTsx.updateResourceValue index key value s = TypeError
  /\ Part000.updateResourceValue index key value s = TypeError.
Proof.
  intros Hnone. unfold TerraformTsx.updateResourceValue, Part000.updateResourceValue.
  by rewrite Hnone.
Qed.

(** ** The two renderers side by side *)

Lemma provider_block_length (p : string) :
  String.length (provider_block p) = (16 + String.length p)%nat.
Proof.
  unfold provider_block. rewrite !length_append. unfold dq, nl.
  cbn [String.length]. lia.
Qed.

(** C8, as described: refuted.  On a resource whose region was edited
    before its bucket_name, neither renderer follows the catalog
    declaration (bucket_name first); so it is not the case that one
    variant iterates by declaration and the other by edit order. *)
Lemma variants_not_as_described :
  let h := [ [("region", "us-east-1"); ("bucket_name", "my-bucket")] ] in
  let rs := [ {| resource := aws_s3; values := 0 |} ] in
  TerraformTsx.generateTerraformCode h "AWS" rs
    <> head_with_provider "aws" +:+ blocks_by_declaration h rs
  /\ Part000.updateTerraformCode h "AWS" rs
    <> preamble "aws" +:+ blocks_by_declaration h rs
  /\ ~ variants_as_described.
Proof.
  cbv zeta.
  assert (Htsx :
    TerraformTsx.generateTerraformCode
      [ [("region", "us-east-1"); ("bucket_name", "my-bucket")] ] "AWS"
      [ {| resource := aws_s3; values := 0 |} ]
    <> head_with_provider "aws"
       +:+ blocks_by_declaration [ [("region", "us-east-1"); ("bucket_name", "my-bucket")] ]
             [ {| resource := aws_s3; values := 0 |} ]).
  { intros H. vm_compute in H. discriminate H. }
  assert (H000 :
    Part000.updateTerraformCode
      [ [("region", "us-east-1"); ("bucket_name", "my-bucket")] ] "AWS"
      [ {| resource := aws_s3; values := 0 |} ]
    <> preamble "aws"
       +:+ blocks_by_declaration [ [("region", "us-east-1"); ("bucket_name", "my-bucket")] ]
             [ {| resource := aws_s3; values := 0 |} ]).
  { intros H. vm_compute in H. discriminate H. }
  split; [exact Htsx |]. split; [exact H000 |].
  intros [[Hdecl _] | [_ Hdecl]].
  - apply Htsx. apply (Hdecl _ "AWS").
  - apply H000. apply (Hdecl _ "AWS").
Qed.

(** C8, amended.  The two renderers differ in the provider block alone:
    generateTerraformCode emits it after the preamble and
    updateTerraformCode does not, so their documents differ on every
    input; both iterate the fields of a resource by edit order, and their
    resource blocks are the same text. *)
Theorem variants_differ_by_provider_block (h : Heap) (c : string)
    (rs : list PlacedResource) :
  let blocks := text_of (resource_block h <$> rs) in
  TerraformTsx.generateTerraformCode h c rs
    = preamble (toLowerCase c) +:+ provider_block (toLowerCase c) +:+ blocks
  /\ Part000.updateTerraformCode h c rs = preamble (toLowerCase c) +:+ blocks
  /\ String.eqb (TerraformTsx.generateTerraformCode h c rs)
                (Part000.updateTerraformCode h c rs) = false
  /\ iterates_by_edit_order TerraformTsx.generateTerraformCode head_with_provider
  /\ iterates_by_edit_order Part000.updateTerraformCode preamble.
Proof.
  cbv zeta. split; [apply generateTerraformCode_blocks |].
  split; [apply updateTerraformCode_blocks |]. split.
  - apply String.eqb_neq.
    rewrite generateTerraformCode_blocks, updateTerraformCode_blocks.
    intros H. apply append_cancel_l in H.
    apply (f_equal String.length) in H.
    rewrite length_append, provider_block_length in H. lia.
  - split; intros h' c' rs'.
    + unfold head_with_provider.
      by rewrite generateTerraformCode_blocks, append_assoc.
    + apply updateTerraformCode_blocks.
Qed.

(** ** Sessions and their history *)

Lemma edits_at_snoc_same (i : nat) (log : list (nat * (string * string)))
    (kv : string * string) :
  edits_at i (log ++ [(i, kv)]) = edits_at i log ++ [kv].
Proof.
  unfold edits_at. rewrite List.filter_app. cbn [List.filter fst].
  by rewrite Nat.eqb_refl, fmap_app.
Qed.

Lemma edits_at_snoc_other (i j : nat) (log : list (nat * (string * string)))
    (kv : string * string) :
  j <> i -> edits_at i (log ++ [(j, kv)]) = edits_at i log.
Proof.
  intros Hne. unfold edits_at. rewrite List.filter_app. cbn [List.filter fst].
  apply Nat.eqb_neq in Hne. by rewrite Hne, app_nil_r.
Qed.

Lemma tracking_push (g : string * list (nat * (string * string))) (c : string)
    (rs : list PlacedResource) (h extra : Heap) (res : PlacedResource) :
  tracking g c rs h -> values res = length h ->
  tracking g c (rs ++ [res]) (h ++ empty_object :: extra).
Proof.
  intros (Hcat & Hsep & Hlog) Hnew. split; [done |]. split; [by apply sep_push |].
  intros i. specialize (Hlog i).
  destruct (decide (i < length rs)%nat) as [Hlt | Hge].
  - rewrite lookup_app_l by done.
    destruct (rs !! i) as [r |] eqn:Hr; [| by apply lookup_lt_is_Some_2 in Hlt as [? ?]].
    rewrite <- Hlog. unfold deref. apply lookup_total_app_l.
    destruct Hsep as [_ Hall]. rewrite Forall_forall in Hall.
    apply Hall. by eapply list_elem_of_lookup_2.
  - rewrite (lookup_ge_None_2 rs i) in Hlog by lia.
    rewrite lookup_app_r by lia.
    destruct (i - length rs)%nat as [|n] eqn:Hi; cbn [lookup list_lookup].
    + rewrite Hlog, Hnew. unfold deref.
      rewrite lookup_total_app_r by lia. by rewrite Nat.sub_diag.
    + rewrite ?lookup_nil. exact Hlog.
Qed.

Lemma tracking_edit (g : string * list (nat * (string * string))) (c : string)
    (rs : list PlacedResource) (h : Heap) (index : nat) (res : PlacedResource)
    (key value : string) :
  tracking g c rs h -> rs !! index = Some res ->
  tracking (fst g, snd g ++ [(index, (key, value))]) c rs
    (alter (fun o => assign o key value) (values res) h).
Proof.
  intros (Hcat & Hsep & Hlog) Hres.
  destruct (alter_values_frame rs h index res key value Hsep Hres) as [Hothers Hself].
  split; [done |]. split; [by apply sep_alter |].
  intros i. cbn [snd]. destruct (decide (i = index)) as [-> | Hne].
  - rewrite Hres, Hself, edits_at_snoc_same, edited_snoc.
    specialize (Hlog index). rewrite Hres in Hlog. by rewrite Hlog.
  - rewrite edits_at_snoc_other by done. specialize (Hlog i).
    destruct (rs !! i) as [other |] eqn:Hother; [| done].
    rewrite <- Hlog. by apply (Hothers i).
Qed.

Lemma tracking_clear (c : string) (h : Heap) : tracking (c, []) c [] h.
Proof. split; [done |]. split; [apply sep_nil |]. intros i. by rewrite lookup_nil. Qed.

Lemma tracking_select (g : string * list (nat * (string * string))) (c c' : string)
    (rs : list PlacedResource) (h : Heap) :
  tracking g c rs h -> tracking (c', snd g) c' rs h.
Proof. intros (_ & Hsep & Hlog). by split. Qed.

Lemma part000_dispatch_tracks (ev : event) (g : string * list (nat * (string * string)))
    (s s' : State) :
  tracks g s -> Part000.dispatch ev s = Ok s' -> tracks (record false g ev) s'.
Proof.
  unfold tracks. intros Htr Hd%part000_dispatch_handled. revert Hd.
  destruct ev as [active_id | index key value | c | code];
    cbn [Part000.handle record andb].
  - unfold Part000.handleDragEnd.
    destruct (Part000.resources_get _) as [defs |]; [| done].
    destruct (List.find _ defs) as [r |]; intros [= <-]; [| done].
    cbn [selectedCategory droppedResources heap]. by apply tracking_push.
  - unfold Part000.updateResourceValue.
    destruct (droppedResources s !! index) as [res |] eqn:Hres; intros [= <-].
    cbn [selectedCategory droppedResources heap]. by apply tracking_edit.
  - intros [= <-]. cbn [selectedCategory droppedResources heap].
    by eapply tracking_select.
  - by intros [= <-].
Qed.

Lemma part000_run_tracks (evs : list event) (g : string * list (nat * (string * string)))
    (s s' : State) :
  tracks g s -> Part000.run evs s = Ok s' ->
  tracks (fold_left (record false) evs g) s'.
Proof.
  revert g s. induction evs as [|ev evs IH]; intros g s Htr; cbn [Part000.run fold_left].
  - by intros [= <-].
  - destruct (Part000.dispatch ev s) as [s1 |] eqn:Hd; [| done].
    cbn [bind]. apply IH. by eapply part000_dispatch_tracks.
Qed.

Lemma commit_keeps (f : TerraformTsx.Fiber) :
  TerraformTsx.clear_pending f = false ->
  selectedCategory (TerraformTsx.state (TerraformTsx.commit f))
    = selectedCategory (TerraformTsx.state f)
  /\ droppedResources (TerraformTsx.state (TerraformTsx.commit f))
    = droppedResources (TerraformTsx.state f)
  /\ heap (TerraformTsx.state (TerraformTsx.commit f)) = heap (TerraformTsx.state f).
Proof.
  intros Hc. unfold TerraformTsx.commit.
  cbn [TerraformTsx.state selectedCategory droppedResources heap]. by rewrite Hc.
Qed.

(** When the category is the one of the last commit, settling re-renders
    at most: category, resources and heap stay. *)
Lemma settle_keeps (n : nat) (f : TerraformTsx.Fiber) :
  TerraformTsx.clear_pending f = false ->
  selectedCategory (TerraformTsx.state (TerraformTsx.settle n f))
    = selectedCategory (TerraformTsx.state f)
  /\ droppedResources (TerraformTsx.state (TerraformTsx.settle n f))
    = droppedResources (TerraformTsx.state f)
  /\ heap (TerraformTsx.state (TerraformTsx.settle n f)) = heap (TerraformTsx.state f).
Proof.
  revert f. induction n as [|n IH]; intros f Hc; cbn [TerraformTsx.settle].
  - by destruct (_ || _).
  - destruct (_ || _); [| done].
    destruct (IH (TerraformTsx.commit f) (commit_clear_done f)) as (-> & -> & ->).
    by apply commit_keeps.
Qed.

Lemma settle_tracks (g : string * list (nat * (string * string)))
    (f : TerraformTsx.Fiber) (s1 : State) :
  quiescent f ->
  selectedCategory s1 = selectedCategory (TerraformTsx.state f) ->
  tracks g s1 ->
  tracks g (TerraformTsx.state (TerraformTsx.settle 2 (TerraformTsx.with_state f s1))).
Proof.
  intros Hq Hcat Htr. unfold tracks.
  assert (Hc : TerraformTsx.clear_pending (TerraformTsx.with_state f s1) = false).
  { destruct (quiescent_deps f Hq) as [Hcd _].
    unfold TerraformTsx.clear_pending, TerraformTsx.with_state. cbn.
    by rewrite Hcd, Hcat, String.eqb_refl. }
  by destruct (settle_keeps 2 _ Hc) as (-> & -> & ->).
Qed.

Lemma tsx_dispatch_tracks (ev : event) (g : string * list (nat * (string * string)))
    (f f' : TerraformTsx.Fiber) :
  quiescent f -> tracks g (TerraformTsx.state f) ->
  TerraformTsx.dispatch ev f = Ok f' ->
  tracks (record true g ev) (TerraformTsx.state f').
Proof.
  intros Hq Htr Hd%tsx_dispatch_handled. revert Hd.
  destruct ev as [active_id | index key value | c | code].
  - cbn [TerraformTsx.handle record].
    unfold TerraformTsx.handleDragEnd.
    destruct (TerraformTsx.resources_get _) as [defs |]; [| done].
    destruct (List.find _ defs) as [r |]; cbn [bind]; intros [= <-].
    + apply settle_tracks; [done | done |].
      unfold tracks. cbn [selectedCategory droppedResources heap].
      by apply tracking_push.
    + by apply settle_tracks.
  - cbn [TerraformTsx.handle record].
    unfold TerraformTsx.updateResourceValue.
    destruct (droppedResources _ !! index) as [res |] eqn:Hres; cbn [bind]; intros [= <-].
    apply settle_tracks; [done | done |].
    unfold tracks. cbn [selectedCategory droppedResources heap].
    by apply tracking_edit.
  - destruct Htr as (Hcat & Hsep & Hlog).
    cbn [record andb]. rewrite Hcat.
    destruct (String.eqb_spec c (selectedCategory (TerraformTsx.state f))) as [-> | Hne];
      cbn [negb].
    + cbn [TerraformTsx.handle bind]. intros [= <-].
      apply settle_tracks; [done | done |]. by split.
    + cbn [TerraformTsx.handle bind].
      rewrite (select_change_settles f c Hq Hne). intros [= <-].
      unfold tracks. cbn [TerraformTsx.state selectedCategory droppedResources heap].
      apply tracking_clear.
  - cbn [TerraformTsx.handle record bind]. intros [= <-].
    by apply settle_tracks.
Qed.

Lemma tsx_run_tracks (evs : list event) (g : string * list (nat * (string * string)))
    (f f' : TerraformTsx.Fiber) :
  quiescent f -> tracks g (TerraformTsx.state f) ->
  TerraformTsx.run evs f = Ok f' ->
  tracks (fold_left (record true) evs g) (TerraformTsx.state f').
Proof.
  revert g f. induction evs as [|ev evs IH]; intros g f Hq Htr;
    cbn [TerraformTsx.run fold_left].
  - by intros [= <-].
  - destruct (TerraformTsx.dispatch ev f) as [f1 |] eqn:Hd; [| done].
    cbn [bind]. apply IH.
    + by eapply dispatch_quiescent.
    + by eapply tsx_dispatch_tracks.
Qed.

(** The edits a history keeps were delivered by the form. *)
Lemma ledger_declared (clears : bool) (evs : list event)
    (g : string * list (nat * (string * string))) :
  forallb ui_event evs = true ->
  Forall (fun e => declared (fst (snd e)) = true) (snd g) ->
  Forall (fun e => declared (fst (snd e)) = true) (snd (fold_left (record clears) evs g)).
Proof.
  revert g. induction evs as [|ev evs IH]; intros g Hui Hg; [done |].
  cbn [forallb] in Hui. apply andb_true_iff in Hui as [Hev Hui].
  cbn [fold_left]. apply IH; [done |].
  destruct ev as [active_id | index key value | c | code]; cbn [record]; try done.
  - cbn [snd]. apply Forall_app. split; [done |]. by apply Forall_singleton.
  - by destruct (_ && _).
Qed.

Lemma edits_at_declared (i : nat) (log : list (nat * (string * string))) :
  Forall (fun e => declared (fst (snd e)) = true) log ->
  Forall (fun kv => declared (fst kv) = true) (edits_at i log).
Proof.
  intros Hlog. unfold edits_at. apply Forall_fmap.
  apply Forall_forall. intros e He. apply list_elem_of_In, filter_In in He as [He _].
  rewrite Forall_forall in Hlog. apply Hlog. by apply list_elem_of_In.
Qed.

(** The lines of a resource whose values are a sequence of form edits. *)
Lemma lines_of_edited (h : Heap) (res : PlacedResource) (edits : list (string * string)) :
  Forall (fun kv => declared (fst kv) = true) edits ->
  deref h (values res) = edited edits ->
  resource_lines h res = field_line <$> edit_order edits.
Proof.
  intros Hdeclared Hvalues. unfold resource_lines, observable. cbn [snd].
  rewrite Hvalues, entries_in_edit_order; [done |].
  eapply Forall_impl; [exact Hdeclared |]. intros kv. apply declared_plain.
Qed.

Lemma mount_tracks :
  tracks ("AWS", []) (TerraformTsx.state TerraformTsx.mount)
  /\ tracks ("AWS", []) Part000.mount.
Proof. split; apply tracking_clear. Qed.

(** C4. In every session driven by the form, of either component, the
    lines of each dropped resource are the fields edited on it, in the
    order of their first edit (not in the order the catalog declares
    them), each with the value entered last.  In particular a session that
    edits region and then bucket_name of aws_s3 lists region before
    bucket_name, though the catalog declares bucket_name first. *)
Theorem lines_in_edit_order (evs : list event) (i : nat) (res : PlacedResource) :
  forallb ui_event evs = true ->
  (forall f,
     TerraformTsx.run evs TerraformTsx.mount = Ok f ->
     droppedResources (TerraformTsx.state f) !! i = Some res ->
     resource_lines (heap (TerraformTsx.state f)) res
     = field_line <$> edit_order (edits_at i (snd (ledger true evs))))
  /\ (forall s,
        Part000.run evs Part000.mount = Ok s ->
        droppedResources s !! i = Some res ->
        resource_lines (heap s) res
        = field_line <$> edit_order (edits_at i (snd (ledger false evs))))
  /\ (exists f,
        TerraformTsx.run region_first TerraformTsx.mount = Ok f
        /\ (fields <$> (resource <$> droppedResources (TerraformTsx.state f)))
           = [["bucket_name"; "region"]]
        /\ terraformCode (TerraformTsx.state f)
           = preamble "aws" +:+ provider_block "aws" +:+ resource_header "aws_s3"
             +:+ "  region = " +:+ dq +:+ "us-east-1" +:+ dq +:+ nl
             +:+ "  bucket_name = " +:+ dq +:+ "my-bucket" +:+ dq +:+ nl
             +:+ resource_footer)
  /\ (exists s,
        Part000.run region_first Part000.mount = Ok s
        /\ (fields <$> (resource <$> droppedResources s)) = [["bucket_name"; "region"]]
        /\ terraformCode s
           = preamble "aws" +:+ resource_header "aws_s3"
             +:+ "  region = " +:+ dq +:+ "us-east-1" +:+ dq +:+ nl
             +:+ "  bucket_name = " +:+ dq +:+ "my-bucket" +:+ dq +:+ nl
             +:+ resource_footer).
Proof.
  intros Hui. destruct mount_tracks as [Htsx H000].
  split; [| split].
  - intros f Hrun Hres.
    destruct (tsx_run_tracks _ _ _ _ mount_quiescent Htsx Hrun) as (_ & _ & Hlog).
    specialize (Hlog i). rewrite Hres in Hlog.
    apply lines_of_edited; [| exact Hlog].
    apply edits_at_declared. by apply ledger_declared.
  - intros s Hrun Hres.
    destruct (part000_run_tracks _ _ _ _ H000 Hrun) as (_ & _ & Hlog).
    specialize (Hlog i). rewrite Hres in Hlog.
    apply lines_of_edited; [| exact Hlog].
    apply edits_at_declared. by apply ledger_declared.
  - split; eexists; (split; [vm_compute; reflexivity |]); split; reflexivity.
Qed.

Lemma lines_in_edit_order_witness :
  resource_lines [[("region", "eu-west-1"); ("bucket_name", "my-bucket")]]
    {| resource := aws_s3; values := 0 |}
  = [ "  region = " +:+ dq +:+ "eu-west-1" +:+ dq +:+ nl;
      "  bucket_name = " +:+ dq +:+ "my-bucket" +:+ dq +:+ nl ].
Proof.
  refine (proj1 (lines_in_edit_order region_twice 0
                   {| resource := aws_s3; values := 0 |} _)
            (match TerraformTsx.run region_twice TerraformTsx.mount with
             | Ok f => f
             | TypeError => TerraformTsx.mount
             end) _ _); reflexivity.
Defined.

(** * Further properties of the code *)

(** ** Assignment to a values object *)

Lemma has_own_cons (kv : string * string) (o : JsObject) (k : string) :
  has_own (kv :: o) k = String.eqb (fst kv) k || has_own o k.
Proof. reflexivity. Qed.

Lemma get_own_cons (kv : string * string) (o : JsObject) (k : string) :
  get_own (kv :: o) k = if String.eqb (fst kv) k then Some (snd kv) else get_own o k.
Proof. unfold get_own. cbn [List.find]. by destruct (String.eqb (fst kv) k). Qed.

Lemma get_own_None (o : JsObject) (k : string) :
  has_own o k = false -> get_own o k = None.
Proof.
  induction o as [|kv o IH]; [done |].
  rewrite has_own_cons, get_own_cons. intros [-> Ho]%orb_false_iff. by apply IH.
Qed.

Lemma get_own_app_new (o : JsObject) (k v : string) :
  has_own o k = false -> get_own (o ++ [(k, v)]) k = Some v.
Proof.
  induction o as [|kv o IH].
  - intros _. cbn [app]. rewrite get_own_cons. cbn [fst snd]. by rewrite String.eqb_refl.
  - rewrite has_own_cons. intros [Hkv Ho]%orb_false_iff.
    cbn [app]. rewrite get_own_cons, Hkv. by apply IH.
Qed.

Lemma get_own_app_other (o : JsObject) (k k' v : string) :
  k' <> k -> get_own (o ++ [(k, v)]) k' = get_own o k'.
Proof.
  intros Hne. induction o as [|kv o IH].
  - cbn [app]. rewrite get_own_cons. cbn [fst].
    apply not_eq_sym, String.eqb_neq in Hne. by rewrite Hne.
  - cbn [app]. rewrite !get_own_cons, IH. done.
Qed.

Lemma get_own_replace_same (o : JsObject) (k v : string) :
  has_own o k = true ->
  get_own (List.map (fun kv => if String.eqb (fst kv) k then (k, v) else kv) o) k = Some v.
Proof.
  induction o as [|kv o IH]; [done |].
  rewrite has_own_cons. intros Hown. cbn [List.map]. rewrite get_own_cons.
  destruct (String.eqb (fst kv) k) eqn:E.
  - cbn [fst snd]. by rewrite String.eqb_refl.
  - rewrite ?E. apply IH. exact Hown.
Qed.

Lemma get_own_replace_other (o : JsObject) (k k' v : string) :
  k' <> k ->
  get_own (List.map (fun kv => if String.eqb (fst kv) k then (k, v) else kv) o) k'
  = get_own o k'.
Proof.
  intros Hne. induction o as [|kv o IH]; [done |].
  cbn [List.map]. rewrite !get_own_cons, IH.
  destruct (String.eqb_spec (fst kv) k) as [Heq | _]; [| done].
  cbn [fst]. apply not_eq_sym, String.eqb_neq in Hne. rewrite Hne.
  rewrite Heq. by rewrite Hne.
Qed.

Lemma assign_get_same (o : JsObject) (k v : string) :
  k <> "__proto__" -> get_own (assign o k v) k = Some v.
Proof.
  intros Hk. apply String.eqb_neq in Hk. unfold assign. rewrite Hk.
  destruct (has_own o k) eqn:Hown.
  - by apply get_own_replace_same.
  - by apply get_own_app_new.
Qed.

Lemma assign_get_other (o : JsObject) (k k' v : string) :
  k' <> k -> get_own (assign o k v) k' = get_own o k'.
Proof.
  intros Hne. unfold assign. destruct (String.eqb k "__proto__"); [done |].
  destruct (has_own o k).
  - by apply get_own_replace_other.
  - by apply get_own_app_other.
Qed.

Lemma replace_keys (o : JsObject) (k v : string) :
  fst <$> List.map (fun kv => if String.eqb (fst kv) k then (k, v) else kv) o
  = fst <$> o.
Proof.
  induction o as [|kv o IH]; [done |].
  cbn [List.map fmap list_fmap]. fold (fmap (M := list) (@fst string string)).
  rewrite IH. f_equal.
  by destruct (String.eqb_spec (fst kv) k) as [-> | _].
Qed.

(** Assignment keeps the keys of an object distinct. *)
Lemma assign_NoDup (o : JsObject) (k v : string) :
  NoDup (fst <$> o) -> NoDup (fst <$> assign o k v).
Proof.
  intros Hnd. unfold assign. destruct (String.eqb k "__proto__"); [done |].
  destruct (has_own o k) eqn:Hown.
  - by rewrite replace_keys.
  - rewrite fmap_app. apply NoDup_app. split; [done |]. split; [| apply NoDup_singleton].
    intros k' Hin Hk'. apply list_elem_of_singleton in Hk'. cbn [fst] in Hk'. subst k'.
    apply has_own_elem in Hin. congruence.
Qed.

Lemma has_own_replace (o : JsObject) (k v k' : string) :
  has_own (List.map (fun kv => if String.eqb (fst kv) k then (k, v) else kv) o) k'
  = has_own o k'.
Proof.
  induction o as [|kv o IH]; [done |].
  cbn [List.map]. rewrite !has_own_cons, IH. f_equal.
  by destruct (String.eqb_spec (fst kv) k) as [-> | _].
Qed.

Lemma has_own_app_new (o : JsObject) (k v : string) :
  has_own (o ++ [(k, v)]) k = true.
Proof.
  unfold has_own. rewrite existsb_app. cbn [existsb fst].
  by rewrite String.eqb_refl, orb_true_r.
Qed.

Lemma replace_replace (o : JsObject) (k v1 v2 : string) :
  List.map (fun kv => if String.eqb (fst kv) k then (k, v2) else kv)
    (List.map (fun kv => if String.eqb (fst kv) k then (k, v1) else kv) o)
  = List.map (fun kv => if String.eqb (fst kv) k then (k, v2) else kv) o.
Proof.
  rewrite List.map_map. apply List.map_ext. intros kv.
  destruct (String.eqb (fst kv) k) eqn:E; [| by rewrite E].
  cbn [fst]. by rewrite String.eqb_refl.
Qed.

Lemma replace_absent (o : JsObject) (k v : string) :
  has_own o k = false ->
  List.map (fun kv => if String.eqb (fst kv) k then (k, v) else kv) o = o.
Proof.
  induction o as [|kv o IH]; [done |].
  rewrite has_own_cons. intros [Hkv Ho]%orb_false_iff.
  cbn [List.map]. by rewrite Hkv, IH.
Qed.

(** Of two assignments to one key the second decides the value; the
    place of the key is that of the first. *)
Lemma assign_assign (o : JsObject) (k v1 v2 : string) :
  assign (assign o k v1) k v2 = assign o k v2.
Proof.
  unfold assign. destruct (String.eqb k "__proto__") eqn:Hk; [done |].
  destruct (has_own o k) eqn:Hown.
  - by rewrite has_own_replace, Hown, replace_replace.
  - rewrite has_own_app_new, List.map_app, replace_absent by done.
    cbn [List.map fst]. by rewrite String.eqb_refl.
Qed.

(** ** What every values object of a session satisfies *)

Section ObjectInvariant.

Variable P : JsObject -> Prop.
Hypothesis P_empty : P empty_object.
Hypothesis P_assign : forall o k v, P o -> P (assign o k v).

Lemma tsx_handle_heap (ev : event) (s s' : State) :
  Forall P (heap s) -> TerraformTsx.handle ev s = Ok s' -> Forall P (heap s').
Proof using P_empty P_assign.
  intros Hall. destruct ev as [active_id | index key value | c | code];
    cbn [TerraformTsx.handle].
  - unfold TerraformTsx.handleDragEnd.
    destruct (TerraformTsx.resources_get _) as [defs |]; [| done].
    destruct (List.find _ defs) as [r |]; intros [= <-]; [| done].
    cbn [heap]. apply Forall_app. split; [done |]. by apply Forall_singleton.
  - unfold TerraformTsx.updateResourceValue.
    destruct (droppedResources s !! index) as [res |]; intros [= <-].
    cbn [heap]. apply Forall_alter; [done |]. intros o _. apply P_assign.
  - by intros [= <-].
  - by intros [= <-].
Qed.

Lemma settle_heap (n : nat) (f : TerraformTsx.Fiber) :
  heap (TerraformTsx.state (TerraformTsx.settle n f)) = heap (TerraformTsx.state f).
Proof.
  revert f. induction n as [|n IH]; intros f; cbn [TerraformTsx.settle].
  - by destruct (_ || _).
  - destruct (_ || _); [| done]. by rewrite IH.
Qed.

Lemma tsx_run_heap (evs : list event) (f f' : TerraformTsx.Fiber) :
  Forall P (heap (TerraformTsx.state f)) -> TerraformTsx.run evs f = Ok f' ->
  Forall P (heap (TerraformTsx.state f')).
Proof using P_empty P_assign.
  revert f. induction evs as [|ev evs IH]; intros f Hall; cbn [TerraformTsx.run].
  - by intros [= <-].
  - destruct (TerraformTsx.dispatch ev f) as [f1 |] eqn:Hd; [| done].
    apply tsx_dispatch_inv in Hd as (s1 & Hh & ->).
    cbn [bind]. apply IH. rewrite settle_heap. cbn [TerraformTsx.with_state TerraformTsx.state].
    by eapply tsx_handle_heap.
Qed.

Lemma part000_dispatch_heap (ev : event) (s s' : State) :
  Forall P (heap s) -> Part000.dispatch ev s = Ok s' -> Forall P (heap s').
Proof using P_empty P_assign.
  intros Hall Hd%part000_dispatch_handled. revert Hd.
  destruct ev as [active_id | index key value | c | code]; cbn [Part000.handle].
  - unfold Part000.handleDragEnd.
    destruct (Part000.resources_get _) as [defs |]; [| done].
    destruct (List.find _ defs) as [r |]; intros [= <-]; [| done].
    cbn [heap]. apply Forall_app. split; [done |]. by repeat constructor.
  - unfold Part000.updateResourceValue.
    destruct (droppedResources s !! index) as [res |]; intros [= <-].
    cbn [heap]. apply Forall_alter; [done |]. intros o _. apply P_assign.
  - by intros [= <-].
  - by intros [= <-].
Qed.

Lemma part000_run_heap (evs : list event) (s s' : State) :
  Forall P (heap s) -> Part000.run evs s = Ok s' -> Forall P (heap s').
Proof using P_empty P_assign.
  revert s. induction evs as [|ev evs IH]; intros s Hall; cbn [Part000.run].
  - by intros [= <-].
  - destruct (Part000.dispatch ev s) as [s1 |] eqn:Hd; [| done].
    cbn [bind]. apply IH. by eapply part000_dispatch_heap.
Qed.

Lemma reachable_heap (s : State) : reachable s -> Forall P (heap s).
Proof using P_empty P_assign.
  intros [(evs & f & Hrun & <-) | (evs & Hrun)].
  - eapply tsx_run_heap; [| exact Hrun].
    unfold TerraformTsx.mount. rewrite settle_heap. apply Forall_nil_2.
  - eapply part000_run_heap; [| exact Hrun]. apply Forall_nil_2.
Qed.

Lemma reachable_deref (s : State) (a : nat) : reachable s -> P (deref (heap s) a).
Proof using P_empty P_assign.
  intros Hall%reachable_heap. unfold deref. rewrite list_lookup_total_alt.
  destruct (heap s !! a) as [o |] eqn:Ho; [| exact P_empty].
  by eapply Forall_lookup_1.
Qed.

End ObjectInvariant.

Lemma get_own_elem (o : JsObject) (k v : string) :
  get_own o k = Some v -> (k, v) ∈ o.
Proof.
  unfold get_own. destruct (List.find _ o) as [[k' v'] |] eqn:Hfind; [| done].
  intros [= <-]. apply find_some in Hfind as [Hin Heq].
  apply String.eqb_eq in Heq. cbn [fst] in Heq. subst k'. by apply list_elem_of_In.
Qed.

(** X1. In every state a session reaches, no field has two lines in the
    block of a resource: the keys of the entries its lines are made of are
    pairwise distinct. *)
Theorem one_line_per_field (s : State) (res : PlacedResource) :
  reachable s ->
  NoDup (fst <$> Object_entries (deref (heap s) (values res)))
  /\ length (resource_lines (heap s) res)
     = length (deref (heap s) (values res)).
Proof.
  intros Hreach. split.
  - rewrite Object_entries_perm.
    apply (reachable_deref (fun o => NoDup (fst <$> o))); [apply NoDup_nil_2 | | done].
    intros o k v. apply assign_NoDup.
  - unfold resource_lines, observable. cbn [snd].
    by rewrite length_fmap, Object_entries_perm.
Qed.

Lemma one_line_per_field_witness :
  NoDup (fst <$> Object_entries (deref (heap two_dropped) 0))
  /\ length (resource_lines (heap two_dropped) {| resource := aws_s3; values := 0 |})
     = length (deref (heap two_dropped) 0).
Proof.
  apply (one_line_per_field two_dropped {| resource := aws_s3; values := 0 |}).
  left. exists two_dropped_session.
  exists (TerraformTsx.settle 2 (TerraformTsx.with_state TerraformTsx.mount two_dropped)).
  split; [vm_compute; reflexivity | reflexivity].
Defined.

(** X2. In every state a session reaches, an edit of a field of a resource
    in range is read back: afterwards the values object of that resource
    holds the entered value under the key (any key but __proto__), and the
    block of the resource has the line of that key and value. *)
Theorem edit_is_read_back (s : State) (index : nat) (key value : string)
    (res : PlacedResource) :
  reachable s ->
  droppedResources s !! index = Some res ->
  key <> "__proto__" ->
  exists sA sB,
    TerraformTsx.updateResourceValue index key value s = Ok sA
    /\ Part000.updateResourceValue index key value s = Ok sB
    /\ heap sB = heap sA
    /\ get_own (deref (heap sA) (values res)) key = Some value
    /\ field_line (key, value) ∈ resource_lines (heap sA) res.
Proof.
  intros Hreach Hres Hkey. apply reachable_separate in Hreach.
  destruct (alter_values_frame _ _ _ _ key value Hreach Hres) as [_ Hself].
  unfold TerraformTsx.updateResourceValue, Part000.updateResourceValue. rewrite Hres.
  do 2 eexists. split; [reflexivity |]. split; [reflexivity |]. cbn [heap].
  split; [reflexivity |].
  assert (Hget : get_own (deref (alter (fun o => assign o key value) (values res) (heap s))
                            (values res)) key = Some value)
    by (rewrite Hself; by apply assign_get_same).
  split; [exact Hget |].
  unfold resource_lines, observable. cbn [snd].
  apply list_elem_of_fmap_2. rewrite Object_entries_perm. by apply get_own_elem.
Qed.

Lemma edit_is_read_back_witness :
  exists sA,
    TerraformTsx.updateResourceValue 1 "ami" "ami-123" two_dropped = Ok sA
    /\ get_own (deref (heap sA) 1) "ami" = Some "ami-123".
Proof.
  destruct (edit_is_read_back two_dropped 1 "ami" "ami-123"
              {| resource := aws_ec2; values := 1 |})
    as (sA & sB & HA & _ & _ & Hget & _).
  - left. exists two_dropped_session.
    exists (TerraformTsx.settle 2 (TerraformTsx.with_state TerraformTsx.mount two_dropped)).
    split; [vm_compute; reflexivity | reflexivity].
  - reflexivity.
  - discriminate.
  - exists sA. by split.
Defined.

(** ** Re-rendering in Terraform.tsx *)

(** A handler that set a new array of resources and kept the category:
    one commit renders the document of the new state, and the effects are
    settled. *)
Lemma settle_rerenders (f : TerraformTsx.Fiber) (s1 : State) :
  quiescent f ->
  selectedCategory s1 = selectedCategory (TerraformTsx.state f) ->
  arrayId s1 <> arrayId (TerraformTsx.state f) ->
  TerraformTsx.settle 2 (TerraformTsx.with_state f s1)
  = {| TerraformTsx.state :=
         {| selectedCategory := selectedCategory s1;
            droppedResources := droppedResources s1;
            arrayId := arrayId s1;
            terraformCode :=
              TerraformTsx.generateTerraformCode (heap s1) (selectedCategory s1)
                (droppedResources s1);
            heap := heap s1 |};
       TerraformTsx.clearDeps := Some (selectedCategory s1);
       TerraformTsx.renderDeps := Some (arrayId s1, selectedCategory s1) |}.
Proof.
  intros Hq Hcat Hid.
  destruct (quiescent_deps f Hq) as [Hcd Hrd].
  set (f0 := TerraformTsx.with_state f s1).
  assert (Hc0 : TerraformTsx.clear_pending f0 = false).
  { unfold TerraformTsx.clear_pending, f0, TerraformTsx.with_state. cbn.
    by rewrite Hcd, Hcat, String.eqb_refl. }
  assert (Hr0 : TerraformTsx.render_pending f0 = true).
  { unfold TerraformTsx.render_pending, f0, TerraformTsx.with_state. cbn.
    rewrite Hrd. apply not_eq_sym, Nat.eqb_neq in Hid. by rewrite Hid. }
  rewrite settle_step by (by rewrite Hr0, orb_true_r).
  rewrite (commit_rendering f0 Hc0 Hr0).
  cbn [TerraformTsx.state f0 TerraformTsx.with_state].
  apply settle_done. split.
  - unfold TerraformTsx.clear_pending. cbn. by rewrite String.eqb_refl.
  - unfold TerraformTsx.render_pending. cbn. by rewrite Nat.eqb_refl, String.eqb_refl.
Qed.

(** A handler that set nothing the effects depend on. *)
Lemma settle_idle (f : TerraformTsx.Fiber) (s1 : State) :
  quiescent f ->
  selectedCategory s1 = selectedCategory (TerraformTsx.state f) ->
  arrayId s1 = arrayId (TerraformTsx.state f) ->
  TerraformTsx.settle 2 (TerraformTsx.with_state f s1) = TerraformTsx.with_state f s1.
Proof.
  intros Hq Hcat Hid. destruct (quiescent_deps f Hq) as [Hcd Hrd].
  apply settle_done. split.
  - unfold TerraformTsx.clear_pending, TerraformTsx.with_state. cbn.
    by rewrite Hcd, Hcat, String.eqb_refl.
  - unfold TerraformTsx.render_pending, TerraformTsx.with_state. cbn.
    by rewrite Hrd, Hcat, Hid, Nat.eqb_refl, String.eqb_refl.
Qed.

Lemma with_state_same (f : TerraformTsx.Fiber) :
  TerraformTsx.with_state f (TerraformTsx.state f) = f.
Proof. by destruct f. Qed.

Lemma tsx_input_handled (f : TerraformTsx.Fiber) (index : nat) (key value : string)
    (res : PlacedResource) :
  quiescent f ->
  droppedResources (TerraformTsx.state f) !! index = Some res ->
  let s := TerraformTsx.state f in
  let h' := alter (fun o => assign o key value) (values res) (heap s) in
  bind (TerraformTsx.handle (InputChange index key value) (TerraformTsx.state f))
       (fun s => Ok (TerraformTsx.settle 2 (TerraformTsx.with_state f s)))
  = Ok {| TerraformTsx.state :=
            {| selectedCategory := selectedCategory s;
               droppedResources := droppedResources s;
               arrayId := S (arrayId s);
               terraformCode :=
                 TerraformTsx.generateTerraformCode h' (selectedCategory s)
                   (droppedResources s);
               heap := h' |};
          TerraformTsx.clearDeps := Some (selectedCategory s);
          TerraformTsx.renderDeps := Some (S (arrayId s), selectedCategory s) |}.
Proof.
  intros Hq Hres s h'. cbn [TerraformTsx.handle].
  unfold TerraformTsx.updateResourceValue. rewrite Hres. cbn [bind]. f_equal.
  rewrite settle_rerenders; [reflexivity | done | reflexivity |].
  cbn [arrayId]. fold s. lia.
Qed.

(** An edit in a state whose category the catalog has. *)
Lemma tsx_input_dispatch (f : TerraformTsx.Fiber) (index : nat) (key value : string)
    (res : PlacedResource) (defs : list Resource) :
  quiescent f ->
  TerraformTsx.resources_get (selectedCategory (TerraformTsx.state f)) = Some defs ->
  droppedResources (TerraformTsx.state f) !! index = Some res ->
  let s := TerraformTsx.state f in
  let h' := alter (fun o => assign o key value) (values res) (heap s) in
  TerraformTsx.dispatch (InputChange index key value) f
  = Ok {| TerraformTsx.state :=
            {| selectedCategory := selectedCategory s;
               droppedResources := droppedResources s;
               arrayId := S (arrayId s);
               terraformCode :=
                 TerraformTsx.generateTerraformCode h' (selectedCategory s)
                   (droppedResources s);
               heap := h' |};
          TerraformTsx.clearDeps := Some (selectedCategory s);
          TerraformTsx.renderDeps := Some (S (arrayId s), selectedCategory s) |}.
Proof.
  intros Hq Hget Hres s h'. subst s h'.
  rewrite <- (tsx_input_handled f index key value res Hq Hres).
  unfold TerraformTsx.dispatch. cbn [TerraformTsx.handle].
  unfold TerraformTsx.updateResourceValue. rewrite Hres. cbn [bind].
  by rewrite (tsx_render_key _ defs).
Qed.

Lemma tsx_drop_dispatch (f : TerraformTsx.Fiber) (active_id : string)
    (defs : list Resource) (r : Resource) :
  quiescent f ->
  TerraformTsx.resources_get (selectedCategory (TerraformTsx.state f)) = Some defs ->
  List.find (fun r' => String.eqb (id r') active_id) defs = Some r ->
  let s := TerraformTsx.state f in
  let rs' := droppedResources s ++ [ {| resource := r; values := length (heap s) |} ] in
  let h' := heap s ++ [empty_object] in
  TerraformTsx.dispatch (DragEnd active_id) f
  = Ok {| TerraformTsx.state :=
            {| selectedCategory := selectedCategory s;
               droppedResources := rs';
               arrayId := S (arrayId s);
               terraformCode :=
                 TerraformTsx.generateTerraformCode h' (selectedCategory s) rs';
               heap := h' |};
          TerraformTsx.clearDeps := Some (selectedCategory s);
          TerraformTsx.renderDeps := Some (S (arrayId s), selectedCategory s) |}.
Proof.
  intros Hq Hget Hfind s rs' h'. unfold TerraformTsx.dispatch. cbn [TerraformTsx.handle].
  unfold TerraformTsx.handleDragEnd. rewrite Hget, Hfind. cbn [bind].
  rewrite (tsx_render_key _ defs) by done. cbn [bind]. f_equal.
  rewrite settle_rerenders; [reflexivity | done | reflexivity |].
  cbn [arrayId]. fold s. lia.
Qed.

Lemma part000_drop_dispatch (s : State) (active_id : string) (defs : list Resource)
    (r : Resource) :
  Part000.resources_get (selectedCategory s) = Some defs ->
  List.find (fun r' => String.eqb (id r') active_id) defs = Some r ->
  let h' := heap s ++ [empty_object; empty_object] in
  Part000.dispatch (DragEnd active_id) s
  = Ok {| selectedCategory := selectedCategory s;
          droppedResources :=
            droppedResources s ++ [ {| resource := r; values := length (heap s) |} ];
          arrayId := S (arrayId s);
          terraformCode :=
            Part000.updateTerraformCode h' (selectedCategory s)
              (droppedResources s
               ++ [ {| resource := r; values := S (length (heap s)) |} ]);
          heap := h' |}.
Proof.
  intros Hget Hfind h'. apply (part000_dispatch_intro _ _ _ defs); [| exact Hget].
  cbn [Part000.handle]. unfold Part000.handleDragEnd. by rewrite Hget, Hfind.
Qed.

Lemma part000_input_dispatch (s : State) (index : nat) (key value : string)
    (res : PlacedResource) (defs : list Resource) :
  Part000.resources_get (selectedCategory s) = Some defs ->
  droppedResources s !! index = Some res ->
  let h' := alter (fun o => assign o key value) (values res) (heap s) in
  Part000.dispatch (InputChange index key value) s
  = Ok {| selectedCategory := selectedCategory s;
          droppedResources := droppedResources s;
          arrayId := S (arrayId s);
          terraformCode :=
            Part000.updateTerraformCode h' (selectedCategory s) (droppedResources s);
          heap := h' |}.
Proof.
  intros Hget Hres h'. apply (part000_dispatch_intro _ _ _ defs); [| exact Hget].
  cbn [Part000.handle]. unfold Part000.updateResourceValue. by rewrite Hres.
Qed.

Lemma part000_select_dispatch (s : State) (c : string) (defs : list Resource) :
  Part000.resources_get c = Some defs ->
  Part000.dispatch (SelectChange c) s
  = Ok {| selectedCategory := c; droppedResources := droppedResources s;
          arrayId := arrayId s; terraformCode := terraformCode s; heap := heap s |}.
Proof. intros Hget. by apply (part000_dispatch_intro _ _ _ defs). Qed.

(** Every state of a session has a category of the catalog: the render
    of any other has thrown. *)
Lemma tsx_run_category (evs : list event) (f f' : TerraformTsx.Fiber) :
  (exists defs,
     TerraformTsx.resources_get (selectedCategory (TerraformTsx.state f)) = Some defs) ->
  TerraformTsx.run evs f = Ok f' ->
  exists defs,
    TerraformTsx.resources_get (selectedCategory (TerraformTsx.state f')) = Some defs.
Proof.
  revert f. induction evs as [|ev evs IH]; intros f Hkey; cbn [TerraformTsx.run].
  - by intros <-%Ok_inj.
  - destruct (TerraformTsx.dispatch ev f) as [f1 |] eqn:Hd; [| done].
    cbn [bind]. apply IH. by eapply tsx_dispatch_rendered.
Qed.

Lemma tsx_reachable_category (evs : list event) (f : TerraformTsx.Fiber) :
  TerraformTsx.run evs TerraformTsx.mount = Ok f ->
  exists defs,
    TerraformTsx.resources_get (selectedCategory (TerraformTsx.state f)) = Some defs.
Proof. apply tsx_run_category. by eexists. Qed.

Lemma part000_run_category (evs : list event) (s s' : State) :
  (exists defs, Part000.resources_get (selectedCategory s) = Some defs) ->
  Part000.run evs s = Ok s' ->
  exists defs, Part000.resources_get (selectedCategory s') = Some defs.
Proof.
  revert s. induction evs as [|ev evs IH]; intros s Hkey; cbn [Part000.run].
  - by intros <-%Ok_inj.
  - destruct (Part000.dispatch ev s) as [s1 |] eqn:Hd; [| done].
    cbn [bind]. apply IH. by eapply part000_dispatch_rendered.
Qed.

Lemma part000_reachable_category (evs : list event) (s : State) :
  Part000.run evs Part000.mount = Ok s ->
  exists defs, Part000.resources_get (selectedCategory s) = Some defs.
Proof. apply part000_run_category. by eexists. Qed.

Lemma mount_synced : synced TerraformTsx.mount.
Proof. reflexivity. Qed.

Lemma tsx_dispatch_synced (ev : event) (f f' : TerraformTsx.Fiber) :
  quiescent f -> synced f -> is_editor_change ev = false ->
  TerraformTsx.dispatch ev f = Ok f' -> synced f'.
Proof.
  intros Hq Hsync Hev. destruct ev as [active_id | index key value | c | code]; [| | | done].
  - destruct (TerraformTsx.resources_get (selectedCategory (TerraformTsx.state f)))
      as [defs |] eqn:Hget.
    + destruct (List.find (fun r' => String.eqb (id r') active_id) defs) as [r |] eqn:Hfind.
      * rewrite (tsx_drop_dispatch f active_id defs r Hq Hget Hfind). by intros [= <-].
      * intros Hd%tsx_dispatch_handled; revert Hd. cbn [TerraformTsx.handle].
        unfold TerraformTsx.handleDragEnd. rewrite Hget, Hfind. cbn [bind].
        rewrite with_state_same, settle_done by done. by intros [= <-].
    + intros Hd%tsx_dispatch_handled; revert Hd. cbn [TerraformTsx.handle].
      unfold TerraformTsx.handleDragEnd. by rewrite Hget.
  - destruct (droppedResources (TerraformTsx.state f) !! index) as [res |] eqn:Hres.
    + intros Hd%tsx_dispatch_handled; revert Hd.
      rewrite (tsx_input_handled f index key value res Hq Hres). by intros [= <-].
    + intros Hd%tsx_dispatch_handled; revert Hd. cbn [TerraformTsx.handle].
      unfold TerraformTsx.updateResourceValue. by rewrite Hres.
  - destruct (String.eqb_spec c (selectedCategory (TerraformTsx.state f))) as [-> | Hne].
    + intros Hd%tsx_dispatch_handled; revert Hd. cbn [TerraformTsx.handle bind].
      rewrite settle_idle by done. intros [= <-].
      unfold synced in *. exact Hsync.
    + intros Hd%tsx_dispatch_handled; revert Hd. cbn [TerraformTsx.handle bind].
      rewrite (select_change_settles f c Hq Hne). by intros [= <-].
Qed.

Lemma tsx_run_synced (evs : list event) (f0 f : TerraformTsx.Fiber) :
  quiescent f0 -> synced f0 ->
  forallb (fun ev => negb (is_editor_change ev)) evs = true ->
  TerraformTsx.run evs f0 = Ok f -> synced f.
Proof.
  revert f0. induction evs as [|ev evs IH]; intros f0 Hq Hs Hevs; cbn [TerraformTsx.run].
  - by intros [= <-].
  - cbn [forallb] in Hevs. apply andb_true_iff in Hevs as [Hev Hevs].
    apply negb_true_iff in Hev.
    destruct (TerraformTsx.dispatch ev f0) as [f1 |] eqn:Hd; [| done].
    cbn [bind]. apply IH; [| | done].
    + by eapply dispatch_quiescent.
    + by eapply tsx_dispatch_synced.
Qed.

(** X3. In Terraform.tsx, as long as the text in the editor is not edited
    by hand, the document is at all times the render of the current
    category and dropped resources. *)
Theorem document_follows_state (evs : list event) (f : TerraformTsx.Fiber) :
  forallb (fun ev => negb (is_editor_change ev)) evs = true ->
  TerraformTsx.run evs TerraformTsx.mount = Ok f ->
  terraformCode (TerraformTsx.state f)
  = TerraformTsx.generateTerraformCode (heap (TerraformTsx.state f))
      (selectedCategory (TerraformTsx.state f)) (droppedResources (TerraformTsx.state f)).
Proof.
  intros Hevs Hrun.
  exact (tsx_run_synced evs _ f mount_quiescent mount_synced Hevs Hrun).
Qed.

Lemma document_follows_state_witness :
  let evs := two_dropped_session ++ [SelectChange "Docker"; DragEnd "docker_network"] in
  let f := match TerraformTsx.run evs TerraformTsx.mount with
           | Ok f => f
           | TypeError => TerraformTsx.mount
           end in
  terraformCode (TerraformTsx.state f)
  = TerraformTsx.generateTerraformCode (heap (TerraformTsx.state f))
      (selectedCategory (TerraformTsx.state f)) (droppedResources (TerraformTsx.state f)).
Proof.
  cbv zeta.
  apply (document_follows_state
           (two_dropped_session ++ [SelectChange "Docker"; DragEnd "docker_network"]));
    [reflexivity | vm_compute; reflexivity].
Defined.

Lemma observable_heap_ext (h extra : Heap) (res : PlacedResource) :
  (values res < length h)%nat -> observable (h ++ extra) res = observable h res.
Proof.
  intros Hlt. unfold observable, deref. by rewrite lookup_total_app_l.
Qed.

Lemma blocks_heap_ext (h extra : Heap) (rs : list PlacedResource) :
  sep rs h -> resource_block (h ++ extra) <$> rs = resource_block h <$> rs.
Proof.
  intros [_ Hlt]. apply Forall_fmap_ext_1. eapply Forall_impl; [exact Hlt |].
  intros res Hres. unfold resource_block. by rewrite observable_heap_ext.
Qed.

(** The block of a resource dropped into the slot of a new, empty values
    object. *)
Lemma dropped_block (h extra : Heap) (r : Resource) :
  resource_block (h ++ empty_object :: extra) {| resource := r; values := length h |}
  = resource_header (id r) +:+ resource_footer.
Proof.
  unfold resource_block, block_of, observable, deref. cbn [resource values fst snd].
  rewrite lookup_total_app_r by lia. by rewrite Nat.sub_diag.
Qed.

Lemma blocks_after_drop (h extra : Heap) (rs : list PlacedResource) (r : Resource) :
  sep rs h ->
  text_of (resource_block (h ++ empty_object :: extra)
             <$> (rs ++ [ {| resource := r; values := length h |} ]))
  = text_of (resource_block h <$> rs) +:+ resource_header (id r) +:+ resource_footer.
Proof.
  intros Hsep. rewrite fmap_app, text_of_app, blocks_heap_ext by done.
  cbn [fmap list_fmap text_of foldr]. by rewrite dropped_block, append_empty_r.
Qed.

Lemma tsx_reachable_separate (evs : list event) (f : TerraformTsx.Fiber) :
  TerraformTsx.run evs TerraformTsx.mount = Ok f -> separate (TerraformTsx.state f).
Proof. intros Hrun. apply reachable_separate. left. by exists evs, f. Qed.

Lemma part000_reachable_separate (evs : list event) (s : State) :
  Part000.run evs Part000.mount = Ok s -> separate s.
Proof. intros Hrun. apply reachable_separate. right. by exists evs. Qed.

(** X4. Dropping an item of the catalog appends one resource, with no
    value and hence no line, and the new document is the render of the
    state before the drop followed by the empty block of the item;
    whatever the editor held is replaced.  In both components. *)
Theorem drop_appends_empty_block (evs : list event) (active_id : string) :
  (forall f defs r,
     TerraformTsx.run evs TerraformTsx.mount = Ok f ->
     TerraformTsx.resources_get (selectedCategory (TerraformTsx.state f)) = Some defs ->
     List.find (fun r' => String.eqb (id r') active_id) defs = Some r ->
     exists f',
       TerraformTsx.dispatch (DragEnd active_id) f = Ok f'
       /\ droppedResources (TerraformTsx.state f')
          = droppedResources (TerraformTsx.state f)
            ++ [ {| resource := r; values := length (heap (TerraformTsx.state f)) |} ]
       /\ resource_lines (heap (TerraformTsx.state f'))
            {| resource := r; values := length (heap (TerraformTsx.state f)) |} = []
       /\ terraformCode (TerraformTsx.state f')
          = TerraformTsx.generateTerraformCode (heap (TerraformTsx.state f))
              (selectedCategory (TerraformTsx.state f))
              (droppedResources (TerraformTsx.state f))
            +:+ resource_header (id r) +:+ resource_footer)
  /\ (forall s defs r,
        Part000.run evs Part000.mount = Ok s ->
        Part000.resources_get (selectedCategory s) = Some defs ->
        List.find (fun r' => String.eqb (id r') active_id) defs = Some r ->
        exists s',
          Part000.dispatch (DragEnd active_id) s = Ok s'
          /\ droppedResources s'
             = droppedResources s ++ [ {| resource := r; values := length (heap s) |} ]
          /\ resource_lines (heap s') {| resource := r; values := length (heap s) |} = []
          /\ terraformCode s'
             = Part000.updateTerraformCode (heap s) (selectedCategory s) (droppedResources s)
               +:+ resource_header (id r) +:+ resource_footer).
Proof.
  split.
  - intros f defs r Hrun Hget Hfind.
    pose proof (run_quiescent _ _ _ mount_quiescent Hrun) as Hq.
    pose proof (tsx_reachable_separate _ _ Hrun) as Hsep.
    eexists. split; [by apply (tsx_drop_dispatch f active_id defs r) |].
    cbn [TerraformTsx.state droppedResources heap terraformCode selectedCategory].
    split; [reflexivity |]. split.
    + unfold resource_lines, observable, deref. cbn [values snd].
      rewrite lookup_total_app_r by lia. by rewrite Nat.sub_diag.
    + rewrite !generateTerraformCode_blocks, blocks_after_drop by done.
      by rewrite !append_assoc.
  - intros s defs r Hrun Hget Hfind.
    pose proof (part000_reachable_separate _ _ Hrun) as Hsep.
    eexists. split; [by apply (part000_drop_dispatch s active_id defs r) |].
    cbn [droppedResources heap terraformCode selectedCategory].
    split; [reflexivity |]. split.
    + unfold resource_lines, observable, deref. cbn [values snd].
      rewrite lookup_total_app_r by lia. by rewrite Nat.sub_diag.
    + rewrite !updateTerraformCode_blocks, !append_assoc. f_equal.
      rewrite fmap_app, text_of_app.
      rewrite (blocks_heap_ext (heap s) [empty_object; empty_object]) by done.
      f_equal. cbn [fmap list_fmap text_of foldr]. rewrite append_empty_r.
      unfold resource_block, block_of, observable, deref. cbn [resource values fst snd].
      rewrite lookup_total_app_r by lia.
      by replace (S (length (heap s)) - length (heap s))%nat with 1%nat by lia.
Qed.

Lemma drop_appends_empty_block_witness :
  let s := match Part000.run two_dropped_session Part000.mount with
           | Ok s => s
           | TypeError => Part000.mount
           end in
  exists s',
    Part000.dispatch (DragEnd "aws_rds") s = Ok s'
    /\ droppedResources s'
       = droppedResources s
         ++ [ {| resource := Part000.mk "aws_rds" "AWS RDS" ["db_name"; "instance_class"];
                 values := length (heap s) |} ]
    /\ terraformCode s'
       = Part000.updateTerraformCode (heap s) (selectedCategory s) (droppedResources s)
         +:+ resource_header "aws_rds" +:+ resource_footer.
Proof.
  cbv zeta.
  destruct (proj2 (drop_appends_empty_block two_dropped_session "aws_rds")
              (match Part000.run two_dropped_session Part000.mount with
               | Ok s => s
               | TypeError => Part000.mount
               end)
              [ Part000.mk "aws_ec2" "AWS EC2" ["ami"; "instance_type"; "tags"];
                Part000.mk "aws_s3" "AWS S3" ["bucket_name"; "region"];
                Part000.mk "aws_rds" "AWS RDS" ["db_name"; "instance_class"] ]
              (Part000.mk "aws_rds" "AWS RDS" ["db_name"; "instance_class"]))
    as (s' & Hd & Hrs & _ & Hcode).
  - vm_compute; reflexivity.
  - reflexivity.
  - reflexivity.
  - exists s'. split; [exact Hd |]. split; [exact Hrs | exact Hcode].
Defined.

(** X5. An edit of a field that does not throw renders the document anew
    from the state after the edit, in both components: the category and
    the sequence of resources are as before, and text typed into the
    editor by hand does not survive the edit of a field. *)
Theorem edit_rerenders (evs : list event) (index : nat) (key value : string) :
  (forall f f',
     TerraformTsx.run evs TerraformTsx.mount = Ok f ->
     TerraformTsx.dispatch (InputChange index key value) f = Ok f' ->
     selectedCategory (TerraformTsx.state f') = selectedCategory (TerraformTsx.state f)
     /\ droppedResources (TerraformTsx.state f') = droppedResources (TerraformTsx.state f)
     /\ terraformCode (TerraformTsx.state f')
        = TerraformTsx.generateTerraformCode (heap (TerraformTsx.state f'))
            (selectedCategory (TerraformTsx.state f'))
            (droppedResources (TerraformTsx.state f')))
  /\ (forall s s',
        Part000.run evs Part000.mount = Ok s ->
        Part000.dispatch (InputChange index key value) s = Ok s' ->
        selectedCategory s' = selectedCategory s
        /\ droppedResources s' = droppedResources s
        /\ terraformCode s'
           = Part000.updateTerraformCode (heap s') (selectedCategory s')
               (droppedResources s')).
Proof.
  split.
  - intros f f' Hrun.
    pose proof (run_quiescent _ _ _ mount_quiescent Hrun) as Hq.
    destruct (droppedResources (TerraformTsx.state f) !! index) as [res |] eqn:Hres.
    + intros Hd%tsx_dispatch_handled; revert Hd.
      rewrite (tsx_input_handled f index key value res Hq Hres). by intros [= <-].
    + intros Hd%tsx_dispatch_handled; revert Hd. cbn [TerraformTsx.handle].
      unfold TerraformTsx.updateResourceValue. by rewrite Hres.
  - intros s s' _ Hd%part000_dispatch_handled. revert Hd.
    cbn [Part000.handle]. unfold Part000.updateResourceValue.
    destruct (droppedResources s !! index) as [res |]; [| done]. by intros [= <-].
Qed.

Lemma edit_rerenders_witness :
  let evs := two_dropped_session ++ [EditorChange (Some "typed by hand")] in
  let f := match TerraformTsx.run evs TerraformTsx.mount with
           | Ok f => f
           | TypeError => TerraformTsx.mount
           end in
  let f' := match TerraformTsx.dispatch (InputChange 1 "ami" "ami-123") f with
            | Ok f' => f'
            | TypeError => f
            end in
  terraformCode (TerraformTsx.state f) = "typed by hand"
  /\ terraformCode (TerraformTsx.state f')
     = TerraformTsx.generateTerraformCode (heap (TerraformTsx.state f'))
         (selectedCategory (TerraformTsx.state f'))
         (droppedResources (TerraformTsx.state f')).
Proof.
  cbv zeta. split; [vm_compute; reflexivity |].
  apply (proj1 (edit_rerenders
            (two_dropped_session ++ [EditorChange (Some "typed by hand")]) 1 "ami" "ami-123")
           (match TerraformTsx.run
                    (two_dropped_session ++ [EditorChange (Some "typed by hand")])
                    TerraformTsx.mount with
            | Ok f => f
            | TypeError => TerraformTsx.mount
            end)).
  - vm_compute; reflexivity.
  - vm_compute; reflexivity.
Defined.

Lemma alter_assign_twice (h : Heap) (a : nat) (key v1 v2 : string) :
  alter (fun o => assign o key v2) a (alter (fun o => assign o key v1) a h)
  = alter (fun o => assign o key v2) a h.
Proof.
  rewrite list_alter_alter_eq. apply list_alter_ext; [| done].
  intros o _. cbn. apply assign_assign.
Qed.

(** X6. Of two successive edits of one field of one resource the last
    wins: the values, the sequence of resources and the document are those
    of the last edit made alone (each keystroke in an input is such an
    edit).  In both components. *)
Theorem last_edit_wins (evs : list event) (index : nat) (key v1 v2 : string) :
  (forall f res,
     TerraformTsx.run evs TerraformTsx.mount = Ok f ->
     droppedResources (TerraformTsx.state f) !! index = Some res ->
     exists f1 f2,
       TerraformTsx.dispatch (InputChange index key v2) f = Ok f1
       /\ TerraformTsx.run [InputChange index key v1; InputChange index key v2] f = Ok f2
       /\ heap (TerraformTsx.state f2) = heap (TerraformTsx.state f1)
       /\ droppedResources (TerraformTsx.state f2) = droppedResources (TerraformTsx.state f1)
       /\ terraformCode (TerraformTsx.state f2) = terraformCode (TerraformTsx.state f1))
  /\ (forall s res,
        Part000.run evs Part000.mount = Ok s ->
        droppedResources s !! index = Some res ->
        exists s1 s2,
          Part000.dispatch (InputChange index key v2) s = Ok s1
          /\ Part000.run [InputChange index key v1; InputChange index key v2] s = Ok s2
          /\ heap s2 = heap s1
          /\ droppedResources s2 = droppedResources s1
          /\ terraformCode s2 = terraformCode s1).
Proof.
  split.
  - intros f res Hrun Hres.
    pose proof (run_quiescent _ _ _ mount_quiescent Hrun) as Hq.
    destruct (tsx_reachable_category _ _ Hrun) as [defs Hget].
    do 2 eexists. split; [by apply (tsx_input_dispatch f index key v2 res defs) |].
    cbn [TerraformTsx.run]. rewrite (tsx_input_dispatch f index key v1 res defs Hq Hget Hres).
    cbn [bind]. erewrite (tsx_input_dispatch _ index key v2 res defs).
    + split; [reflexivity |].
      cbn [TerraformTsx.state heap droppedResources terraformCode selectedCategory].
      by rewrite alter_assign_twice.
    + eapply dispatch_quiescent. by apply (tsx_input_dispatch f index key v1 res defs).
    + exact Hget.
    + exact Hres.
  - intros s res Hrun Hres.
    destruct (part000_reachable_category _ _ Hrun) as [defs Hget].
    cbn [Part000.run].
    rewrite (part000_input_dispatch s index key v2 res defs Hget Hres).
    rewrite (part000_input_dispatch s index key v1 res defs Hget Hres). cbn [bind].
    erewrite (part000_input_dispatch _ index key v2 res defs); [| exact Hget | exact Hres].
    do 2 eexists. split; [reflexivity |]. split; [reflexivity |].
    cbn [heap droppedResources terraformCode selectedCategory].
    by rewrite alter_assign_twice.
Qed.

Lemma last_edit_wins_witness :
  let s := match Part000.run two_dropped_session Part000.mount with
           | Ok s => s
           | TypeError => Part000.mount
           end in
  exists s1 s2,
    Part000.dispatch (InputChange 0 "region" "eu") s = Ok s1
    /\ Part000.run [InputChange 0 "region" "e"; InputChange 0 "region" "eu"] s = Ok s2
    /\ terraformCode s2 = terraformCode s1.
Proof.
  cbv zeta.
  destruct (proj2 (last_edit_wins two_dropped_session 0 "region" "e" "eu")
              (match Part000.run two_dropped_session Part000.mount with
               | Ok s => s
               | TypeError => Part000.mount
               end)
              {| resource := Part000.mk "aws_s3" "AWS S3" ["bucket_name"; "region"];
                 values := 0 |})
    as (s1 & s2 & H1 & H2 & _ & _ & Hcode).
  - vm_compute; reflexivity.
  - reflexivity.
  - exists s1, s2. by repeat split.
Defined.

(** ** The catalog and the canvas *)

Lemma tsx_catalog_cases (c : string) (defs : list Resource) :
  TerraformTsx.resources_get c = Some defs ->
  (c, defs) ∈ TerraformTsx.resources.
Proof.
  unfold TerraformTsx.resources_get.
  destruct (List.find _ TerraformTsx.resources) as [[c' defs'] |] eqn:Hfind; [| done].
  cbn [fmap option_fmap option_map snd]. intros [= <-].
  apply find_some in Hfind as [Hin Heq]. apply String.eqb_eq in Heq. cbn [fst] in Heq.
  subst c'. by apply list_elem_of_In.
Qed.

Lemma part000_catalog_cases (c : string) (defs : list Resource) :
  Part000.resources_get c = Some defs ->
  (c, defs) ∈ Part000.resources.
Proof.
  unfold Part000.resources_get.
  destruct (List.find _ Part000.resources) as [[c' defs'] |] eqn:Hfind; [| done].
  cbn [fmap option_fmap option_map snd]. intros [= <-].
  apply find_some in Hfind as [Hin Heq]. apply String.eqb_eq in Heq. cbn [fst] in Heq.
  subst c'. by apply list_elem_of_In.
Qed.

Lemma find_by_distinct_id (defs : list Resource) (r : Resource) :
  NoDup (id <$> defs) -> r ∈ defs ->
  List.find (fun r' => String.eqb (id r') (id r)) defs = Some r.
Proof.
  induction defs as [|r0 defs IH]; [by intros _ ?%elem_of_nil |].
  cbn [fmap list_fmap]. intros [Hr0 Hnd]%NoDup_cons [-> | Hr]%elem_of_cons; cbn [List.find].
  - by rewrite String.eqb_refl.
  - destruct (String.eqb_spec (id r0) (id r)) as [Heq | _]; [| by apply IH].
    exfalso. apply Hr0. rewrite Heq. by apply list_elem_of_fmap_2.
Qed.

Ltac distinct_strings :=
  repeat first
    [ apply Forall_nil_2
    | apply NoDup_nil_2
    | apply Forall_cons; split
    | apply NoDup_cons; split
    | let H := fresh in
      intros H;
      repeat (apply elem_of_cons in H as [H | H]; [discriminate H |]);
      by apply elem_of_nil in H ].

(** Within a category no two entries share an id. *)
Lemma tsx_ids_distinct :
  Forall (fun e => NoDup (id <$> snd e)) TerraformTsx.resources.
Proof. unfold TerraformTsx.resources. cbn. distinct_strings. Qed.

Lemma part000_ids_distinct :
  Forall (fun e => NoDup (id <$> snd e)) Part000.resources.
Proof. unfold Part000.resources. cbn. distinct_strings. Qed.

Lemma tsx_find_entry (c : string) (defs : list Resource) (r : Resource) :
  TerraformTsx.resources_get c = Some defs -> r ∈ defs ->
  List.find (fun r' => String.eqb (id r') (id r)) defs = Some r.
Proof.
  intros Hget%tsx_catalog_cases Hr. apply find_by_distinct_id; [| done].
  pose proof tsx_ids_distinct as Hall. rewrite Forall_forall in Hall.
  apply (Hall _ Hget).
Qed.

Lemma part000_find_entry (c : string) (defs : list Resource) (r : Resource) :
  Part000.resources_get c = Some defs -> r ∈ defs ->
  List.find (fun r' => String.eqb (id r') (id r)) defs = Some r.
Proof.
  intros Hget%part000_catalog_cases Hr. apply find_by_distinct_id; [| done].
  pose proof part000_ids_distinct as Hall. rewrite Forall_forall in Hall.
  apply (Hall _ Hget).
Qed.

(** X7. Dragging an item of the active category drops that very item: the
    handler finds the entry by its id (no other entry of the category
    has it) and appends it, with a new empty values object, after the
    resources already there.  In both components. *)
Theorem drag_drops_the_item (s : State) :
  (forall defs r,
     TerraformTsx.resources_get (selectedCategory s) = Some defs -> r ∈ defs ->
     exists s',
       TerraformTsx.handleDragEnd (id r) s = Ok s'
       /\ droppedResources s'
          = droppedResources s ++ [ {| resource := r; values := length (heap s) |} ]
       /\ deref (heap s') (length (heap s)) = empty_object
       /\ selectedCategory s' = selectedCategory s)
  /\ (forall defs r,
        Part000.resources_get (selectedCategory s) = Some defs -> r ∈ defs ->
        exists s',
          Part000.handleDragEnd (id r) s = Ok s'
          /\ droppedResources s'
             = droppedResources s ++ [ {| resource := r; values := length (heap s) |} ]
          /\ deref (heap s') (length (heap s)) = empty_object
          /\ selectedCategory s' = selectedCategory s).
Proof.
  split; intros defs r Hget Hr.
  - unfold TerraformTsx.handleDragEnd.
    rewrite Hget, (tsx_find_entry _ _ _ Hget Hr).
    eexists. split; [reflexivity |]. cbn [droppedResources heap selectedCategory].
    split; [reflexivity |]. split; [| reflexivity].
    unfold deref. rewrite lookup_total_app_r by lia. by rewrite Nat.sub_diag.
  - unfold Part000.handleDragEnd.
    rewrite Hget, (part000_find_entry _ _ _ Hget Hr).
    eexists. split; [reflexivity |]. cbn [droppedResources heap selectedCategory].
    split; [reflexivity |]. split; [| reflexivity].
    unfold deref. rewrite lookup_total_app_r by lia. by rewrite Nat.sub_diag.
Qed.

Lemma drag_drops_the_item_witness :
  exists s',
    TerraformTsx.handleDragEnd "aws_rds" two_dropped = Ok s'
    /\ droppedResources s'
       = droppedResources two_dropped
         ++ [ {| resource :=
                   TerraformTsx.mk "aws_rds" "AWS RDS" ["db_name"; "instance_class"]
                     "/aws-rds.png";
                 values := 2 |} ].
Proof.
  destruct (proj1 (drag_drops_the_item two_dropped)
              [ TerraformTsx.mk "aws_ec2" "AWS EC2" ["ami"; "instance_type"; "tags"] "/aws-ec2.png";
                TerraformTsx.mk "aws_s3" "AWS S3" ["bucket_name"; "region"] "/aws-s3.png";
                TerraformTsx.mk "aws_rds" "AWS RDS" ["db_name"; "instance_class"] "/aws-rds.png" ]
              (TerraformTsx.mk "aws_rds" "AWS RDS" ["db_name"; "instance_class"] "/aws-rds.png"))
    as (s' & Hd & Hrs & _).
  - reflexivity.
  - do 2 apply list_elem_of_further. apply list_elem_of_here.
  - exists s'. by split.
Defined.

Lemma tsx_dispatch_from_catalog (ev : event) (f f' : TerraformTsx.Fiber) :
  quiescent f ->
  Forall (fun res =>
            exists defs,
              TerraformTsx.resources_get (selectedCategory (TerraformTsx.state f)) = Some defs
              /\ resource res ∈ defs)
         (droppedResources (TerraformTsx.state f)) ->
  TerraformTsx.dispatch ev f = Ok f' ->
  Forall (fun res =>
            exists defs,
              TerraformTsx.resources_get (selectedCategory (TerraformTsx.state f')) = Some defs
              /\ resource res ∈ defs)
         (droppedResources (TerraformTsx.state f')).
Proof.
  intros Hq Hall. destruct ev as [active_id | index key value | c | code].
  - destruct (TerraformTsx.resources_get (selectedCategory (TerraformTsx.state f)))
      as [defs |] eqn:Hget.
    + destruct (List.find (fun r' => String.eqb (id r') active_id) defs) as [r |] eqn:Hfind.
      * rewrite (tsx_drop_dispatch f active_id defs r Hq Hget Hfind). intros [= <-].
        cbn [TerraformTsx.state droppedResources selectedCategory].
        apply Forall_app. split; [rewrite Hget; exact Hall |].
        apply Forall_singleton. exists defs. split; [done |]. cbn [resource].
        apply find_some in Hfind as [Hin _]. by apply list_elem_of_In.
      * intros Hd%tsx_dispatch_handled; revert Hd. cbn [TerraformTsx.handle].
        unfold TerraformTsx.handleDragEnd. rewrite Hget, Hfind. cbn [bind].
        rewrite with_state_same, settle_done by done. intros [= <-].
        rewrite Hget. exact Hall.
    + intros Hd%tsx_dispatch_handled; revert Hd. cbn [TerraformTsx.handle].
      unfold TerraformTsx.handleDragEnd. by rewrite Hget.
  - destruct (droppedResources (TerraformTsx.state f) !! index) as [res |] eqn:Hres.
    + intros Hd%tsx_dispatch_handled; revert Hd.
      rewrite (tsx_input_handled f index key value res Hq Hres). by intros [= <-].
    + intros Hd%tsx_dispatch_handled; revert Hd. cbn [TerraformTsx.handle].
      unfold TerraformTsx.updateResourceValue. by rewrite Hres.
  - destruct (String.eqb_spec c (selectedCategory (TerraformTsx.state f))) as [-> | Hne].
    + intros Hd%tsx_dispatch_handled; revert Hd. cbn [TerraformTsx.handle bind].
      rewrite settle_idle by done. by intros [= <-].
    + intros Hd%tsx_dispatch_handled; revert Hd. cbn [TerraformTsx.handle bind].
      rewrite (select_change_settles f c Hq Hne). intros [= <-].
      cbn [TerraformTsx.state droppedResources]. apply Forall_nil_2.
  - intros Hd%tsx_dispatch_handled; revert Hd. cbn [TerraformTsx.handle bind].
    rewrite settle_idle by done. by intros [= <-].
Qed.

Lemma part000_dispatch_from_catalog (ev : event) (s s' : State) :
  Forall (fun res => exists c defs, Part000.resources_get c = Some defs /\ resource res ∈ defs)
         (droppedResources s) ->
  Part000.dispatch ev s = Ok s' ->
  Forall (fun res => exists c defs, Part000.resources_get c = Some defs /\ resource res ∈ defs)
         (droppedResources s').
Proof.
  intros Hall Hd%part000_dispatch_handled. revert Hd.
  destruct ev as [active_id | index key value | c | code]; cbn [Part000.handle].
  - unfold Part000.handleDragEnd.
    destruct (Part000.resources_get (selectedCategory s)) as [defs |] eqn:Hget; [| done].
    destruct (List.find _ defs) as [r |] eqn:Hfind; intros [= <-]; [| done].
    cbn [droppedResources]. apply Forall_app. split; [done |].
    apply Forall_singleton. exists (selectedCategory s), defs. split; [done |].
    cbn [resource]. apply find_some in Hfind as [Hin _]. by apply list_elem_of_In.
  - unfold Part000.updateResourceValue.
    destruct (droppedResources s !! index) as [res |]; by intros [= <-].
  - by intros [= <-].
  - by intros [= <-].
Qed.

Lemma tsx_run_from_catalog (evs : list event) (f : TerraformTsx.Fiber) :
  TerraformTsx.run evs TerraformTsx.mount = Ok f ->
  Forall (fun res =>
            exists defs,
              TerraformTsx.resources_get (selectedCategory (TerraformTsx.state f)) = Some defs
              /\ resource res ∈ defs)
         (droppedResources (TerraformTsx.state f)).
Proof.
  pose proof mount_quiescent as Hq.
  assert (H0 : Forall (fun res =>
                 exists defs,
                   TerraformTsx.resources_get
                     (selectedCategory (TerraformTsx.state TerraformTsx.mount)) = Some defs
                   /\ resource res ∈ defs)
              (droppedResources (TerraformTsx.state TerraformTsx.mount)))
    by apply Forall_nil_2.
  revert Hq H0. generalize TerraformTsx.mount as f0.
  induction evs as [|ev evs IH]; intros f0 Hq H0; cbn [TerraformTsx.run].
  - by intros [= <-].
  - destruct (TerraformTsx.dispatch ev f0) as [f1 |] eqn:Hd; [| done].
    cbn [bind]. apply IH.
    + by eapply dispatch_quiescent.
    + by eapply tsx_dispatch_from_catalog.
Qed.

Lemma part000_run_from_catalog (evs : list event) (s : State) :
  Part000.run evs Part000.mount = Ok s ->
  Forall (fun res => exists c defs, Part000.resources_get c = Some defs /\ resource res ∈ defs)
         (droppedResources s).
Proof.
  assert (H0 : Forall (fun res =>
                 exists c defs, Part000.resources_get c = Some defs /\ resource res ∈ defs)
              (droppedResources Part000.mount)) by apply Forall_nil_2.
  revert H0. generalize Part000.mount as s0.
  induction evs as [|ev evs IH]; intros s0 H0; cbn [Part000.run].
  - by intros [= <-].
  - destruct (Part000.dispatch ev s0) as [s1 |] eqn:Hd; [| done].
    cbn [bind]. apply IH. by eapply part000_dispatch_from_catalog.
Qed.

(** X8. What is on the canvas comes from the catalog.  In Terraform.tsx,
    after any sequence of events, every dropped resource is an entry of
    the catalog of the category now selected, so the document never shows
    a resource of another category; in part_000 every dropped resource is
    an entry of some category. *)
Theorem canvas_from_catalog (evs : list event) (res : PlacedResource) :
  (forall f,
     TerraformTsx.run evs TerraformTsx.mount = Ok f ->
     res ∈ droppedResources (TerraformTsx.state f) ->
     exists defs,
       TerraformTsx.resources_get (selectedCategory (TerraformTsx.state f)) = Some defs
       /\ resource res ∈ defs)
  /\ (forall s,
        Part000.run evs Part000.mount = Ok s ->
        res ∈ droppedResources s ->
        exists c defs, Part000.resources_get c = Some defs /\ resource res ∈ defs).
Proof.
  split.
  - intros f Hrun Hres. pose proof (tsx_run_from_catalog evs f Hrun) as Hall.
    rewrite Forall_forall in Hall. by apply Hall.
  - intros s Hrun Hres. pose proof (part000_run_from_catalog evs s Hrun) as Hall.
    rewrite Forall_forall in Hall. by apply Hall.
Qed.

Lemma canvas_from_catalog_witness :
  exists defs,
    TerraformTsx.resources_get "AWS" = Some defs /\ aws_ec2 ∈ defs.
Proof.
  apply (proj1 (canvas_from_catalog two_dropped_session {| resource := aws_ec2; values := 1 |})
           (TerraformTsx.settle 2 (TerraformTsx.with_state TerraformTsx.mount two_dropped))).
  - vm_compute; reflexivity.
  - apply list_elem_of_further, list_elem_of_here.
Defined.

(** X9. In part_000 the canvas outlives its category: no effect empties
    it, and after a change of category and a drop of an item of the new
    category the document names the new provider and still carries the
    blocks of the resources dropped before, followed by the new one. *)
Theorem part000_resources_outlive_category (evs : list event) (s : State) (c : string)
    (defs : list Resource) (r : Resource) :
  Part000.run evs Part000.mount = Ok s ->
  Part000.resources_get c = Some defs -> r ∈ defs ->
  exists s',
    Part000.run [SelectChange c; DragEnd (id r)] s = Ok s'
    /\ droppedResources s'
       = droppedResources s ++ [ {| resource := r; values := length (heap s) |} ]
    /\ terraformCode s'
       = preamble (toLowerCase c) +:+ text_of (resource_block (heap s) <$> droppedResources s)
         +:+ resource_header (id r) +:+ resource_footer.
Proof.
  intros Hrun Hget Hr.
  pose proof (part000_reachable_separate _ _ Hrun) as Hsep.
  cbn [Part000.run]. rewrite (part000_select_dispatch s c defs Hget). cbn [bind].
  rewrite (part000_drop_dispatch
             {| selectedCategory := c; droppedResources := droppedResources s;
                arrayId := arrayId s; terraformCode := terraformCode s; heap := heap s |}
             (id r) defs r Hget (part000_find_entry _ _ _ Hget Hr)).
  cbn [bind selectedCategory droppedResources heap arrayId terraformCode].
  eexists. split; [reflexivity |]. cbn [droppedResources heap terraformCode].
  split; [reflexivity |].
  rewrite updateTerraformCode_blocks. f_equal.
  rewrite fmap_app, text_of_app.
  rewrite (blocks_heap_ext (heap s) [empty_object; empty_object]) by done.
  f_equal. cbn [fmap list_fmap text_of foldr]. rewrite append_empty_r.
  unfold resource_block, block_of, observable, deref. cbn [resource values fst snd].
  rewrite lookup_total_app_r by lia.
  by replace (S (length (heap s)) - length (heap s))%nat with 1%nat by lia.
Qed.

Lemma part000_resources_outlive_category_witness :
  let s := match Part000.run two_dropped_session Part000.mount with
           | Ok s => s
           | TypeError => Part000.mount
           end in
  exists s',
    Part000.run [SelectChange "Docker"; DragEnd "docker_network"] s = Ok s'
    /\ length (droppedResources s') = 3%nat
    /\ terraformCode s'
       = preamble "docker" +:+ text_of (resource_block (heap s) <$> droppedResources s)
         +:+ resource_header "docker_network" +:+ resource_footer.
Proof.
  cbv zeta.
  destruct (part000_resources_outlive_category two_dropped_session
              (match Part000.run two_dropped_session Part000.mount with
               | Ok s => s
               | TypeError => Part000.mount
               end)
              "Docker"
              [ Part000.mk "docker_container" "Docker Container" ["image"; "ports"];
                Part000.mk "docker_network" "Docker Network" ["driver"] ]
              (Part000.mk "docker_network" "Docker Network" ["driver"]))
    as (s' & Hrun & Hrs & Hcode).
  - vm_compute; reflexivity.
  - reflexivity.
  - apply list_elem_of_further, list_elem_of_here.
  - exists s'. split; [exact Hrun |]. split; [by rewrite Hrs | exact Hcode].
Defined.

(** ** When the handlers throw *)

Lemma find_key_None {A} (catalog : list (string * A)) (c : string) :
  List.find (fun e => String.eqb (fst e) c) catalog = None <-> c ∉ fst <$> catalog.
Proof.
  induction catalog as [|e catalog IH]; [split; [intros _; apply not_elem_of_nil | done] |].
  cbn [List.find fmap list_fmap]. rewrite not_elem_of_cons, <- IH.
  destruct (String.eqb_spec (fst e) c) as [-> | Hne]; split; try done.
  - by intros [? _].
  - by intros [_ ?].
Qed.

(** X10. The handlers throw in exactly two situations, and then set no
    state: updateResourceValue when the index is not that of a dropped
    resource, handleDragEnd when the selected category is not a key of the
    catalog.  In both components. *)
Theorem handlers_throw_exactly_when (s : State) (index : nat) (key value active_id : string) :
  (TerraformTsx.updateResourceValue index key value s = TypeError
   <-> (length (droppedResources s) <= index)%nat)
  /\ (Part000.updateResourceValue index key value s = TypeError
      <-> (length (droppedResources s) <= index)%nat)
  /\ (TerraformTsx.handleDragEnd active_id s = TypeError
      <-> selectedCategory s ∉ View.options TerraformTsx.resources)
  /\ (Part000.handleDragEnd active_id s = TypeError
      <-> selectedCategory s ∉ View.options Part000.resources).
Proof.
  split; [| split; [| split]].
  - unfold TerraformTsx.updateResourceValue. rewrite <- lookup_ge_None.
    by destruct (droppedResources s !! index).
  - unfold Part000.updateResourceValue. rewrite <- lookup_ge_None.
    by destruct (droppedResources s !! index).
  - unfold TerraformTsx.handleDragEnd, TerraformTsx.resources_get, View.options.
    rewrite <- find_key_None.
    destruct (List.find _ TerraformTsx.resources) as [e |]; cbn [fmap option_fmap option_map].
    + by destruct (List.find _ (snd e)).
    + done.
  - unfold Part000.handleDragEnd, Part000.resources_get, View.options.
    rewrite <- find_key_None.
    destruct (List.find _ Part000.resources) as [e |]; cbn [fmap option_fmap option_map].
    + by destruct (List.find _ (snd e)).
    + done.
Qed.

Lemma handlers_throw_exactly_when_witness :
  TerraformTsx.updateResourceValue 2 "ami" "x" two_dropped = TypeError
  /\ TerraformTsx.handleDragEnd "aws_s3"
       {| selectedCategory := "GCP"; droppedResources := []; arrayId := 1;
          terraformCode := EmptyString; heap := [] |} = TypeError.
Proof.
  split.
  - apply (proj1 (handlers_throw_exactly_when two_dropped 2 "ami" "x" "aws_s3")).
    cbn [two_dropped droppedResources length]. lia.
  - apply (proj1 (proj2 (proj2 (handlers_throw_exactly_when
             {| selectedCategory := "GCP"; droppedResources := []; arrayId := 1;
                terraformCode := EmptyString; heap := [] |} 0 "ami" "x" "aws_s3")))).
    cbn [selectedCategory]. intros Hin.
    repeat (apply elem_of_cons in Hin as [Hin | Hin]; [discriminate Hin |]).
    by apply elem_of_nil in Hin.
Defined.

(** ** Sessions the page can deliver *)

Lemma inputs_lookup (s : State) (index : nat) (field : string) :
  existsb (fun e => Nat.eqb (fst e) index && String.eqb (snd e) field) (View.inputs s) = true ->
  exists res, droppedResources s !! index = Some res /\ field ∈ fields (resource res).
Proof.
  rewrite existsb_exists. intros ([i k] & Hin & Heq).
  apply andb_true_iff in Heq as [Hi Hk]. cbn [fst snd] in Hi, Hk.
  apply Nat.eqb_eq in Hi. apply String.eqb_eq in Hk. subst i k.
  unfold View.inputs in Hin. apply in_concat in Hin as (l & Hl & Hin).
  apply list_elem_of_In, elem_of_lookup_imap in Hl as (i & res & -> & Hres).
  apply list_elem_of_In, list_elem_of_fmap in Hin as (k & [= -> ->] & Hk).
  by exists res.
Qed.

Lemma tsx_option_in_catalog (c : string) :
  existsb (String.eqb c) (View.options TerraformTsx.resources) = true ->
  exists defs, TerraformTsx.resources_get c = Some defs.
Proof.
  rewrite existsb_exists. intros (c' & Hin & Heq). apply String.eqb_eq in Heq. subst c'.
  unfold TerraformTsx.resources_get.
  destruct (List.find _ TerraformTsx.resources) as [e |] eqn:Hfind; [by exists (snd e) |].
  apply find_key_None in Hfind. exfalso. apply Hfind. by apply list_elem_of_In.
Qed.

Lemma part000_option_in_catalog (c : string) :
  existsb (String.eqb c) (View.options Part000.resources) = true ->
  exists defs, Part000.resources_get c = Some defs.
Proof.
  rewrite existsb_exists. intros (c' & Hin & Heq). apply String.eqb_eq in Heq. subst c'.
  unfold Part000.resources_get.
  destruct (List.find _ Part000.resources) as [e |] eqn:Hfind; [by exists (snd e) |].
  apply find_key_None in Hfind. exfalso. apply Hfind. by apply list_elem_of_In.
Qed.

Lemma settle_category (f : TerraformTsx.Fiber) (s1 : State) :
  quiescent f ->
  selectedCategory s1 = selectedCategory (TerraformTsx.state f) ->
  selectedCategory
    (TerraformTsx.state (TerraformTsx.settle 2 (TerraformTsx.with_state f s1)))
  = selectedCategory (TerraformTsx.state f).
Proof.
  intros Hq Hcat. destruct (quiescent_deps f Hq) as [Hcd _].
  assert (Hc : TerraformTsx.clear_pending (TerraformTsx.with_state f s1) = false).
  { unfold TerraformTsx.clear_pending, TerraformTsx.with_state. cbn.
    by rewrite Hcd, Hcat, String.eqb_refl. }
  by destruct (settle_keeps 2 _ Hc) as (-> & _ & _).
Qed.

(** The category after an event: the one the select delivered, or the
    one before. *)
Lemma tsx_dispatch_category (ev : event) (f f' : TerraformTsx.Fiber) :
  quiescent f -> TerraformTsx.dispatch ev f = Ok f' ->
  selectedCategory (TerraformTsx.state f')
  = match ev with
    | SelectChange c => c
    | _ => selectedCategory (TerraformTsx.state f)
    end.
Proof.
  intros Hq. destruct ev as [active_id | index key value | c | code].
  - intros Hd%tsx_dispatch_handled; revert Hd. cbn [TerraformTsx.handle].
    unfold TerraformTsx.handleDragEnd.
    destruct (TerraformTsx.resources_get _) as [defs |]; [| done].
    destruct (List.find _ defs) as [r |]; cbn [bind]; intros <-%Ok_inj;
      by apply settle_category.
  - intros Hd%tsx_dispatch_handled; revert Hd. cbn [TerraformTsx.handle].
    unfold TerraformTsx.updateResourceValue.
    destruct (droppedResources _ !! index) as [res |]; cbn [bind]; [| done].
    intros <-%Ok_inj. by apply settle_category.
  - destruct (String.eqb_spec c (selectedCategory (TerraformTsx.state f))) as [-> | Hne].
    + intros Hd%tsx_dispatch_handled; revert Hd. cbn [TerraformTsx.handle bind]. intros <-%Ok_inj.
      by apply settle_category.
    + intros Hd%tsx_dispatch_handled; revert Hd. cbn [TerraformTsx.handle bind].
      rewrite (select_change_settles f c Hq Hne). by intros [= <-].
  - intros Hd%tsx_dispatch_handled; revert Hd. cbn [TerraformTsx.handle bind]. intros <-%Ok_inj.
    by apply settle_category.
Qed.

Lemma tsx_handle_category (ev : event) (s s' : State) :
  TerraformTsx.handle ev s = Ok s' ->
  selectedCategory s'
  = match ev with
    | SelectChange c => c
    | _ => selectedCategory s
    end.
Proof.
  destruct ev as [active_id | index key value | c | code]; cbn [TerraformTsx.handle].
  - unfold TerraformTsx.handleDragEnd.
    destruct (TerraformTsx.resources_get _) as [defs |]; [| done].
    destruct (List.find _ defs); by intros <-%Ok_inj.
  - unfold TerraformTsx.updateResourceValue.
    destruct (droppedResources s !! index) as [res |]; [| done]. by intros <-%Ok_inj.
  - by intros <-%Ok_inj.
  - by intros <-%Ok_inj.
Qed.

Lemma part000_handle_category (ev : event) (s s' : State) :
  Part000.handle ev s = Ok s' ->
  selectedCategory s'
  = match ev with
    | SelectChange c => c
    | _ => selectedCategory s
    end.
Proof.
  destruct ev as [active_id | index key value | c | code]; cbn [Part000.handle].
  - unfold Part000.handleDragEnd.
    destruct (Part000.resources_get _) as [defs |]; [| done].
    destruct (List.find _ defs); by intros <-%Ok_inj.
  - unfold Part000.updateResourceValue.
    destruct (droppedResources s !! index) as [res |]; [| done]. by intros <-%Ok_inj.
  - by intros <-%Ok_inj.
  - by intros <-%Ok_inj.
Qed.

Lemma tsx_enabled_handle (ev : event) (s : State) :
  View.enabled TerraformTsx.resources TerraformTsx.resources_get s ev = true ->
  exists s', TerraformTsx.handle ev s = Ok s'.
Proof.
  destruct ev as [active_id | index key value | c | code];
    cbn [View.enabled TerraformTsx.handle].
  - unfold View.draggables, TerraformTsx.handleDragEnd.
    destruct (TerraformTsx.resources_get _) as [defs |]; [| done]. intros _.
    destruct (List.find _ defs); by eexists.
  - intros (res & Hres & _)%inputs_lookup.
    unfold TerraformTsx.updateResourceValue. rewrite Hres. by eexists.
  - intros _. by eexists.
  - intros _. by eexists.
Qed.

Lemma part000_enabled_handle (ev : event) (s : State) :
  View.enabled Part000.resources Part000.resources_get s ev = true ->
  exists s', Part000.handle ev s = Ok s'.
Proof.
  destruct ev as [active_id | index key value | c | code];
    cbn [View.enabled Part000.handle].
  - unfold View.draggables, Part000.handleDragEnd.
    destruct (Part000.resources_get _) as [defs |]; [| done]. intros _.
    destruct (List.find _ defs); by eexists.
  - intros (res & Hres & _)%inputs_lookup.
    unfold Part000.updateResourceValue. rewrite Hres. by eexists.
  - intros _. by eexists.
  - intros _. by eexists.
Qed.

(** An event the page delivers finds its category in the catalog at the
    render: the select offers the keys of the catalog, and the other
    events keep the category. *)
Lemma tsx_enabled_dispatch (ev : event) (f : TerraformTsx.Fiber) :
  (exists defs,
     TerraformTsx.resources_get (selectedCategory (TerraformTsx.state f)) = Some defs) ->
  View.enabled TerraformTsx.resources TerraformTsx.resources_get (TerraformTsx.state f) ev
  = true ->
  exists f', TerraformTsx.dispatch ev f = Ok f'.
Proof.
  intros Hkey Hen. destruct (tsx_enabled_handle ev _ Hen) as [s' Hh].
  assert (exists defs, TerraformTsx.resources_get (selectedCategory s') = Some defs)
    as [defs Hget].
  { rewrite (tsx_handle_category _ _ _ Hh).
    destruct ev as [active_id | index key value | c | code]; try done.
    by apply tsx_option_in_catalog. }
  eexists. by apply (tsx_dispatch_intro ev f s' defs).
Qed.

Lemma part000_enabled_dispatch (ev : event) (s : State) :
  (exists defs, Part000.resources_get (selectedCategory s) = Some defs) ->
  View.enabled Part000.resources Part000.resources_get s ev = true ->
  exists s',
    Part000.dispatch ev s = Ok s'
    /\ selectedCategory s'
       = match ev with
         | SelectChange c => c
         | _ => selectedCategory s
         end.
Proof.
  intros Hkey Hen. destruct (part000_enabled_handle ev _ Hen) as [s' Hh].
  pose proof (part000_handle_category _ _ _ Hh) as Hc.
  assert (exists defs, Part000.resources_get (selectedCategory s') = Some defs)
    as [defs Hget].
  { rewrite Hc.
    destruct ev as [active_id | index key value | c | code]; try done.
    by apply part000_option_in_catalog. }
  exists s'. split; [| done]. by apply (part000_dispatch_intro ev s s' defs).
Qed.

Lemma tsx_admissible_run (evs : list event) (f0 : TerraformTsx.Fiber) :
  quiescent f0 ->
  (exists defs, TerraformTsx.resources_get (selectedCategory (TerraformTsx.state f0)) = Some defs) ->
  View.admissible_tsx evs f0 = true ->
  exists f,
    TerraformTsx.run evs f0 = Ok f
    /\ exists defs, TerraformTsx.resources_get (selectedCategory (TerraformTsx.state f)) = Some defs.
Proof.
  revert f0. induction evs as [|ev evs IH]; intros f0 Hq Hcat; [by exists f0 |].
  cbn [View.admissible_tsx TerraformTsx.run]. intros [Hen Hadm]%andb_true_iff.
  destruct (tsx_enabled_dispatch ev f0 Hcat Hen) as [f1 Hd]. rewrite Hd in Hadm |- *.
  cbn [bind]. apply IH; [by eapply dispatch_quiescent | | done].
  rewrite (tsx_dispatch_category ev f0 f1 Hq Hd).
  destruct ev as [active_id | index key value | c | code]; try done.
  by apply tsx_option_in_catalog.
Qed.

Lemma part000_admissible_run (evs : list event) (s0 : State) :
  (exists defs, Part000.resources_get (selectedCategory s0) = Some defs) ->
  View.admissible_000 evs s0 = true ->
  exists s,
    Part000.run evs s0 = Ok s
    /\ exists defs, Part000.resources_get (selectedCategory s) = Some defs.
Proof.
  revert s0. induction evs as [|ev evs IH]; intros s0 Hcat; [by exists s0 |].
  cbn [View.admissible_000 Part000.run]. intros [Hen Hadm]%andb_true_iff.
  destruct (part000_enabled_dispatch ev s0 Hcat Hen) as (s1 & Hd & Hc). rewrite Hd in Hadm |- *.
  cbn [bind]. apply IH; [| done]. rewrite Hc.
  destruct ev as [active_id | index key value | c | code]; try done.
  by apply part000_option_in_catalog.
Qed.

(** X11. A session in which every event is one the rendered page can
    deliver (a drag of a listed item, a change of an input that is shown,
    a choice among the options of the select, an edit in the editor)
    never throws, in a handler or while rendering the list of draggable
    items: every handler returns a state and the selected category is
    always a key of the catalog.  In both components. *)
Theorem page_sessions_never_throw (evs : list event) :
  (View.admissible_tsx evs TerraformTsx.mount = true ->
   exists f ids,
     TerraformTsx.run evs TerraformTsx.mount = Ok f
     /\ View.draggables TerraformTsx.resources_get (TerraformTsx.state f) = Ok ids)
  /\ (View.admissible_000 evs Part000.mount = true ->
      exists s ids,
        Part000.run evs Part000.mount = Ok s
        /\ View.draggables Part000.resources_get s = Ok ids).
Proof.
  split; intros Hadm.
  - destruct (tsx_admissible_run evs TerraformTsx.mount mount_quiescent) as (f & Hrun & defs & Hget);
      [by eexists | done |].
    exists f, (id <$> defs). split; [done |]. unfold View.draggables. by rewrite Hget.
  - destruct (part000_admissible_run evs Part000.mount) as (s & Hrun & defs & Hget);
      [by eexists | done |].
    exists s, (id <$> defs). split; [done |]. unfold View.draggables. by rewrite Hget.
Qed.

Lemma page_sessions_never_throw_witness :
  exists f ids,
    TerraformTsx.run (two_dropped_session ++ [SelectChange "Docker"; DragEnd "docker_network";
                                              InputChange 0 "driver" "bridge"])
      TerraformTsx.mount = Ok f
    /\ View.draggables TerraformTsx.resources_get (TerraformTsx.state f) = Ok ids.
Proof.
  apply (proj1 (page_sessions_never_throw
                  (two_dropped_session ++ [SelectChange "Docker"; DragEnd "docker_network";
                                           InputChange 0 "driver" "bridge"]))).
  vm_compute; reflexivity.
Defined.

(** ** A change of category in Terraform.tsx, at rest *)

(** X18. In Terraform.tsx, in every state a session reaches, the choice
    of another option of the select empties the canvas by the time the
    effects of the change have come to rest: the render does not throw,
    the category is the new one, no resource is left, and the document is
    the preamble and provider block of the new category with no resource
    block.  The commit in between has set a document of the new category
    that still shows the old blocks. *)
Theorem category_change_clears_at_rest (evs : list event) (f : TerraformTsx.Fiber)
    (c : string) :
  TerraformTsx.run evs TerraformTsx.mount = Ok f ->
  existsb (String.eqb c) (View.options TerraformTsx.resources) = true ->
  c <> selectedCategory (TerraformTsx.state f) ->
  exists f',
    TerraformTsx.dispatch (SelectChange c) f = Ok f'
    /\ selectedCategory (TerraformTsx.state f') = c
    /\ droppedResources (TerraformTsx.state f') = []
    /\ terraformCode (TerraformTsx.state f')
       = TerraformTsx.generateTerraformCode (heap (TerraformTsx.state f')) c []
    /\ terraformCode (TerraformTsx.state f')
       = preamble (toLowerCase c) +:+ provider_block (toLowerCase c).
Proof.
  intros Hrun Hopt Hne.
  pose proof (run_quiescent _ _ _ mount_quiescent Hrun) as Hq.
  destruct (tsx_option_in_catalog c Hopt) as [defs Hget].
  eexists. split.
  - erewrite tsx_dispatch_intro; [| reflexivity | exact Hget].
    by rewrite (select_change_settles f c Hq Hne).
  - cbn [TerraformTsx.state selectedCategory droppedResources terraformCode heap].
    repeat split; reflexivity.
Qed.

Lemma category_change_clears_at_rest_witness :
  exists f',
    TerraformTsx.run [DragEnd "aws_s3"; SelectChange "Docker"] TerraformTsx.mount = Ok f'
    /\ selectedCategory (TerraformTsx.state f') = "Docker"
    /\ droppedResources (TerraformTsx.state f') = []
    /\ terraformCode (TerraformTsx.state f')
       = preamble "docker" +:+ provider_block "docker".
Proof.
  destruct (category_change_clears_at_rest [DragEnd "aws_s3"]
              (TerraformTsx.settle 2
                 (TerraformTsx.with_state TerraformTsx.mount
                    {| selectedCategory := "AWS";
                       droppedResources := [ {| resource := aws_s3; values := 0 |} ];
                       arrayId := 2;
                       terraformCode := terraformCode (TerraformTsx.state TerraformTsx.mount);
                       heap := [empty_object] |}))
              "Docker")
    as (f' & Hdispatch & Hcat & Hres & _ & Hcode).
  - reflexivity.
  - reflexivity.
  - discriminate.
  - exists f'. split; [| by repeat split].
    cbn [TerraformTsx.run bind]. rewrite <- Hdispatch. reflexivity.
Defined.

(** ** Resources stay where they were dropped *)

Lemma part000_dispatch_prefix (ev : event) (s s' : State) :
  Part000.dispatch ev s = Ok s' -> droppedResources s `prefix_of` droppedResources s'.
Proof.
  intros Hd%part000_dispatch_handled. revert Hd.
  destruct ev as [active_id | index key value | c | code]; cbn [Part000.handle].
  - unfold Part000.handleDragEnd.
    destruct (Part000.resources_get _) as [defs |]; [| done].
    destruct (List.find _ defs) as [r |]; intros [= <-]; [| done].
    cbn [droppedResources]. by apply prefix_app_r.
  - unfold Part000.updateResourceValue.
    destruct (droppedResources s !! index) as [res |]; by intros [= <-].
  - by intros [= <-].
  - by intros [= <-].
Qed.

(** X12. Nothing removes a single resource.  In part_000 the resources of
    a state stay, at their indices, through every further session; in
    Terraform.tsx an event either keeps the resources, adding at most one
    at the end, or it is a change to another category and empties the
    canvas. *)
Theorem resources_are_append_only (evs : list event) :
  (forall s0 s, Part000.run evs s0 = Ok s ->
     droppedResources s0 `prefix_of` droppedResources s)
  /\ (forall f ev f',
        TerraformTsx.run evs TerraformTsx.mount = Ok f ->
        TerraformTsx.dispatch ev f = Ok f' ->
        (droppedResources (TerraformTsx.state f) `prefix_of`
           droppedResources (TerraformTsx.state f')
         /\ (length (droppedResources (TerraformTsx.state f'))
             <= S (length (droppedResources (TerraformTsx.state f))))%nat)
        \/ (droppedResources (TerraformTsx.state f') = []
            /\ selectedCategory (TerraformTsx.state f')
               <> selectedCategory (TerraformTsx.state f))).
Proof.
  split.
  - induction evs as [|ev evs IH]; intros s0 s; cbn [Part000.run].
    + by intros [= <-].
    + destruct (Part000.dispatch ev s0) as [s1 |] eqn:Hd; [| done]. cbn [bind].
      intros Hrun. etrans; [by eapply part000_dispatch_prefix | by apply IH].
  - intros f ev f' Hrun.
    pose proof (run_quiescent _ _ _ mount_quiescent Hrun) as Hq.
    destruct ev as [active_id | index key value | c | code].
    + destruct (TerraformTsx.resources_get (selectedCategory (TerraformTsx.state f)))
        as [defs |] eqn:Hget.
      * destruct (List.find (fun r' => String.eqb (id r') active_id) defs) as [r |] eqn:Hfind.
        -- rewrite (tsx_drop_dispatch f active_id defs r Hq Hget Hfind). intros [= <-].
           left. cbn [TerraformTsx.state droppedResources].
           split; [by apply prefix_app_r |]. rewrite length_app. cbn [length]. lia.
        -- intros Hd%tsx_dispatch_handled; revert Hd. cbn [TerraformTsx.handle].
           unfold TerraformTsx.handleDragEnd. rewrite Hget, Hfind. cbn [bind].
           rewrite with_state_same, settle_done by done. intros [= <-]. left.
           split; [done | lia].
      * intros Hd%tsx_dispatch_handled; revert Hd. cbn [TerraformTsx.handle].
        unfold TerraformTsx.handleDragEnd. by rewrite Hget.
    + destruct (droppedResources (TerraformTsx.state f) !! index) as [res |] eqn:Hres.
      * intros Hd%tsx_dispatch_handled; revert Hd.
      rewrite (tsx_input_handled f index key value res Hq Hres). intros [= <-].
        left. cbn [TerraformTsx.state droppedResources]. split; [done | lia].
      * intros Hd%tsx_dispatch_handled; revert Hd. cbn [TerraformTsx.handle].
        unfold TerraformTsx.updateResourceValue. by rewrite Hres.
    + destruct (String.eqb_spec c (selectedCategory (TerraformTsx.state f))) as [-> | Hne].
      * intros Hd%tsx_dispatch_handled; revert Hd. cbn [TerraformTsx.handle bind].
        rewrite settle_idle by done. intros [= <-]. left.
        cbn [TerraformTsx.with_state TerraformTsx.state droppedResources].
        split; [done | lia].
      * intros Hd%tsx_dispatch_handled; revert Hd. cbn [TerraformTsx.handle bind].
      rewrite (select_change_settles f c Hq Hne). intros [= <-]. by right.
    + intros Hd%tsx_dispatch_handled; revert Hd. cbn [TerraformTsx.handle bind].
      rewrite settle_idle by done. intros [= <-]. left.
      cbn [TerraformTsx.with_state TerraformTsx.state droppedResources].
      split; [done | lia].
Qed.

Lemma resources_are_append_only_witness :
  droppedResources two_dropped
  `prefix_of`
  droppedResources
    (match Part000.run [SelectChange "Docker"; DragEnd "docker_network"] two_dropped with
     | Ok s => s
     | TypeError => two_dropped
     end).
Proof.
  apply (proj1 (resources_are_append_only [SelectChange "Docker"; DragEnd "docker_network"])).
  vm_compute; reflexivity.
Defined.

(** ** The effects come to rest *)

Lemma settle_more (n : nat) (f : TerraformTsx.Fiber) :
  quiescent (TerraformTsx.settle n f) ->
  TerraformTsx.settle (S n) f = TerraformTsx.settle n f.
Proof.
  revert f. induction n as [|n IH]; intros f.
  - cbn [TerraformTsx.settle].
    destruct (TerraformTsx.clear_pending f || TerraformTsx.render_pending f) eqn:Hp; [| done].
    intros [Hc Hr]. by rewrite Hc, Hr in Hp.
  - intros Hq. change (TerraformTsx.settle (S (S n)) f)
      with (if TerraformTsx.clear_pending f || TerraformTsx.render_pending f
            then TerraformTsx.settle (S n) (TerraformTsx.commit f) else f).
    change (TerraformTsx.settle (S n) f)
      with (if TerraformTsx.clear_pending f || TerraformTsx.render_pending f
            then TerraformTsx.settle n (TerraformTsx.commit f) else f) in Hq |- *.
    destruct (TerraformTsx.clear_pending f || TerraformTsx.render_pending f); [| done].
    by apply IH.
Qed.

Lemma commit_quiescent (f : TerraformTsx.Fiber) : quiescent f -> TerraformTsx.commit f = f.
Proof.
  intros Hq. destruct (quiescent_deps f Hq) as [Hcd Hrd]. destruct Hq as [Hc Hr].
  unfold TerraformTsx.commit. rewrite Hc, Hr.
  destruct f as [[c rs a code h] cd rd]. cbn in *. by rewrite Hcd, Hrd.
Qed.

(** X13. The effects of Terraform.tsx cannot re-render for ever: from any
    state of the component, two commits bring the effects to rest; more
    commits change nothing, whatever their number. *)
Theorem effects_come_to_rest (f : TerraformTsx.Fiber) (n : nat) :
  (2 <= n)%nat ->
  TerraformTsx.settle n f = TerraformTsx.settle 2 f
  /\ TerraformTsx.clear_pending (TerraformTsx.settle n f) = false
  /\ TerraformTsx.render_pending (TerraformTsx.settle n f) = false
  /\ TerraformTsx.commit (TerraformTsx.settle n f) = TerraformTsx.settle n f.
Proof.
  intros Hn.
  assert (Heq : TerraformTsx.settle n f = TerraformTsx.settle 2 f).
  { induction Hn as [|n Hn IH]; [done |].
    rewrite settle_more; [done |]. rewrite IH. apply settle_quiescent. }
  rewrite Heq. pose proof (settle_quiescent f) as Hq.
  split; [done |]. split; [apply Hq |]. split; [apply Hq |]. by apply commit_quiescent.
Qed.

Lemma effects_come_to_rest_witness :
  let f := {| TerraformTsx.state := two_dropped;
              TerraformTsx.clearDeps := Some "Docker";
              TerraformTsx.renderDeps := None |} in
  TerraformTsx.settle 7 f = TerraformTsx.settle 2 f
  /\ droppedResources (TerraformTsx.state (TerraformTsx.settle 7 f)) = [].
Proof.
  cbv zeta.
  destruct (effects_come_to_rest
              {| TerraformTsx.state := two_dropped;
                 TerraformTsx.clearDeps := Some "Docker";
                 TerraformTsx.renderDeps := None |} 7) as (Heq & _); [lia |].
  split; [exact Heq |]. rewrite Heq. reflexivity.
Defined.

(** ** Reading a document back *)

Lemma append_eq_length (a a' b b' : string) :
  String.length a = String.length a' -> a +:+ b = a' +:+ b' -> a = a' /\ b = b'.
Proof.
  revert a'. induction a as [|x a IH]; intros [|x' a']; try done.
  cbn [String.length]. intros [= Hlen]. rewrite !append_cons. intros [= -> Htl].
  destruct (IH a' Hlen Htl) as [-> ->]. done.
Qed.

Lemma append_cancel_r (a b c : string) : a +:+ c = b +:+ c -> a = b.
Proof.
  intros H. apply (append_eq_length a b c c); [| done].
  apply (f_equal String.length) in H. rewrite !length_append in H. lia.
Qed.

Lemma occurs_append (c : ascii) (a b : string) :
  occurs c (a +:+ b) = occurs c a || occurs c b.
Proof.
  induction a as [|x a IH]; [done |].
  rewrite append_cons. cbn [occurs]. by rewrite IH, orb_assoc.
Qed.

(** Two texts that agree up to and after the first occurrence of a code
    unit. *)
Lemma split_at_unit (c : ascii) (a a' r r' : string) :
  occurs c a = false -> occurs c a' = false ->
  a +:+ String c r = a' +:+ String c r' -> a = a' /\ r = r'.
Proof.
  revert a'. induction a as [|x a IH]; intros [|x' a']; cbn [occurs].
  - intros _ _ H. change (String c r = String c r') in H. by injection H as ->.
  - intros _ [Hx _]%orb_false_iff H.
    change (String c r = String x' (a' +:+ String c r')) in H.
    injection H as -> _. by rewrite Ascii.eqb_refl in Hx.
  - intros [Hx _]%orb_false_iff _ H.
    change (String x (a +:+ String c r) = String c r') in H.
    injection H as -> _. by rewrite Ascii.eqb_refl in Hx.
  - intros [_ Ha]%orb_false_iff [_ Ha']%orb_false_iff. rewrite !append_cons.
    intros [= -> Htl]. destruct (IH a' Ha Ha' Htl) as [-> ->]. done.
Qed.

Lemma unlines_cons (l : string) (ls : list string) :
  unlines (l :: ls) = l +:+ String (ascii_of_N 10) (unlines ls).
Proof.
  unfold unlines. cbn [fmap list_fmap text_of foldr]. by rewrite append_assoc.
Qed.

Lemma unlines_app (ls1 ls2 : list string) :
  unlines (ls1 ++ ls2) = unlines ls1 +:+ unlines ls2.
Proof. unfold unlines. by rewrite fmap_app, text_of_app. Qed.

(** A text made of lines determines its lines. *)
Lemma unlines_inj (ls1 ls2 : list string) :
  Forall (fun l => occurs (ascii_of_N 10) l = false) ls1 ->
  Forall (fun l => occurs (ascii_of_N 10) l = false) ls2 ->
  unlines ls1 = unlines ls2 -> ls1 = ls2.
Proof.
  intros H1. revert ls2. induction H1 as [|l1 ls1 Hl1 _ IH]; intros ls2 H2.
  - destruct H2 as [|l2 ls2 _ _]; [done |]. rewrite unlines_cons.
    change (unlines []) with EmptyString. by destruct l2.
  - destruct H2 as [|l2 ls2 Hl2 H2].
    + rewrite unlines_cons. change (unlines []) with EmptyString. by destruct l1.
    + rewrite !unlines_cons. intros [-> Htl]%split_at_unit; [| done | done].
      f_equal. by apply IH.
Qed.

Lemma resource_header_text (res_id : string) :
  resource_header res_id = header_text res_id +:+ nl.
Proof. unfold resource_header, header_text. by rewrite !append_assoc. Qed.

Lemma field_line_text (kv : string * string) : field_line kv = field_text kv +:+ nl.
Proof. unfold field_line, field_text. by rewrite !append_assoc. Qed.

Lemma block_of_lines (ob : string * list (string * string)) :
  block_of ob = unlines (block_lines ob).
Proof.
  unfold block_of, block_lines. rewrite unlines_cons, unlines_app, resource_header_text.
  rewrite append_assoc. f_equal. change (nl +:+ ?x) with (String (ascii_of_N 10) x). f_equal.
  f_equal.
  unfold unlines. rewrite <- list_fmap_compose. f_equal.
  apply list_fmap_ext. intros _ kv _. apply field_line_text.
Qed.

Lemma blocks_lines (obs : list (string * list (string * string))) :
  text_of (block_of <$> obs) = unlines (concat (block_lines <$> obs)).
Proof.
  induction obs as [|ob obs IH]; [done |].
  cbn [fmap list_fmap text_of foldr concat].
  fold (fmap (M := list) block_of). fold (fmap (M := list) block_lines).
  fold (text_of (block_of <$> obs)).
  by rewrite unlines_app, IH, block_of_lines.
Qed.

Lemma header_text_inj (a b : string) : header_text a = header_text b -> a = b.
Proof.
  unfold header_text. intros H. do 2 apply append_cancel_l in H.
  apply (append_eq_length a b) in H; [by destruct H |].
  apply (f_equal String.length) in H. rewrite !length_append in H.
  cbn [String.length dq] in H. lia.
Qed.

Lemma field_text_split (kv : string * string) :
  field_text kv
  = "  " +:+ (fst kv +:+ String (ascii_of_N 32) ("= " +:+ dq +:+ snd kv +:+ dq)).
Proof. reflexivity. Qed.

Lemma field_text_inj (kv1 kv2 : string * string) :
  occurs (ascii_of_N 32) (fst kv1) = false ->
  occurs (ascii_of_N 32) (fst kv2) = false ->
  field_text kv1 = field_text kv2 -> kv1 = kv2.
Proof.
  intros H1 H2. rewrite !field_text_split. intros H%append_cancel_l.
  apply split_at_unit in H as [Hk H]; [| done | done].
  do 2 apply append_cancel_l in H. apply append_cancel_r in H.
  destruct kv1, kv2. cbn [fst snd] in *. by subst.
Qed.

Lemma header_text_clean (res_id : string) :
  occurs (ascii_of_N 10) res_id = false ->
  occurs (ascii_of_N 10) (header_text res_id) = false.
Proof.
  intros H. unfold header_text. rewrite !occurs_append, H. reflexivity.
Qed.

Lemma field_text_clean (kv : string * string) :
  occurs (ascii_of_N 10) (fst kv) = false ->
  occurs (ascii_of_N 10) (snd kv) = false ->
  occurs (ascii_of_N 10) (field_text kv) = false.
Proof.
  intros Hk Hv. unfold field_text. rewrite !occurs_append, Hk, Hv. reflexivity.
Qed.

Lemma clean_parts (ob : string * list (string * string)) :
  clean ob = true ->
  occurs (ascii_of_N 10) (fst ob) = false
  /\ Forall (fun kv => occurs (ascii_of_N 32) (fst kv) = false
                       /\ occurs (ascii_of_N 10) (fst kv) = false
                       /\ occurs (ascii_of_N 10) (snd kv) = false) (snd ob).
Proof.
  unfold clean. intros [Hid Hall]%andb_true_iff. split; [by apply negb_true_iff |].
  apply Forall_forall. intros kv Hkv. rewrite forallb_forall in Hall.
  apply list_elem_of_In, Hall in Hkv.
  apply andb_true_iff in Hkv as [[H1 H2]%andb_true_iff H3].
  by rewrite !negb_true_iff in *.
Qed.

Lemma block_lines_clean (obs : list (string * list (string * string))) :
  forallb clean obs = true ->
  Forall (fun l => occurs (ascii_of_N 10) l = false) (concat (block_lines <$> obs)).
Proof.
  induction obs as [|ob obs IH]; [intros _; apply Forall_nil_2 |].
  cbn [forallb]. intros [Hob Hobs]%andb_true_iff.
  cbn [fmap list_fmap concat]. apply Forall_app. split; [| by apply IH].
  apply clean_parts in Hob as [Hid Hall]. unfold block_lines.
  apply Forall_cons. split; [by apply header_text_clean |].
  apply Forall_app. split; [| by repeat constructor].
  apply Forall_fmap. eapply Forall_impl; [exact Hall |].
  intros kv (_ & Hk & Hv). by apply field_text_clean.
Qed.

Lemma cons_eq_parts {A} (x y : A) (l k : list A) :
  x :: l = y :: k -> x = y /\ l = k.
Proof. by intros [= -> ->]. Qed.

(** The lines of the fields of a block end where the closing brace
    stands. *)
Lemma field_lines_inj (e1 e2 : list (string * string)) (L1 L2 : list string) :
  Forall (fun kv => occurs (ascii_of_N 32) (fst kv) = false) e1 ->
  Forall (fun kv => occurs (ascii_of_N 32) (fst kv) = false) e2 ->
  (field_text <$> e1) ++ "}" :: L1 = (field_text <$> e2) ++ "}" :: L2 ->
  e1 = e2 /\ L1 = L2.
Proof.
  intros H1. revert e2. induction H1 as [|kv1 e1 Hk1 _ IH]; intros e2 H2.
  - destruct H2 as [|kv2 e2 _ _]; cbn [fmap list_fmap app].
    + by intros [= ->].
    + rewrite field_text_split. by intros [=].
  - destruct H2 as [|kv2 e2 Hk2 H2]; cbn [fmap list_fmap app].
    + rewrite field_text_split. by intros [=].
    + intros H. apply cons_eq_parts in H as [Hkv Htl].
      apply field_text_inj in Hkv; [| done | done]. subst kv2.
      destruct (IH e2 H2 Htl) as [-> ->]. done.
Qed.

Lemma block_lines_inj (obs1 obs2 : list (string * list (string * string))) :
  forallb clean obs1 = true -> forallb clean obs2 = true ->
  concat (block_lines <$> obs1) = concat (block_lines <$> obs2) -> obs1 = obs2.
Proof.
  revert obs2. induction obs1 as [|[id1 e1] obs1 IH]; intros [|[id2 e2] obs2];
    cbn [forallb fmap list_fmap concat]; try done.
  intros [Hc1 Hobs1]%andb_true_iff [Hc2 Hobs2]%andb_true_iff.
  apply clean_parts in Hc1 as [_ Hall1]. apply clean_parts in Hc2 as [_ Hall2].
  unfold block_lines. cbn [fst snd app] in *. rewrite <- !app_assoc. cbn [app].
  intros [Hid Htl]%cons_eq_parts. apply header_text_inj in Hid. subst id2.
  apply field_lines_inj in Htl as [-> Htl].
  - injection Htl as Htl. f_equal. by apply IH.
  - eapply Forall_impl; [exact Hall1 |]. by intros kv (? & _).
  - eapply Forall_impl; [exact Hall2 |]. by intros kv (? & _).
Qed.

Lemma blocks_inj (obs1 obs2 : list (string * list (string * string))) :
  forallb clean obs1 = true -> forallb clean obs2 = true ->
  text_of (block_of <$> obs1) = text_of (block_of <$> obs2) -> obs1 = obs2.
Proof.
  intros H1 H2. rewrite !blocks_lines. intros H.
  apply block_lines_inj; [done | done |].
  apply unlines_inj; [by apply block_lines_clean | by apply block_lines_clean | done].
Qed.

(** X14. The document can be read back.  When the ids have no line feed,
    the keys no space or line feed and the values no line feed, two
    renders of one category that give the same text were made from the
    same ids and entries, in the same order: the renderers are injective
    there.  They are not in general: a value with a quote and a line feed
    renders like two fields. *)
Theorem document_determines_resources (h1 h2 : Heap) (c : string)
    (rs1 rs2 : list PlacedResource) :
  forallb clean (observable h1 <$> rs1) = true ->
  forallb clean (observable h2 <$> rs2) = true ->
  (TerraformTsx.generateTerraformCode h1 c rs1 = TerraformTsx.generateTerraformCode h2 c rs2
   -> observable h1 <$> rs1 = observable h2 <$> rs2)
  /\ (Part000.updateTerraformCode h1 c rs1 = Part000.updateTerraformCode h2 c rs2
      -> observable h1 <$> rs1 = observable h2 <$> rs2)
  /\ (let r := {| resource := aws_s3; values := 0 |} in
      let one := [ [("region", "a" +:+ dq +:+ nl +:+ "  bucket_name = " +:+ dq +:+ "b")] ] in
      let two := [ [("region", "a"); ("bucket_name", "b")] ] in
      observable one r <> observable two r
      /\ TerraformTsx.generateTerraformCode one c [r]
         = TerraformTsx.generateTerraformCode two c [r]).
Proof.
  intros H1 H2. split; [| split].
  - rewrite !generateTerraformCode_blocks, !resource_block_observable.
    intros H. do 2 apply append_cancel_l in H. by apply blocks_inj.
  - rewrite !updateTerraformCode_blocks, !resource_block_observable.
    intros H. apply append_cancel_l in H. by apply blocks_inj.
  - cbv zeta. split; [discriminate |].
    rewrite !generateTerraformCode_blocks. do 2 f_equal.
Qed.

Lemma document_determines_resources_witness :
  let h1 := [ [("region", "us-east-1")] ] in
  let h2 := [ []; [("region", "us-east-1")] ] in
  let r1 := {| resource := aws_s3; values := 0 |} in
  let r2 := {| resource := Part000.mk "aws_s3" "S3" []; values := 1 |} in
  TerraformTsx.generateTerraformCode h1 "AWS" [r1]
  = TerraformTsx.generateTerraformCode h2 "AWS" [r2]
  /\ observable h1 <$> [r1] = observable h2 <$> [r2].
Proof.
  cbv zeta.
  assert (H : TerraformTsx.generateTerraformCode [ [("region", "us-east-1")] ] "AWS"
                [ {| resource := aws_s3; values := 0 |} ]
              = TerraformTsx.generateTerraformCode [ []; [("region", "us-east-1")] ] "AWS"
                  [ {| resource := Part000.mk "aws_s3" "S3" []; values := 1 |} ])
    by (vm_compute; reflexivity).
  split; [exact H |].
  exact (proj1 (document_determines_resources
            [ [("region", "us-east-1")] ] [ []; [("region", "us-east-1")] ] "AWS"
            [ {| resource := aws_s3; values := 0 |} ]
            [ {| resource := Part000.mk "aws_s3" "S3" []; values := 1 |} ]
            eq_refl eq_refl) H).
Defined.

(** ** The theme *)

Lemma theme_effect_storage (d : bool) (p : Theme.Page) :
  Theme.getItem (Theme.themeEffect d p) "theme" = Some (if d then "dark" else "light").
Proof. unfold Theme.getItem, Theme.themeEffect. destruct d; cbn; apply lookup_insert_eq. Qed.

Lemma theme_effect_class (d : bool) (p : Theme.Page) :
  "dark" ∈ Theme.classList (Theme.themeEffect d p) <-> d = true.
Proof. unfold Theme.themeEffect. destruct d; cbn; set_solver. Qed.

(** The effect on a page that already shows the theme and has it stored
    changes nothing. *)
Lemma theme_effect_same (d : bool) (p : Theme.Page) :
  Theme.getItem p "theme" = Some (if d then "dark" else "light") ->
  ("dark" ∈ Theme.classList p <-> d = true) ->
  Theme.themeEffect d p = p.
Proof.
  destruct p as [m c]. unfold Theme.getItem, Theme.themeEffect. cbn.
  intros Hm Hc. destruct d; f_equal.
  - by apply insert_id.
  - assert ("dark" ∈ c) by by apply Hc. set_solver.
  - by apply insert_id.
  - assert ("dark" ∉ c) by (intros ?%Hc; done). set_solver.
Qed.

Lemma theme_clicks_shape (n : nat) (c : bool * Theme.Page) :
  (exists p, snd c = Theme.themeEffect (fst c) p) ->
  exists p, snd (Theme.clicks n c) = Theme.themeEffect (fst (Theme.clicks n c)) p.
Proof.
  revert c. induction n as [|n IH]; intros c Hc; [done |].
  cbn [Theme.clicks]. apply IH. unfold Theme.click. cbn [fst snd]. by eexists.
Qed.

(** X15. The theme is kept and found again.  After mounting on any page
    and any number of clicks on the theme button, the storage holds
    "dark" or "light" under "theme" according to the mode, and the class
    "dark" is on the document element exactly in dark mode; mounting again
    on that page (a reload) starts in the same mode and changes nothing
    on the page. *)
Theorem theme_is_persisted (p : Theme.Page) (n : nat) :
  let c := Theme.clicks n (Theme.mount p) in
  Theme.getItem (snd c) "theme" = Some (if fst c then "dark" else "light")
  /\ ("dark" ∈ Theme.classList (snd c) <-> fst c = true)
  /\ Theme.mount (snd c) = c.
Proof.
  cbv zeta.
  destruct (theme_clicks_shape n (Theme.mount p)) as [p0 Hp0]; [by eexists |].
  destruct (Theme.clicks n (Theme.mount p)) as [d p'] eqn:Hc. cbn [fst snd] in *. subst p'.
  pose proof (theme_effect_storage d p0) as Hm.
  pose proof (theme_effect_class d p0) as Hcl.
  split; [done |]. split; [done |].
  unfold Theme.mount. rewrite Hm.
  assert (Hd : bool_decide (Some (if d then "dark" else "light") = Some "dark") = d)
    by by destruct d.
  rewrite Hd. f_equal. by apply theme_effect_same.
Qed.



Lemma theme_is_persisted_witness :
  let p := {| Theme.localStorage := {[ "theme" := "dark" ]}; Theme.classList := ∅ |} in
  fst (Theme.clicks 2 (Theme.mount p)) = true
  /\ Theme.mount (snd (Theme.clicks 2 (Theme.mount p))) = Theme.clicks 2 (Theme.mount p).
Proof.
  cbv zeta. split; [reflexivity |].
  apply (theme_is_persisted
           {| Theme.localStorage := {[ "theme" := "dark" ]}; Theme.classList := ∅ |} 2).
Defined.

(** ** Sessions whose document can be read back *)

Lemma ledger_typed (clears : bool) (evs : list event)
    (g : string * list (nat * (string * string))) :
  forallb typed evs = true ->
  Forall (fun e => declared (fst (snd e)) = true
                   /\ occurs (ascii_of_N 10) (snd (snd e)) = false) (snd g) ->
  Forall (fun e => declared (fst (snd e)) = true
                   /\ occurs (ascii_of_N 10) (snd (snd e)) = false)
         (snd (fold_left (record clears) evs g)).
Proof.
  revert g. induction evs as [|ev evs IH]; intros g Hty Hg; [done |].
  cbn [forallb] in Hty. apply andb_true_iff in Hty as [Hev Hty].
  cbn [fold_left]. apply IH; [done |].
  destruct ev as [active_id | index key value | c | code]; cbn [record]; try done.
  - cbn [snd typed] in *. apply andb_true_iff in Hev as [Hk Hv]. apply negb_true_iff in Hv.
    apply Forall_app. split; [done |]. by apply Forall_singleton.
  - by destruct (_ && _).
Qed.

Lemma last_value_elem (k v : string) (edits : list (string * string)) :
  last_value k edits = Some v -> (k, v) ∈ edits.
Proof.
  induction edits as [|[k' v'] edits IH]; [done |]. cbn [last_value].
  destruct (last_value k edits) as [v0 |].
  - intros [= ->]. apply list_elem_of_further. by apply IH.
  - destruct (String.eqb_spec k' k) as [-> | _]; [| done].
    intros [= ->]. apply list_elem_of_here.
Qed.

Lemma edit_order_sub (P : string * string -> Prop) (edits : list (string * string)) :
  Forall P edits -> Forall P (edit_order edits).
Proof.
  intros Hall. apply Forall_forall. intros [k v] Hkv. unfold edit_order in Hkv.
  apply list_elem_of_omap in Hkv as (k' & _ & Hk').
  destruct (last_value k' edits) as [v' |] eqn:Hlast; [| done].
  cbn in Hk'. injection Hk' as -> ->.
  rewrite Forall_forall in Hall. by apply Hall, last_value_elem.
Qed.

Lemma declared_fields_clean :
  forallb (fun k => negb (occurs (ascii_of_N 32) k) && negb (occurs (ascii_of_N 10) k))
          (declared_fields TerraformTsx.resources) = true.
Proof. reflexivity. Qed.

Lemma declared_clean (k : string) :
  declared k = true ->
  occurs (ascii_of_N 32) k = false /\ occurs (ascii_of_N 10) k = false.
Proof.
  unfold declared. rewrite existsb_exists. intros (k' & Hin & Heq).
  apply String.eqb_eq in Heq. subst k'.
  pose proof declared_fields_clean as Hall. rewrite forallb_forall in Hall.
  apply Hall in Hin. apply andb_true_iff in Hin as [H1 H2].
  by rewrite !negb_true_iff in *.
Qed.

Lemma tsx_ids_clean :
  Forall (fun e => Forall (fun r => occurs (ascii_of_N 10) (id r) = false) (snd e))
         TerraformTsx.resources.
Proof. unfold TerraformTsx.resources. by repeat constructor. Qed.

Lemma forallb_Forall {A} (p : A -> bool) (l : list A) :
  Forall (fun x => p x = true) l -> forallb p l = true.
Proof. induction 1 as [|x l Hx _ IH]; [done |]. cbn [forallb]. by rewrite Hx, IH. Qed.

(** In a typed session of Terraform.tsx every dropped resource shows a
    clean id and clean entries. *)
Lemma typed_session_clean (evs : list event) (f : TerraformTsx.Fiber) :
  forallb typed evs = true ->
  TerraformTsx.run evs TerraformTsx.mount = Ok f ->
  forallb clean (observable (heap (TerraformTsx.state f))
                   <$> droppedResources (TerraformTsx.state f)) = true.
Proof.
  intros Hty Hrun. apply forallb_Forall, Forall_fmap, Forall_lookup. intros i res Hres.
  unfold clean, observable. cbn [fst snd compose]. apply andb_true_iff. split.
  - pose proof (tsx_run_from_catalog evs f Hrun) as Hcat. rewrite Forall_lookup in Hcat.
    destruct (Hcat i res Hres) as (defs & Hget%tsx_catalog_cases & Hin).
    pose proof tsx_ids_clean as Hids. rewrite Forall_forall in Hids.
    specialize (Hids _ Hget). cbn [snd] in Hids. rewrite Forall_forall in Hids.
    by rewrite (Hids _ Hin).
  - destruct mount_tracks as [Htr _].
    destruct (tsx_run_tracks _ _ _ _ mount_quiescent Htr Hrun) as (_ & _ & Hlog).
    specialize (Hlog i). rewrite Hres in Hlog. rewrite Hlog.
    assert (Hedits : Forall (fun kv => declared (fst kv) = true
                                       /\ occurs (ascii_of_N 10) (snd kv) = false)
                            (edits_at i (snd (fold_left (record true) evs ("AWS", []))))).
    { unfold edits_at. apply Forall_fmap, Forall_forall. intros e He.
      apply list_elem_of_In, filter_In in He as [He _].
      pose proof (ledger_typed true evs ("AWS", []) Hty (Forall_nil_2 _)) as Hall.
      rewrite Forall_forall in Hall. apply Hall. by apply list_elem_of_In. }
    rewrite entries_in_edit_order.
    + apply forallb_Forall. apply edit_order_sub. eapply Forall_impl; [exact Hedits |].
      intros kv [Hk Hv]. destruct (declared_clean _ Hk) as [H1 H2].
      by rewrite H1, H2, Hv.
    + eapply Forall_impl; [exact Hedits |]. intros kv [Hk _]. by apply declared_plain.
Qed.

(** X17. In Terraform.tsx the document is a faithful view of the canvas.
    Take two sessions in which the editor is left alone and the inputs
    of the form receive text without line feed.  If they end in the same
    category with the same document, their canvases show the same
    resources: the same ids with the same entries, in the same order. *)
Theorem typed_sessions_read_back (evs1 evs2 : list event) (f1 f2 : TerraformTsx.Fiber) :
  forallb typed evs1 = true ->
  forallb typed evs2 = true ->
  TerraformTsx.run evs1 TerraformTsx.mount = Ok f1 ->
  TerraformTsx.run evs2 TerraformTsx.mount = Ok f2 ->
  selectedCategory (TerraformTsx.state f1) = selectedCategory (TerraformTsx.state f2) ->
  terraformCode (TerraformTsx.state f1) = terraformCode (TerraformTsx.state f2) ->
  observable (heap (TerraformTsx.state f1)) <$> droppedResources (TerraformTsx.state f1)
  = observable (heap (TerraformTsx.state f2)) <$> droppedResources (TerraformTsx.state f2).
Proof.
  intros Hty1 Hty2 Hrun1 Hrun2 Hcat Hdoc.
  assert (Hed : forall evs, forallb typed evs = true ->
                  forallb (fun ev => negb (is_editor_change ev)) evs = true).
  { intros evs Hty. rewrite forallb_forall in Hty |- *. intros ev Hev.
    specialize (Hty ev Hev). by destruct ev. }
  pose proof (tsx_run_synced evs1 _ f1 mount_quiescent mount_synced (Hed _ Hty1) Hrun1) as Hs1.
  pose proof (tsx_run_synced evs2 _ f2 mount_quiescent mount_synced (Hed _ Hty2) Hrun2) as Hs2.
  unfold synced in Hs1, Hs2. rewrite Hs1, Hs2, Hcat in Hdoc.
  rewrite !generateTerraformCode_blocks, !resource_block_observable in Hdoc.
  do 2 apply append_cancel_l in Hdoc.
  apply blocks_inj; [by apply (typed_session_clean evs1) | by apply (typed_session_clean evs2) | done].
Qed.

Lemma typed_sessions_read_back_witness :
  let evs1 := [ DragEnd "aws_s3"; InputChange 0 "region" "eu" ] in
  let evs2 := [ SelectChange "Docker"; SelectChange "AWS"; DragEnd "aws_s3";
                InputChange 0 "region" "e"; InputChange 0 "region" "eu" ] in
  let f1 := match TerraformTsx.run evs1 TerraformTsx.mount with
            | Ok f => f
            | TypeError => TerraformTsx.mount
            end in
  let f2 := match TerraformTsx.run evs2 TerraformTsx.mount with
            | Ok f => f
            | TypeError => TerraformTsx.mount
            end in
  observable (heap (TerraformTsx.state f1)) <$> droppedResources (TerraformTsx.state f1)
  = observable (heap (TerraformTsx.state f2)) <$> droppedResources (TerraformTsx.state f2).
Proof.
  cbv zeta.
  apply (typed_sessions_read_back
           [ DragEnd "aws_s3"; InputChange 0 "region" "eu" ]
           [ SelectChange "Docker"; SelectChange "AWS"; DragEnd "aws_s3";
             InputChange 0 "region" "e"; InputChange 0 "region" "eu" ]);
    vm_compute; reflexivity.
Defined.
